(** * Receipt processor: field validation and point calculation

    A shallow embedding of [app.py]: the pydantic models [Item] and
    [Receipt] with their field validators, and [calculate_points].

    Python values are modelled as follows.
    - [str] is a list of Unicode code points.
    - Exceptions are explicit: a computation returns [Ok v] or [Raise e].
    - [float] is IEEE 754 binary64, through [SpecFloat] with precision 53
      and maximal exponent 1024; every operation is correctly rounded to
      nearest, ties to even, as CPython's are.
    - The Unicode character database is a parameter [U : ucd]; whitespace,
      which CPython hard-codes, is defined here. *)

From Stdlib Require Import ZArith List Bool Lia String Ascii Permutation.
From Stdlib Require Import Floats.SpecFloat.
Import ListNotations.
Local Open Scope Z_scope.

(** ** Exceptions *)

(** Where a pydantic validation error points: a field name or a list index. *)
Inductive loc_item : Type :=
| Field (name : string)
| Index (i : nat).

(** The pydantic error kinds the two models can produce. *)
Inductive error_type : Type :=
| missing
| string_type
| list_type
| model_type
| value_error (msg : string).

Record error_details : Type := mk_error {
  loc : list loc_item;
  type_ : error_type
}.

Inductive exn : Type :=
| ValueError (msg : string)
| OverflowError
| ZeroDivisionError
| ValidationError (errors : list error_details).

Inductive result (A : Type) : Type :=
| Ok (a : A)
| Raise (e : exn).

Arguments Ok {A} a.
Arguments Raise {A} e.

Definition bind {A B : Type} (m : result A) (k : A -> result B) : result B :=
  match m with
  | Ok a => k a
  | Raise e => Raise e
  end.

Notation "x <- m ;; k" := (bind m (fun x => k))
  (at level 61, m at next level, right associativity).
Notation "' pat <- m ;; k" := (bind m (fun pat => k))
  (at level 61, pat pattern, m at next level, right associativity).

(** [try: m except Exception as err: handler err] *)
Definition try_except {A : Type} (m : result A) (handler : exn -> result A)
  : result A :=
  match m with
  | Ok a => Ok a
  | Raise e => handler e
  end.

(** ** Strings *)

Definition char : Type := Z.
Definition pystr : Type := list char.

Definition chr (a : ascii) : char := Z.of_N (N_of_ascii a).

(** An ASCII literal as a Python string. *)
Definition str (s : string) : pystr := map chr (list_ascii_of_string s).
Arguments str s%_string.

(** [str.isspace] on one character, the set regular expressions use for
    [\s] and [str.strip] removes: CPython's [_PyUnicode_IsWhitespace]. *)
Definition isspace (c : char) : bool :=
  ((9 <=? c) && (c <=? 13)) || ((28 <=? c) && (c <=? 32))
  || (c =? 133) || (c =? 160) || (c =? 5760)
  || ((8192 <=? c) && (c <=? 8202))
  || (c =? 8232) || (c =? 8233) || (c =? 8239) || (c =? 8287)
  || (c =? 12288).

(** Removal of the leading characters that satisfy [p], and of those at
    both ends. *)
Fixpoint lstrip_with (p : char -> bool) (s : pystr) : pystr :=
  match s with
  | [] => []
  | c :: s' => if p c then lstrip_with p s' else s
  end.

Definition strip_with (p : char -> bool) (s : pystr) : pystr :=
  rev (lstrip_with p (rev (lstrip_with p s))).

(** [s.strip()] *)
Definition strip (s : pystr) : pystr := strip_with isspace s.

(** The whitespace [int] and [float] skip around a literal: CPython maps
    the whitespace above ASCII to a space first, and then skips the
    whitespace of C's [isspace], of which 28 to 31 are not. *)
Definition isspace_numeric (c : char) : bool :=
  if c <? 128 then ((9 <=? c) && (c <=? 13)) || (c =? 32) else isspace c.

Fixpoint startswith (s prefix : pystr) : bool :=
  match prefix, s with
  | [], _ => true
  | _ :: _, [] => false
  | p :: prefix', c :: s' => (p =? c) && startswith s' prefix'
  end.

(** [s.endswith(suffix)] *)
Definition endswith (s suffix : pystr) : bool :=
  startswith (rev s) (rev suffix).

(** ** The Unicode character database

    [isalnum] is [str.isalnum] on one character; [decimal c] is the value
    of [c] when it is a decimal digit (category Nd), the characters [\d]
    matches and [int] and [float] read.  The three laws hold of the real
    database: a decimal digit has a value below ten, on ASCII the
    decimal digits are exactly [0-9], and no whitespace character is a
    decimal digit. *)
Record ucd : Type := mk_ucd {
  isalnum : char -> bool;
  decimal : char -> option nat;
  decimal_digit : forall c d, decimal c = Some d -> (d < 10)%nat;
  decimal_ascii : forall c, 0 <= c < 128 ->
    decimal c =
    if (48 <=? c) && (c <=? 57) then Some (Z.to_nat (c - 48)) else None;
  decimal_space : forall c, isspace c = true -> decimal c = None
}.

Definition isdecimal (U : ucd) (c : char) : bool :=
  match decimal U c with
  | Some _ => true
  | None => false
  end.

(** The database cut down to ASCII: letters and digits are alphanumeric,
    [0-9] are the decimal digits.  It agrees with CPython on every code
    point below 128 and serves to evaluate ASCII examples. *)
Definition ascii_isalnum (c : char) : bool :=
  ((48 <=? c) && (c <=? 57)) || ((65 <=? c) && (c <=? 90))
  || ((97 <=? c) && (c <=? 122)).

Definition ascii_decimal (c : char) : option nat :=
  if (0 <=? c) && (c <? 128) then
    if (48 <=? c) && (c <=? 57) then Some (Z.to_nat (c - 48)) else None
  else None.

Definition ascii_ucd : ucd.
Proof.
  refine (mk_ucd ascii_isalnum ascii_decimal _ _ _).
  - intros c d. unfold ascii_decimal.
    destruct ((0 <=? c) && (c <? 128)); [|discriminate].
    destruct ((48 <=? c) && (c <=? 57)) eqn:Hd; [|discriminate].
    apply andb_true_iff in Hd. destruct Hd as [H1 H2].
    apply Z.leb_le in H1. apply Z.leb_le in H2.
    intros H. injection H as <-. lia.
  - intros c Hc. unfold ascii_decimal.
    replace ((0 <=? c) && (c <? 128)) with true; [reflexivity|].
    symmetry. apply andb_true_iff. split; [apply Z.leb_le | apply Z.ltb_lt]; lia.
  - intros c Hc. unfold ascii_decimal.
    destruct ((0 <=? c) && (c <? 128)); [|reflexivity].
    destruct ((48 <=? c) && (c <=? 57)) eqn:Hd; [|reflexivity].
    apply andb_true_iff in Hd. destruct Hd as [H1 H2].
    apply Z.leb_le in H1. apply Z.leb_le in H2.
    unfold isspace in Hc.
    repeat (apply orb_true_iff in Hc; destruct Hc as [Hc|Hc]);
      repeat (apply andb_true_iff in Hc; destruct Hc as [? Hc]);
      repeat match goal with
             | H : (_ <=? _) = true |- _ => apply Z.leb_le in H
             | H : (_ =? _) = true |- _ => apply Z.eqb_eq in H
             end; lia.
Defined.

(** ** Regular expressions

    The fragment of [re] the validators use: anchors, literal characters,
    and a character set repeated one or more times or exactly [n] times.
    Matching is Python's with no flags: [^] holds at position 0 only and
    [$] holds at the end of the string or just before a newline that ends
    the string. *)

Inductive cclass : Type :=
| ClsDigit            (* \d *)
| ClsWord             (* \w *)
| ClsSpace            (* \s *)
| ClsChar (c : char). (* the character itself *)

Inductive token : Type :=
| Bol                               (* ^ *)
| Eol                               (* $ *)
| Lit (c : char)                    (* an escaped or plain literal *)
| Plus (set : list cclass)          (* [set]+ *)
| Rep (n : nat) (set : list cclass) (* [set]{n} *).

Definition regex : Type := list token.

Definition in_cclass (U : ucd) (k : cclass) (c : char) : bool :=
  match k with
  | ClsDigit => isdecimal U c
  | ClsWord => isalnum U c || (c =? chr "_")
  | ClsSpace => isspace c
  | ClsChar d => c =? d
  end.

Definition in_set (U : ucd) (set : list cclass) (c : char) : bool :=
  existsb (fun k => in_cclass U k c) set.

Definition at_eol (s : pystr) : bool :=
  match s with
  | [] => true
  | [c] => c =? 10
  | _ => false
  end.

(** Whether [re] matches starting at position [pos], where [s] is what is
    left of the subject.  Every way of splitting the subject is tried, as
    a backtracking matcher does. *)
Fixpoint match_here (U : ucd) (re : regex) (pos : nat) (s : pystr)
  {struct re} : bool :=
  match re with
  | [] => true
  | Bol :: re' => Nat.eqb pos 0 && match_here U re' pos s
  | Eol :: re' => at_eol s && match_here U re' pos s
  | Lit c :: re' =>
      match s with
      | [] => false
      | d :: s' => (c =? d) && match_here U re' (S pos) s'
      end
  | Plus set :: re' =>
      (fix plus (pos : nat) (s : pystr) {struct s} : bool :=
         match s with
         | [] => false
         | c :: s' =>
             in_set U set c
             && (plus (S pos) s' || match_here U re' (S pos) s')
         end) pos s
  | Rep n set :: re' =>
      (fix rep (n : nat) (pos : nat) (s : pystr) {struct n} : bool :=
         match n with
         | O => match_here U re' pos s
         | S n' =>
             match s with
             | [] => false
             | c :: s' => in_set U set c && rep n' (S pos) s'
             end
         end) n pos s
  end.

(** [re.match(re, s)] is not [None]. *)
Definition re_match (U : ucd) (re : regex) (s : pystr) : bool :=
  match_here U re 0%nat s.

(** [r"^\d+\.\d{2}$"] *)
Definition price_re : regex :=
  [Bol; Plus [ClsDigit]; Lit (chr "."); Rep 2 [ClsDigit]; Eol].

(** [r"^[\w\s\-&]+$"] *)
Definition retailer_re : regex :=
  [Bol; Plus [ClsWord; ClsSpace; ClsChar (chr "-"); ClsChar (chr "&")]; Eol].

(** [r"^\d{4}-\d{2}-\d{2}$"] *)
Definition date_re : regex :=
  [Bol; Rep 4 [ClsDigit]; Lit (chr "-"); Rep 2 [ClsDigit]; Lit (chr "-");
   Rep 2 [ClsDigit]; Eol].

(** [r"^\d{2}:\d{2}$"] *)
Definition time_re : regex :=
  [Bol; Rep 2 [ClsDigit]; Lit (chr ":"); Rep 2 [ClsDigit]; Eol].

(** ** Floating point

    Python's [float] is binary64. *)

Definition prec : Z := 53.
Definition emax : Z := 1024.

(** The binary64 number nearest to [n / d], ties to even, with sign [neg]. *)
Definition round_ratio (neg : bool) (n d : positive) : spec_float :=
  let '(q, e, l) := SFdiv_core_binary prec emax (Zpos n) 0 (Zpos d) 0 in
  binary_round_aux prec emax neg q e l.

(** The binary64 number nearest to [n / 10 ^ k]. *)
Definition float_of_decimal (neg : bool) (n : Z) (k : nat) : spec_float :=
  match n with
  | Zpos p => round_ratio neg p (Z.to_pos (10 ^ Z.of_nat k))
  | _ => S754_zero neg
  end.

Definition split_sign (s : pystr) : bool * pystr :=
  match s with
  | [] => (false, [])
  | c :: s' =>
      if c =? chr "-" then (true, s')
      else if c =? chr "+" then (false, s')
      else (false, s)
  end.

(** The decimal digits [s] starts with, and what follows them. *)
Fixpoint span_digits (U : ucd) (s : pystr) : list nat * pystr :=
  match s with
  | [] => ([], [])
  | c :: s' =>
      match decimal U c with
      | Some d => let '(ds, rest) := span_digits U s' in (d :: ds, rest)
      | None => ([], s)
      end
  end.

Definition digits_value (ds : list nat) : Z :=
  fold_left (fun acc d => 10 * acc + Z.of_nat d) ds 0.

(** [float(s)] on the literals of the form [sign? digits? (. digits?)?]
    with at least one digit, surrounded by optional whitespace.  CPython
    converts a decimal literal to the nearest binary64 number.  The other
    forms [float] accepts (an exponent, underscores between digits, [inf]
    and [nan]) are left out: no validated field has them, and on them this
    model raises. *)
Definition py_float (U : ucd) (s : pystr) : result spec_float :=
  let '(neg, body) := split_sign (strip_with isspace_numeric s) in
  let '(ip, rest) := span_digits U body in
  let '(fp, rest') :=
    match rest with
    | c :: t => if c =? chr "." then span_digits U t else ([], rest)
    | [] => ([], [])
    end in
  match ip ++ fp, rest' with
  | _ :: _, [] =>
      Ok (float_of_decimal neg (digits_value (ip ++ fp)) (List.length fp))
  | _, _ => Raise (ValueError "could not convert string to float")
  end.

(** [x * y] on floats. *)
Definition float_mul (x y : spec_float) : spec_float := SFmul prec emax x y.

(** The literals [0.2] and [0.25]. *)
Definition lit_0_2 : spec_float := S754_finite false 7205759403792794 (-55).
Definition lit_0_25 : spec_float := S754_finite false 4503599627370496 (-54).

(** C's [fmod]: the remainder of the division truncated towards zero,
    which is exact. *)
Definition fmod (x y : spec_float) : spec_float :=
  match x, y with
  | S754_nan, _ | _, S754_nan => S754_nan
  | S754_infinity _, _ => S754_nan
  | _, S754_zero _ => S754_nan
  | S754_zero _, _ => x
  | S754_finite _ _ _, S754_infinity _ => x
  | S754_finite sx mx ex, S754_finite _ my ey =>
      let e := Z.min ex ey in
      let r := (Zpos mx * 2 ^ (ex - e)) mod (Zpos my * 2 ^ (ey - e)) in
      binary_normalize prec emax (cond_Zopp sx r) e sx
  end.

Definition float_zero : spec_float := S754_zero false.

(** [x % y] on floats, CPython's [float_rem]: the result takes the sign of
    the divisor. *)
Definition float_rem (vx wx : spec_float) : result spec_float :=
  match wx with
  | S754_zero _ => Raise ZeroDivisionError
  | _ =>
      let m := fmod vx wx in
      if SFeqb m float_zero then
        Ok (S754_zero (SFltb wx float_zero))
      else if xorb (SFltb wx float_zero) (SFltb m float_zero) then
        Ok (SFadd prec emax m wx)
      else Ok m
  end.

(** [x == 0] for a float [x]. *)
Definition float_is_zero (x : spec_float) : bool := SFeqb x float_zero.

(** The integer nearest to [m * 2 ^ e], ties to even. *)
Definition round_half_even (m e : Z) : Z :=
  if 0 <=? e then m * 2 ^ e
  else
    let d := 2 ^ (- e) in
    let q := m / d in
    match 2 * (m mod d) ?= d with
    | Lt => q
    | Gt => q + 1
    | Eq => if Z.even q then q else q + 1
    end.

(** [round(x)] for a float [x]: an [int], by [float.__round__]. *)
Definition py_round (x : spec_float) : result Z :=
  match x with
  | S754_nan => Raise (ValueError "cannot convert float NaN to integer")
  | S754_infinity _ => Raise OverflowError
  | S754_zero _ => Ok 0
  | S754_finite s m e => Ok (cond_Zopp s (round_half_even (Zpos m) e))
  end.

(** ** Integers from text *)

Definition all_digits (U : ucd) (s : pystr) : option (list nat) :=
  match span_digits U s with
  | (ds, []) => Some ds
  | _ => None
  end.

(** [int(s)] on the literals [sign? digits] surrounded by optional
    whitespace (underscores between digits are left out). *)
Definition py_int (U : ucd) (s : pystr) : result Z :=
  let '(neg, body) := split_sign (strip_with isspace_numeric s) in
  match body, all_digits U body with
  | _ :: _, Some ds => Ok (cond_Zopp neg (digits_value ds))
  | _, _ => Raise (ValueError "invalid literal for int() with base 10")
  end.

(** ** Dates and times *)

Record date : Type := mk_date {
  date_year : Z;
  date_month : Z;
  date_day : Z
}.

Record datetime : Type := mk_datetime {
  year : Z;
  month : Z;
  day : Z;
  hour : Z;
  minute : Z
}.

Definition is_leap (y : Z) : bool :=
  (y mod 4 =? 0) && (negb (y mod 100 =? 0) || (y mod 400 =? 0)).

Definition days_in_month (y m : Z) : Z :=
  if m =? 2 then (if is_leap y then 29 else 28)
  else if (m =? 4) || (m =? 6) || (m =? 9) || (m =? 11) then 30
  else 31.

(** The checks of the [date] constructor: [MINYEAR] is 1, [MAXYEAR] 9999. *)
Definition check_date_fields (y m d : Z) : bool :=
  (1 <=? y) && (y <=? 9999) && (1 <=? m) && (m <=? 12)
  && (1 <=? d) && (d <=? days_in_month y m).

Definition check_time_fields (h mi : Z) : bool :=
  (0 <=? h) && (h <=? 23) && (0 <=? mi) && (mi <=? 59).

(** [datetime(y, m, d, h, mi)] *)
Definition new_datetime (y m d h mi : Z) : result datetime :=
  if check_date_fields y m d then
    if check_time_fields h mi then Ok (mk_datetime y m d h mi)
    else Raise (ValueError "hour or minute out of range")
  else Raise (ValueError "year, month or day out of range").

(** [dt.date()] *)
Definition date_of (dt : datetime) : date :=
  mk_date (year dt) (month dt) (day dt).

(** [a > b] on dates: the order of the triples (year, month, day). *)
Definition date_gtb (a b : date) : bool :=
  (date_year b <? date_year a)
  || ((date_year b =? date_year a)
      && ((date_month b <? date_month a)
          || ((date_month b =? date_month a)
              && (date_day b <? date_day a)))).

(** *** [datetime.strptime]

    [_strptime] turns the format into a regular expression with one named
    group per directive, matches it at the start of the text, rejects text
    it did not consume entirely, converts the groups with [int] and builds
    the [datetime].  A group is an alternation of fixed-length sequences
    of one-character classes, tried from left to right. *)

Inductive directive : Type := Dir_Y | Dir_m | Dir_d | Dir_H | Dir_M.

Inductive piece : Type :=
| PDir (k : directive)  (* %Y and the like *)
| PLit (c : char).      (* any other character of the format *)

Definition in_range (lo hi : ascii) (c : char) : bool :=
  (chr lo <=? c) && (c <=? chr hi).

Definition is_char (a : ascii) (c : char) : bool := c =? chr a.

(** The alternatives of each directive's group, as in [TimeRE]. *)
Definition alternatives (U : ucd) (k : directive)
  : list (list (char -> bool)) :=
  let d := isdecimal U in
  match k with
  | Dir_Y => [[d; d; d; d]]                          (* \d\d\d\d *)
  | Dir_m => [[is_char "1"; in_range "0" "2"];         (* 1[0-2] *)
              [is_char "0"; in_range "1" "9"];         (* 0[1-9] *)
              [in_range "1" "9"]]                      (* [1-9] *)
  | Dir_d => [[is_char "3"; in_range "0" "1"];         (* 3[0-1] *)
              [in_range "1" "2"; d];                   (* [1-2]\d *)
              [is_char "0"; in_range "1" "9"];         (* 0[1-9] *)
              [in_range "1" "9"];                      (* [1-9] *)
              [is_char " "; in_range "1" "9"]]         (*  [1-9] *)
  | Dir_H => [[is_char "2"; in_range "0" "3"];         (* 2[0-3] *)
              [in_range "0" "1"; d];                   (* [0-1]\d *)
              [d]]                                     (* \d *)
  | Dir_M => [[in_range "0" "5"; d];                   (* [0-5]\d *)
              [d]]                                     (* \d *)
  end.

(** Match a sequence of one-character classes at the start of [s]: the
    text matched and the rest. *)
Fixpoint match_seq (cls : list (char -> bool)) (s : pystr)
  : option (pystr * pystr) :=
  match cls with
  | [] => Some ([], s)
  | p :: cls' =>
      match s with
      | [] => None
      | c :: s' =>
          if p c then
            match match_seq cls' s' with
            | Some (txt, rest) => Some (c :: txt, rest)
            | None => None
            end
          else None
      end
  end.

(** The first match of the format at the start of [s], backtracking over
    the alternatives: the groups found and the text left over. *)
Fixpoint match_format (U : ucd) (fmt : list piece) (s : pystr)
  : option (list (directive * pystr) * pystr) :=
  match fmt with
  | [] => Some ([], s)
  | PLit c :: fmt' =>
      match s with
      | [] => None
      | d :: s' => if c =? d then match_format U fmt' s' else None
      end
  | PDir k :: fmt' =>
      (fix first_alt (alts : list (list (char -> bool))) :=
         match alts with
         | [] => None
         | a :: alts' =>
             match match_seq a s with
             | Some (txt, rest) =>
                 match match_format U fmt' rest with
                 | Some (found, remaining) => Some ((k, txt) :: found, remaining)
                 | None => first_alt alts'
                 end
             | None => first_alt alts'
             end
         end) (alternatives U k)
  end.

(** The fields [_strptime] fills in; the year stays unset until a [%Y] and
    is 1900 in the result when there is none. *)
Record parsed : Type := mk_parsed {
  p_year : option Z;
  p_month : Z;
  p_day : Z;
  p_hour : Z;
  p_minute : Z
}.

Definition parsed_default : parsed := mk_parsed None 1 1 0 0.

Definition set_field (U : ucd) (acc : parsed) (g : directive * pystr)
  : result parsed :=
  let '(k, txt) := g in
  v <- py_int U txt ;;
  Ok match k with
     | Dir_Y => mk_parsed (Some v) (p_month acc) (p_day acc)
                  (p_hour acc) (p_minute acc)
     | Dir_m => mk_parsed (p_year acc) v (p_day acc)
                  (p_hour acc) (p_minute acc)
     | Dir_d => mk_parsed (p_year acc) (p_month acc) v
                  (p_hour acc) (p_minute acc)
     | Dir_H => mk_parsed (p_year acc) (p_month acc) (p_day acc)
                  v (p_minute acc)
     | Dir_M => mk_parsed (p_year acc) (p_month acc) (p_day acc)
                  (p_hour acc) v
     end.

Fixpoint set_fields (U : ucd) (acc : parsed)
  (found : list (directive * pystr)) : result parsed :=
  match found with
  | [] => Ok acc
  | g :: found' => acc' <- set_field U acc g ;; set_fields U acc' found'
  end.

(** [datetime.strptime(s, fmt)] *)
Definition strptime (U : ucd) (s : pystr) (fmt : list piece)
  : result datetime :=
  match match_format U fmt s with
  | None => Raise (ValueError "time data does not match format")
  | Some (found, _ :: _) => Raise (ValueError "unconverted data remains")
  | Some (found, []) =>
      p <- set_fields U parsed_default found ;;
      let y :=
        match p_year p with
        | Some y => y
        | None => 1900
        end in
      new_datetime y (p_month p) (p_day p) (p_hour p) (p_minute p)
  end.

(** ['%Y-%m-%d'] *)
Definition fmt_date : list piece :=
  [PDir Dir_Y; PLit (chr "-"); PDir Dir_m; PLit (chr "-"); PDir Dir_d].

(** ['%H:%M'] *)
Definition fmt_time : list piece :=
  [PDir Dir_H; PLit (chr ":"); PDir Dir_M].

(** ** The models

    [class Item(BaseModel)] and [class Receipt(BaseModel)]. *)

Record Item : Type := mk_Item {
  shortDescription : pystr;
  price : pystr
}.

Record Receipt : Type := mk_Receipt {
  retailer : pystr;
  purchaseDate : pystr;
  purchaseTime : pystr;
  items : list Item;
  total : pystr
}.

(** [Item.validate_price] *)
Definition validate_price (U : ucd) (v : pystr) : result pystr :=
  if negb (re_match U price_re v) then
    Raise (ValueError "Item price must be in the format '0.00'")
  else Ok v.

(** [Receipt.validate_retailer] *)
Definition validate_retailer (U : ucd) (v : pystr) : result pystr :=
  if negb (re_match U retailer_re v) then
    Raise (ValueError "Retailer name price must not be blank")
  else Ok v.

(** [Receipt.validate_purchaseDate]; [today] is [datetime.today().date()],
    the date of the server's local clock. *)
Definition validate_purchaseDate (U : ucd) (today : date) (v : pystr)
  : result pystr :=
  if negb (re_match U date_re v) then
    Raise (ValueError "Purchase date must be in the format 'YYYY-MM-DD'")
  else
    _ <- try_except
           (dt <- strptime U v fmt_date ;;
            let purchase_date := date_of dt in
            if date_gtb purchase_date today then
              Raise (ValueError "Purchase date cannot be in the future")
            else Ok tt)
           (fun err => Raise (ValueError "Purchase date must be correct")) ;;
    Ok v.

(** [Receipt.validate_purchaseTime] *)
Definition validate_purchaseTime (U : ucd) (v : pystr) : result pystr :=
  if negb (re_match U time_re v) then
    Raise (ValueError "Purchase time must be in the 24h format'HH:MM'")
  else
    _ <- try_except
           (_ <- strptime U v fmt_time ;; Ok tt)
           (fun err => Raise (ValueError "Purchase time must be correct")) ;;
    Ok v.

(** [Receipt.validate_total] *)
Definition validate_total (U : ucd) (v : pystr) : result pystr :=
  if negb (re_match U price_re v) then
    Raise (ValueError "Total must be in the format '0.00'")
  else Ok v.

(** *** Construction from decoded JSON

    The construction of a [Receipt] from the members of [data], what
    [request.get_json()] decoded.
    An object is the list of its members, each key once. *)

#[warnings="-register-all"] Inductive json : Type :=
| JNull
| JBool (b : bool)
| JNumber (n : Z)
| JString (s : pystr)
| JArray (elems : list json)
| JObject (members : list (string * json)).

Fixpoint lookup (key : string) (members : list (string * json))
  : option json :=
  match members with
  | [] => None
  | (k, v) :: members' =>
      if String.eqb key k then Some v else lookup key members'
  end.

(** A field annotated [str] with a [field_validator]: the field must be
    present and a string; the validator then runs, and a [ValueError] it
    raises becomes a [value_error] at the field. *)
Definition str_field (name : string) (validator : pystr -> result pystr)
  (members : list (string * json)) : result pystr :=
  match lookup name members with
  | None => Raise (ValidationError [mk_error [Field name] missing])
  | Some (JString s) =>
      match validator s with
      | Ok v => Ok v
      | Raise (ValueError msg) =>
          Raise (ValidationError [mk_error [Field name] (value_error msg)])
      | Raise e => Raise e
      end
  | Some _ => Raise (ValidationError [mk_error [Field name] string_type])
  end.

Definition at_loc (prefix : list loc_item) (e : error_details)
  : error_details :=
  mk_error (prefix ++ loc e) (type_ e).

(** pydantic goes through all fields and gathers their errors; any other
    exception ends the validation at once. *)
Definition gather {A : Type} (m : result A) (errs : list error_details)
  : result (option A * list error_details) :=
  match m with
  | Ok a => Ok (Some a, errs)
  | Raise (ValidationError es) => Ok (None, errs ++ es)
  | Raise e => Raise e
  end.

(** Validation of an [Item] from a JSON value. *)
Definition Item_validate (U : ucd) (j : json) : result Item :=
  match j with
  | JObject members =>
      '(d, errs) <- gather (str_field "shortDescription" Ok members) [] ;;
      '(p, errs) <- gather (str_field "price" (validate_price U) members)
                      errs ;;
      match d, p, errs with
      | Some d, Some p, [] => Ok (mk_Item d p)
      | _, _, _ => Raise (ValidationError errs)
      end
  | _ => Raise (ValidationError [mk_error [] model_type])
  end.

(** Validation of the elements of a [List[Item]], from index [i] on: the
    errors of all elements are gathered, each under its index. *)
Fixpoint Items_validate (U : ucd) (i : nat) (elems : list json)
  : result (list Item) :=
  match elems with
  | [] => Ok []
  | j :: elems' =>
      '(it, errs) <- gather (Item_validate U j) [] ;;
      '(rest, errs') <- gather (Items_validate U (S i) elems') [] ;;
      match it, rest, map (at_loc [Index i]) errs ++ errs' with
      | Some it, Some rest, [] => Ok (it :: rest)
      | _, _, all => Raise (ValidationError all)
      end
  end.

Definition items_field (U : ucd) (members : list (string * json))
  : result (list Item) :=
  match lookup "items" members with
  | None => Raise (ValidationError [mk_error [Field "items"] missing])
  | Some (JArray elems) =>
      match Items_validate U 0 elems with
      | Raise (ValidationError es) =>
          Raise (ValidationError (map (at_loc [Field "items"]) es))
      | r => r
      end
  | Some _ => Raise (ValidationError [mk_error [Field "items"] list_type])
  end.

(** The constructor call of [process_receipt]: the fields are validated
    in the order the class declares them. *)
Definition Receipt_validate (U : ucd) (today : date)
  (data : list (string * json)) : result Receipt :=
  '(r, errs) <- gather (str_field "retailer" (validate_retailer U) data)
                  [] ;;
  '(d, errs) <- gather (str_field "purchaseDate"
                          (validate_purchaseDate U today) data) errs ;;
  '(t, errs) <- gather (str_field "purchaseTime"
                          (validate_purchaseTime U) data) errs ;;
  '(its, errs) <- gather (items_field U data) errs ;;
  '(tot, errs) <- gather (str_field "total" (validate_total U) data) errs ;;
  match r, d, t, its, tot, errs with
  | Some r, Some d, Some t, Some its, Some tot, [] =>
      Ok (mk_Receipt r d t its tot)
  | _, _, _, _, _, _ => Raise (ValidationError errs)
  end.

(** What every [Receipt] that was constructed satisfies: each field
    passed its validator. *)
Definition valid_item (U : ucd) (it : Item) : Prop :=
  validate_price U (price it) = Ok (price it).

Definition valid_receipt (U : ucd) (today : date) (r : Receipt) : Prop :=
  validate_retailer U (retailer r) = Ok (retailer r)
  /\ validate_purchaseDate U today (purchaseDate r) = Ok (purchaseDate r)
  /\ validate_purchaseTime U (purchaseTime r) = Ok (purchaseTime r)
  /\ Forall (valid_item U) (items r)
  /\ validate_total U (total r) = Ok (total r).

(** ** [calculate_points]

    The function keeps a running [points]; each numbered block of the
    source is a function from the points so far to the points after it. *)

(** 1. One point for every alphanumeric character in the retailer name. *)
Definition rule1 (U : ucd) (receipt : Receipt) (points : Z) : result Z :=
  Ok (points
      + Z.of_nat (count_occ bool_dec (map (isalnum U) (retailer receipt))
                    true)).

(** 2. 50 points if the total is a round dollar amount with no cents. *)
Definition rule2 (receipt : Receipt) (points : Z) : result Z :=
  if endswith (total receipt) (str ".00") then Ok (points + 50)
  else Ok points.

(** 3. 25 points if the total is a multiple of 0.25. *)
Definition rule3 (U : ucd) (receipt : Receipt) (points : Z) : result Z :=
  x <- py_float U (total receipt) ;;
  m <- float_rem x lit_0_25 ;;
  if float_is_zero m then Ok (points + 25) else Ok points.

(** 4. 5 points for every two items on the receipt. *)
Definition rule4 (receipt : Receipt) (points : Z) : result Z :=
  Ok (points + (Z.of_nat (List.length (items receipt)) / 2) * 5).

(** [round(float(item.price) * 0.2)] *)
Definition price_points (U : ucd) (item : Item) : result Z :=
  x <- py_float U (price item) ;;
  py_round (float_mul x lit_0_2).

(** The body of the loop of block 5. *)
Definition rule5_item (U : ucd) (points : Z) (item : Item) : result Z :=
  let description := strip (shortDescription item) in
  if (Nat.eqb (List.length description mod 3) 0)%nat then
    n <- price_points U item ;; Ok (points + n)
  else Ok points.

Fixpoint for_each {A S : Type} (body : S -> A -> result S) (l : list A)
  (s : S) : result S :=
  match l with
  | [] => Ok s
  | a :: l' => s' <- body s a ;; for_each body l' s'
  end.

(** 5. points based on item descriptions. *)
Definition rule5 (U : ucd) (receipt : Receipt) (points : Z) : result Z :=
  for_each (rule5_item U) (items receipt) points.

(** 6. 6 points if the day in the purchase date is odd. *)
Definition rule6 (U : ucd) (receipt : Receipt) (points : Z) : result Z :=
  dt <- strptime U (purchaseDate receipt) fmt_date ;;
  if negb (day dt mod 2 =? 0) then Ok (points + 6) else Ok points.

(** 7. 10 points if the time of purchase is after 2:00pm and before
    4:00pm. *)
Definition rule7 (U : ucd) (receipt : Receipt) (points : Z) : result Z :=
  time_obj <- strptime U (purchaseTime receipt) fmt_time ;;
  if (hour time_obj =? 14) || (hour time_obj =? 15) then Ok (points + 10)
  else Ok points.

Definition calculate_points (U : ucd) (receipt : Receipt) : result Z :=
  let points := 0 in
  points <- rule1 U receipt points ;;
  points <- rule2 receipt points ;;
  points <- rule3 U receipt points ;;
  points <- rule4 receipt points ;;
  points <- rule5 U receipt points ;;
  points <- rule6 U receipt points ;;
  points <- rule7 U receipt points ;;
  Ok points.

(** ** Notions the statements below use *)


(** The receipt with another list of items. *)
Definition with_items (r : Receipt) (its : list Item) : Receipt :=
  mk_Receipt (retailer r) (purchaseDate r) (purchaseTime r) its (total r).

(** The characters [[\w\s\-&]] admits. *)
Definition retailer_char (U : ucd) (c : char) : bool :=
  isalnum U c || (c =? chr "_") || isspace c
  || (c =? chr "-") || (c =? chr "&").

(** A string with no character that satisfies [p] at either end. *)
Definition trimmed_with (p : char -> bool) (s : pystr) : Prop :=
  match s with
  | [] => True
  | c :: _ => p c = false /\ p (last s c) = false
  end.


(** Whether block 5 looks at the price of the item. *)
Definition eligible (item : Item) : bool :=
  Nat.eqb (List.length (strip (shortDescription item)) mod 3) 0.

(** A float as a fraction [float_num x / float_den x] of integers; zero
    for the values that are not numbers. *)
Definition float_num (x : spec_float) : Z :=
  match x with
  | S754_finite s m e => cond_Zopp s (Zpos m) * 2 ^ Z.max e 0
  | _ => 0
  end.

Definition float_den (x : spec_float) : Z :=
  match x with
  | S754_finite _ _ e => 2 ^ Z.max (- e) 0
  | _ => 1
  end.

Definition float_finite (x : spec_float) : bool :=
  match x with
  | S754_zero _ | S754_finite _ _ _ => true
  | _ => false
  end.

(** [n] is an integer nearest to the number [x], and the even one when
    [x] lies half way between two integers. *)
Definition nearest_ties_even (x : spec_float) (n : Z) : Prop :=
  float_finite x = true
  /\ 2 * Z.abs (n * float_den x - float_num x) <= float_den x
  /\ (2 * Z.abs (n * float_den x - float_num x) = float_den x ->
      Z.even n = true).

(** Whether [float(item.price)] is a finite number. *)
Definition price_in_range (U : ucd) (item : Item) : bool :=
  match py_float U (price item) with
  | Ok x => float_finite x
  | Raise _ => false
  end.

(** Every item block 5 looks at has a price in range. *)
Definition prices_in_range (U : ucd) (r : Receipt) : Prop :=
  Forall (fun it => eligible it = true -> price_in_range U it = true)
    (items r).

(** The day after [d], for a date [d] of the calendar. *)
Definition tomorrow (d : date) : date :=
  if date_day d <? days_in_month (date_year d) (date_month d) then
    mk_date (date_year d) (date_month d) (date_day d + 1)
  else if date_month d <? 12 then
    mk_date (date_year d) (date_month d + 1) 1
  else mk_date (date_year d + 1) 1 1.

(** The amount of a total in cents: the digits before and after the
    decimal point, read as one integer. *)
Definition total_cents (U : ucd) (s : pystr) : Z :=
  let '(ip, rest) := span_digits U s in
  let '(fp, _) := span_digits U (tl rest) in
  digits_value (ip ++ fp).

(** [x] is a zero, a finite number or an infinity of sign [s]. *)
Definition has_sign (s : bool) (x : spec_float) : Prop :=
  match x with
  | S754_zero s' | S754_infinity s' | S754_finite s' _ _ => s' = s
  | S754_nan => False
  end.

(** A finite float with at most 53 digits and an exponent of at most
    971, as the results of the operations are. *)
Definition bounded_float (x : spec_float) : Prop :=
  match x with
  | S754_finite _ m e => Zpos (digits2_pos m) <= 53 /\ e <= 971
  | _ => True
  end.

(** An ASCII character other than [0-9]. *)
Definition ascii_nondigit (c : char) : bool :=
  (0 <=? c) && (c <? 128) && negb ((48 <=? c) && (c <=? 57)).

(** The values of the characters of [s], digits all. *)
Definition digit_values (U : ucd) (s : pystr) : list nat :=
  map (fun c => match decimal U c with Some d => d | None => O end) s.

(** The number a string of digits writes. *)
Definition number (U : ucd) (s : pystr) : Z :=
  digits_value (digit_values U s).

Definition zsum (l : list Z) : Z := fold_right Z.add 0 l.

(** What block 5 adds for the item when [round] returns. *)
Definition item_points (U : ucd) (item : Item) : Z :=
  if eligible item then
    match price_points U item with
    | Ok n => n
    | Raise _ => 0
    end
  else 0.

(** Block 5 gets past the item. *)
Definition item_ok (U : ucd) (item : Item) : bool :=
  negb (eligible item) || price_in_range U item.

(** A validator returned or raised [ValueError]. *)
Definition validator_outcome {A : Type} (m : result A) : Prop :=
  match m with
  | Ok _ | Raise (ValueError _) => True
  | Raise _ => False
  end.

(** A validation returned or raised [ValidationError]. *)
Definition validation_outcome {A : Type} (m : result A) : Prop :=
  match m with
  | Ok _ | Raise (ValidationError _) => True
  | Raise _ => False
  end.

(** *** The rounding and the length test as the specification words them *)

(** The integer nearest to [m * 2 ^ e] for [m >= 0], a fractional part of
    exactly one half rounding away from zero. *)
Definition round_half_away (m e : Z) : Z :=
  if 0 <=? e then m * 2 ^ e
  else
    let d := 2 ^ (- e) in
    if 2 * (m mod d) <? d then m / d else m / d + 1.

(** Block 5's contribution of one item with that rounding. *)
Definition price_points_half_away (U : ucd) (item : Item) : result Z :=
  x <- py_float U (price item) ;;
  match float_mul x lit_0_2 with
  | S754_nan => Raise (ValueError "cannot convert float NaN to integer")
  | S754_infinity _ => Raise OverflowError
  | S754_zero _ => Ok 0
  | S754_finite s m e => Ok (cond_Zopp s (round_half_away (Zpos m) e))
  end.


(** Block 5 with that rounding. *)
Definition rule5_half_away (U : ucd) (r : Receipt) (points : Z) : result Z :=
  for_each (fun points item =>
              if eligible item then
                n <- price_points_half_away U item ;; Ok (points + n)
              else Ok points)
    (items r) points.


(** ** Example inputs *)

Definition a_today : date := mk_date 2024 6 15.

(** The receipt of the end-to-end example, with the given items, time
    and total. *)
Definition example_receipt (its : list Item) (time tot : string) : Receipt :=
  mk_Receipt (str "Target") (str "2022-01-01") (str time) its (str tot).

Definition target_receipt : Receipt :=
  example_receipt [mk_Item (str "Mountain Dew 12PK") (str "6.49")]
    "13:01" "35.35".

Definition two_items_receipt : Receipt :=
  example_receipt
    [mk_Item (str "Mountain Dew 12PK") (str "6.49");
     mk_Item (str "Emils Cheese Pizza") (str "12.25")] "13:01" "35.35".

(** A price of 12.50, a fifth of which is exactly 2.5. *)
Definition pizza_receipt : Receipt :=
  example_receipt [mk_Item (str "Emils Cheese Pizza") (str "12.50")]
    "13:01" "35.35".



(** A total of 2 ^ 47 dollars and one cent. *)
Definition large_total : pystr := str "140737488355328.01".

Definition large_total_receipt : Receipt :=
  mk_Receipt (str "Target") (str "2022-01-01") (str "13:01") [] large_total.

(** The amount 1 followed by [k] zeros, [.00] after them. *)
Definition price_e (k : nat) : pystr :=
  str "1" ++ repeat (chr "0") k ++ str ".00".

(** A total of 10 ^ 309, above every finite binary64 number. *)
Definition huge_total_receipt : Receipt :=
  mk_Receipt (str "Target") (str "2022-01-01") (str "13:01") []
    (price_e 309).

(** A price of 10 ^ 309. *)
Definition overflow_receipt : Receipt :=
  example_receipt [mk_Item (str "Klarbrunn 12-PK 12 FL OZ") (price_e 309)]
    "14:33" "35.35".

(** A price of 10 ^ 400 on the second of two items. *)
Definition second_overflow_receipt : Receipt :=
  example_receipt
    [mk_Item (str "Mountain Dew 12PK") (str "6.49");
     mk_Item (str "abc") (price_e 400)] "13:01" "35.35".

(** An item object whose description is the empty string. *)
Definition empty_description_item : json :=
  JObject [("shortDescription"%string, JString []);
           ("price"%string, JString (str "1.00"))].

Definition empty_description_data : list (string * json) :=
  [("retailer"%string, JString (str "Target"));
   ("purchaseDate"%string, JString (str "2022-01-01"));
   ("purchaseTime"%string, JString (str "13:01"));
   ("items"%string, JArray [empty_description_item]);
   ("total"%string, JString (str "1.00"))].

(** An item object that has no description at all. *)
Definition no_description_data : list (string * json) :=
  [("retailer"%string, JString (str "Target"));
   ("purchaseDate"%string, JString (str "2022-01-01"));
   ("purchaseTime"%string, JString (str "13:01"));
   ("items"%string,
    JArray [empty_description_item;
            JObject [("price"%string, JString (str "1.00"))]]);
   ("total"%string, JString (str "1.00"))].

(** ** The request handlers

    [process_receipt] and [get_points], with the dict [receipts_db] they
    share passed in and out. *)

Fixpoint pystr_eqb (s t : pystr) : bool :=
  match s, t with
  | [], [] => true
  | c :: s', d :: t' => (c =? d) && pystr_eqb s' t'
  | _, _ => false
  end.

(** [receipts_db]: what [receipts_db.get(key)] returns for each key. *)
Definition receipts : Type := pystr -> option Z.

(** [{}] *)
Definition no_receipts : receipts := fun _ => None.

(** [db[key] = points] *)
Definition db_set (db : receipts) (key : pystr) (points : Z) : receipts :=
  fun k => if pystr_eqb k key then Some points else db k.

(** *** [str(uuid.uuid4())]

    [uuid4] takes 16 random bytes as an integer of 128 bits, sets the
    variant and the version 4 in it, and [str] writes it as 32
    hexadecimal digits in groups of 8, 4, 4, 4 and 12. *)

Definition uuid4_int (rand : Z) : Z :=
  let n := rand mod 2 ^ 128 in
  let n := Z.ldiff n (Z.shiftl 49152 48) in   (* int &= ~(0xc000 << 48) *)
  let n := Z.lor n (Z.shiftl 32768 48) in     (* int |= 0x8000 << 48 *)
  let n := Z.ldiff n (Z.shiftl 61440 64) in   (* int &= ~(0xf000 << 64) *)
  Z.lor n (Z.shiftl 4 76).                    (* int |= version << 76 *)

Definition hex_digit (d : Z) : char :=
  if d <? 10 then chr "0" + d else chr "a" + (d - 10).

(** ['%032x' % n] for [n] below [2 ^ 128]. *)
Definition hex32 (n : Z) : pystr :=
  map (fun i => hex_digit ((n / 16 ^ (31 - Z.of_nat i)) mod 16)) (seq 0 32).

Definition uuid_str (n : Z) : pystr :=
  let h := hex32 n in
  firstn 8 h ++ chr "-" :: firstn 4 (skipn 8 h)
  ++ chr "-" :: firstn 4 (skipn 12 h)
  ++ chr "-" :: firstn 4 (skipn 16 h)
  ++ chr "-" :: skipn 20 h.

(** *** Responses *)

(** One entry of the error list of a 400 response: the pydantic error
    type, the first element of its location, and its message. *)
Record error_entry : Type := mk_entry {
  entry_type : string;
  attribute : loc_item;
  entry_msg : string
}.

Inductive body : Type :=
| BodyId (id : pystr)                    (* {'id': receipt_id} *)
| BodyErrors (errs : list error_entry)   (* {'error': [...]} *)
| BodyError (msg : string)               (* {'error': msg} *)
| BodyPoints (points : Z).               (* {'points': points} *)

Record response : Type := mk_response {
  resp_body : body;
  status : Z
}.

(** [err['type']] and [err['msg']] of a pydantic error. *)
Definition error_type_name (t : error_type) : string :=
  match t with
  | missing => "missing"
  | string_type => "string_type"
  | list_type => "list_type"
  | model_type => "model_type"
  | value_error _ => "value_error"
  end.

Definition error_msg (t : error_type) : string :=
  match t with
  | missing => "Field required"
  | string_type => "Input should be a valid string"
  | list_type => "Input should be a valid list"
  | model_type => "Input should be a valid dictionary or instance of Item"
  | value_error msg => String.append "Value error, " msg
  end.

(** The list comprehension of the [ValidationError] handler;
    [err['loc'][0]] raises [IndexError] on an empty location, which
    leaves [process_receipt]: [None] here. *)
Fixpoint error_entries (errs : list error_details)
  : option (list error_entry) :=
  match errs with
  | [] => Some []
  | e :: errs' =>
      match loc e, error_entries errs' with
      | l0 :: _, Some rest =>
          Some (mk_entry (error_type_name (type_ e)) l0
                  (error_msg (type_ e)) :: rest)
      | _, _ => None
      end
  end.

(** [process_receipt]: [data] is what [request.get_json()] returned,
    [rand] the random bytes [uuid4] draws and [db] is [receipts_db]
    before the call.  Unpacking a [data] that is not an object raises
    [TypeError], which the last handler catches.  The result is the dict
    after the call and the response, or [None] when an exception leaves
    the function. *)
Definition process_receipt (U : ucd) (today : date) (rand : Z)
  (db : receipts) (data : json) : option (receipts * response) :=
  match data with
  | JObject members =>
      match (receipt <- Receipt_validate U today members ;;
             let receipt_id := uuid_str (uuid4_int rand) in
             points <- calculate_points U receipt ;;
             Ok (receipt_id, points)) with
      | Ok (receipt_id, points) =>
          Some (db_set db receipt_id points,
                mk_response (BodyId receipt_id) 200)
      | Raise (ValidationError errs) =>
          match error_entries errs with
          | Some entries => Some (db, mk_response (BodyErrors entries) 400)
          | None => None
          end
      | Raise (ValueError msg) => Some (db, mk_response (BodyError msg) 400)
      | Raise _ =>
          Some (db, mk_response (BodyError "Internal Server Error") 500)
      end
  | _ => Some (db, mk_response (BodyError "Internal Server Error") 500)
  end.

(** [re.match(r"^\S+$", s)] is not [None].  [\S] is the complement of
    [\s], a set [cclass] has no name for; the matching is that of
    [match_here] on a [Plus] followed by [Eol]. *)
Fixpoint match_nonspace (s : pystr) : bool :=
  match s with
  | [] => false
  | c :: s' => negb (isspace c) && (match_nonspace s' || at_eol s')
  end.

(** [get_points] *)
Definition get_points (db : receipts) (receipt_id : pystr) : response :=
  if negb (match_nonspace receipt_id) then
    mk_response (BodyError "Invalid receipt ID format.") 400
  else
    match db receipt_id with
    | None => mk_response (BodyError "Receipt not found.") 404
    | Some points => mk_response (BodyPoints points) 200
    end.

(** ** Notions the further statements use *)

(** The five fields of a [Receipt]. *)
Definition receipt_field (name : string) : bool :=
  String.eqb name "retailer" || String.eqb name "purchaseDate"
  || String.eqb name "purchaseTime" || String.eqb name "items"
  || String.eqb name "total".

(** An error located at or below one of the fields of a [Receipt]. *)
Definition top_level (e : error_details) : Prop :=
  match loc e with
  | Field name :: _ => receipt_field name = true
  | _ => False
  end.

(** An entry attributed to one of the fields of a [Receipt]. *)
Definition field_entry (e : error_entry) : Prop :=
  match attribute e with
  | Field name => receipt_field name = true
  | Index _ => False
  end.

(** [b] is [a] with whitespace added around its description. *)
Definition padded (a b : Item) : Prop :=
  price b = price a
  /\ exists pre post,
       forallb isspace pre = true /\ forallb isspace post = true
       /\ shortDescription b = pre ++ shortDescription a ++ post.

(** The characters of an id: hexadecimal digits and the hyphen. *)
Definition uuid_char (c : char) : bool :=
  ((48 <=? c) && (c <=? 57)) || ((97 <=? c) && (c <=? 102)) || (c =? 45).

(** The strings [r"^\d+\.\d{2}$"] matches: digits, a point, two digits,
    and possibly a newline at the end. *)
Definition amount_shape (U : ucd) (v : pystr) : Prop :=
  exists ip f1 f2 tl,
    v = ip ++ chr "." :: f1 :: f2 :: tl
    /\ ip <> [] /\ forallb (isdecimal U) ip = true
    /\ isdecimal U f1 = true /\ isdecimal U f2 = true
    /\ (tl = [] \/ tl = [chr "010"]).

(** The item was built from the object [j]: its two fields are strings
    of [j]. *)
Definition item_of_json (j : json) (it : Item) : Prop :=
  exists members,
    j = JObject members
    /\ lookup "shortDescription" members
       = Some (JString (shortDescription it))
    /\ lookup "price" members = Some (JString (price it)).

(** The id [process_receipt] gives a receipt when [uuid4] draws [rand]. *)
Definition new_id (rand : Z) : pystr := uuid_str (uuid4_int rand).

(** An entry of the 400 body made from one error of pydantic's list. *)
Definition entry_of (e : error_details) (en : error_entry) : Prop :=
  entry_type en = error_type_name (type_ e)
  /\ entry_msg en = error_msg (type_ e)
  /\ exists rest, loc e = attribute en :: rest.

(** ** Further example inputs *)

Definition target_data : list (string * json) :=
  [("retailer"%string, JString (str "Target"));
   ("purchaseDate"%string, JString (str "2022-01-01"));
   ("purchaseTime"%string, JString (str "13:01"));
   ("items"%string,
    JArray [JObject [("shortDescription"%string,
                      JString (str "Mountain Dew 12PK"));
                     ("price"%string, JString (str "6.49"))]]);
   ("total"%string, JString (str "35.35"))].

Definition some_rand : Z := 123456789012345678901234567890123456789.

(** The request body from which [overflow_receipt] is built. *)
Definition overflow_data : list (string * json) :=
  [("retailer"%string, JString (str "Target"));
   ("purchaseDate"%string, JString (str "2022-01-01"));
   ("purchaseTime"%string, JString (str "14:33"));
   ("items"%string,
    JArray [JObject [("shortDescription"%string,
                      JString (str "Klarbrunn 12-PK 12 FL OZ"));
                     ("price"%string, JString (price_e 309))]]);
   ("total"%string, JString (str "35.35"))].

(** * Proofs *)

(** ** The model on examples *)

Example target_receipt_points :
  calculate_points ascii_ucd target_receipt = Ok 12.
Proof. reflexivity. Qed.

Example float_6_49 :
  py_float ascii_ucd (str "6.49")
  = Ok (S754_finite false 7307090395408630 (-50)).
Proof. reflexivity. Qed.

Example float_0_2 : py_float ascii_ucd (str "0.2") = Ok lit_0_2.
Proof. reflexivity. Qed.

Example float_0_25 : py_float ascii_ucd (str "0.25") = Ok lit_0_25.
Proof. reflexivity. Qed.

Example round_halves :
  py_round (S754_finite false 1 (-1)) = Ok 0
  /\ py_round (S754_finite false 3 (-1)) = Ok 2
  /\ py_round (S754_finite false 5 (-1)) = Ok 2.
Proof. repeat split. Qed.

Example strptime_leap_day :
  strptime ascii_ucd (str "2024-02-29") fmt_date
  = Ok (mk_datetime 2024 2 29 0 0)
  /\ strptime ascii_ucd (str "2023-02-29") fmt_date
     = Raise (ValueError "year, month or day out of range").
Proof. split; reflexivity. Qed.

Example strptime_time_range :
  strptime ascii_ucd (str "23:59") fmt_time
  = Ok (mk_datetime 1900 1 1 23 59)
  /\ strptime ascii_ucd (str "24:00") fmt_time
     = Raise (ValueError "time data does not match format")
  /\ strptime ascii_ucd (str "12:61") fmt_time
     = Raise (ValueError "unconverted data remains").
Proof. repeat split. Qed.

Example price_one_fractional_digit :
  validate_price ascii_ucd (str "3.5")
  = Raise (ValueError "Item price must be in the format '0.00'").
Proof. reflexivity. Qed.

(** ** Facts about strings *)

Lemma lstrip_with_app (p : char -> bool) (pre s : pystr) :
  forallb p pre = true -> lstrip_with p (pre ++ s) = lstrip_with p s.
Proof.
  induction pre as [|c pre IH]; simpl; [reflexivity|].
  intros H. apply andb_true_iff in H. destruct H as [Hc Hpre].
  rewrite Hc. auto.
Qed.

Lemma lstrip_with_keep (p : char -> bool) (c : char) (s : pystr) :
  p c = false -> lstrip_with p (c :: s) = c :: s.
Proof. intros H. simpl. rewrite H. reflexivity. Qed.

Lemma lstrip_with_all (p : char -> bool) (s : pystr) :
  forallb p s = true -> lstrip_with p s = [].
Proof.
  intros H. rewrite <- (app_nil_r s). rewrite lstrip_with_app by assumption.
  reflexivity.
Qed.

Lemma forallb_rev {A : Type} (f : A -> bool) (l : list A) :
  forallb f (rev l) = forallb f l.
Proof.
  induction l as [|a l IH]; simpl; [reflexivity|].
  rewrite forallb_app, IH. simpl. rewrite andb_true_r. apply andb_comm.
Qed.

Lemma rev_last_cons (s : pystr) (c d : char) :
  rev (c :: s) = last (c :: s) d :: rev (removelast (c :: s)).
Proof.
  assert (Hne : c :: s <> []) by discriminate.
  rewrite (app_removelast_last d Hne) at 1.
  rewrite rev_app_distr. reflexivity.
Qed.

(** Stripping removes exactly the characters around a trimmed core. *)
Lemma strip_with_core (p : char -> bool) (pre core post : pystr) :
  forallb p pre = true -> forallb p post = true ->
  trimmed_with p core -> strip_with p (pre ++ core ++ post) = core.
Proof.
  intros Hpre Hpost Hcore. unfold strip_with.
  rewrite lstrip_with_app by assumption.
  destruct core as [|c core].
  - change ([] ++ post) with post.
    rewrite (lstrip_with_all p post) by assumption. reflexivity.
  - destruct Hcore as [Hc Hlast].
    change ((c :: core) ++ post) with (c :: (core ++ post)).
    rewrite lstrip_with_keep by assumption.
    change (c :: core ++ post) with ((c :: core) ++ post).
    rewrite rev_app_distr.
    rewrite lstrip_with_app by (rewrite forallb_rev; assumption).
    rewrite (rev_last_cons core c c).
    rewrite lstrip_with_keep by assumption.
    rewrite <- (rev_last_cons core c c). apply rev_involutive.
Qed.


Lemma isspace_numeric_isspace (c : char) :
  isspace_numeric c = true -> isspace c = true.
Proof.
  unfold isspace_numeric. destruct (c <? 128); [|auto].
  unfold isspace. intros H.
  apply orb_true_iff in H. destruct H as [H|H].
  - rewrite H. reflexivity.
  - apply Z.eqb_eq in H. subst c. reflexivity.
Qed.

(** ** Facts about matching *)

Lemma match_bol (U : ucd) (re : regex) (s : pystr) :
  match_here U (Bol :: re) 0 s = match_here U re 0 s.
Proof. reflexivity. Qed.

Lemma match_eol (U : ucd) (pos : nat) (s : pystr) :
  match_here U [Eol] pos s = at_eol s.
Proof. simpl. apply andb_true_r. Qed.

Lemma match_lit (U : ucd) (c : char) (re : regex) (pos : nat) (s : pystr) :
  match_here U (Lit c :: re) pos s = true ->
  exists d s', c = d /\ s = d :: s' /\ match_here U re (S pos) s' = true.
Proof.
  destruct s as [|d s']; [discriminate|].
  change (match_here U (Lit c :: re) pos (d :: s'))
    with ((c =? d) && match_here U re (S pos) s').
  intros H. apply andb_true_iff in H. destruct H as [Hc H].
  apply Z.eqb_eq in Hc. exists d, s'. auto.
Qed.

Lemma match_plus (U : ucd) (set : list cclass) (re : regex) (s : pystr)
  (pos : nat) :
  match_here U (Plus set :: re) pos s = true <->
  exists a b, s = a ++ b /\ a <> [] /\ forallb (in_set U set) a = true
              /\ match_here U re (pos + List.length a) b = true.
Proof.
  revert pos. induction s as [|c s IH]; intros pos.
  - simpl. split; [discriminate|].
    intros (a & b & Hs & Hne & _). destruct a; [congruence|discriminate].
  - change (match_here U (Plus set :: re) pos (c :: s))
      with (in_set U set c
            && (match_here U (Plus set :: re) (S pos) s
                || match_here U re (S pos) s)).
    rewrite andb_true_iff, orb_true_iff, IH. split.
    + intros [Hc [(a & b & Hs & Hne & Ha & Hm)|Hm]].
      * exists (c :: a), b. simpl. rewrite Hc, Ha. subst s.
        repeat split; try discriminate.
        rewrite <- Hm. f_equal. lia.
      * exists [c], s. simpl. rewrite Hc. repeat split; try discriminate.
        rewrite <- Hm. f_equal. lia.
    + intros (a & b & Hs & Hne & Ha & Hm).
      destruct a as [|c' a]; [congruence|].
      simpl in Hs. injection Hs as <- Hs. simpl in Ha.
      apply andb_true_iff in Ha. destruct Ha as [Hc Ha].
      split; [assumption|].
      destruct a as [|c'' a].
      * right. simpl in Hs. subst b. rewrite <- Hm. f_equal. simpl. lia.
      * left. exists (c'' :: a), b. repeat split; try assumption; try discriminate.
        rewrite <- Hm. f_equal. simpl. lia.
Qed.

Lemma match_rep (U : ucd) (set : list cclass) (re : regex) (n : nat)
  (s : pystr) (pos : nat) :
  match_here U (Rep n set :: re) pos s = true <->
  exists a b, s = a ++ b /\ List.length a = n
              /\ forallb (in_set U set) a = true
              /\ match_here U re (pos + n) b = true.
Proof.
  revert s pos. induction n as [|n IH]; intros s pos.
  - change (match_here U (Rep 0 set :: re) pos s) with (match_here U re pos s).
    split.
    + intros H. exists [], s. repeat split. rewrite Nat.add_0_r. assumption.
    + intros (a & b & Hs & Hlen & _ & Hm).
      destruct a; [|discriminate]. simpl in Hs. subst b.
      rewrite Nat.add_0_r in Hm. assumption.
  - destruct s as [|c s].
    + simpl. split; [discriminate|].
      intros (a & b & Hs & Hlen & _). destruct a; discriminate.
    + change (match_here U (Rep (S n) set :: re) pos (c :: s))
        with (in_set U set c && match_here U (Rep n set :: re) (S pos) s).
      rewrite andb_true_iff, IH. split.
      * intros [Hc (a & b & Hs & Hlen & Ha & Hm)].
        exists (c :: a), b. simpl. rewrite Hc, Ha, Hlen. subst s.
        repeat split. rewrite <- Hm. f_equal. lia.
      * intros (a & b & Hs & Hlen & Ha & Hm).
        destruct a as [|c' a]; [discriminate|].
        simpl in Hs. injection Hs as <- Hs. simpl in Ha, Hlen.
        apply andb_true_iff in Ha. destruct Ha as [Hc Ha].
        split; [assumption|]. exists a, b. repeat split; try assumption; try lia.
        rewrite <- Hm. f_equal. lia.
Qed.

(** ** Facts about floats *)

Lemma shr_1_nonneg (mrs : shr_record) :
  0 <= shr_m mrs -> 0 <= shr_m (shr_1 mrs).
Proof.
  destruct mrs as [m r s]. simpl.
  destruct m as [|p|p]; [simpl; lia | | lia].
  intros _. destruct p; simpl; lia.
Qed.

Lemma iter_shr_1_nonneg (p : positive) (mrs : shr_record) :
  0 <= shr_m mrs -> 0 <= shr_m (iter_pos shr_1 p mrs).
Proof.
  revert mrs. induction p as [p IH|p IH|]; intros mrs H; simpl.
  - apply IH, IH, shr_1_nonneg, H.
  - apply IH, IH, H.
  - apply shr_1_nonneg, H.
Qed.

Lemma shr_fexp_nonneg (m e : Z) (l : location) :
  0 <= m -> 0 <= shr_m (fst (shr_fexp prec emax m e l)).
Proof.
  intros H. unfold shr_fexp, shr.
  assert (H0 : 0 <= shr_m (shr_record_of_loc m l))
    by (destruct l as [|[]]; simpl; assumption).
  destruct (fexp prec emax (Zdigits2 m + e) - e); simpl;
    auto using iter_shr_1_nonneg.
Qed.

Lemma round_nearest_even_nonneg (m : Z) (l : location) :
  0 <= m -> 0 <= round_nearest_even m l.
Proof.
  intros H. destruct l as [|[]]; simpl; try lia.
  destruct (Z.even m); lia.
Qed.

Lemma binary_round_aux_sign (s : bool) (m e : Z) (l : location) :
  0 <= m -> has_sign s (binary_round_aux prec emax s m e l).
Proof.
  intros H. unfold binary_round_aux.
  pose proof (shr_fexp_nonneg m e l H) as H1.
  destruct (shr_fexp prec emax m e l) as [mrs' e']. simpl in H1.
  pose proof (shr_fexp_nonneg _ e' loc_Exact
                (round_nearest_even_nonneg _ (loc_of_shr_record mrs') H1))
    as H2.
  destruct (shr_fexp prec emax _ e' loc_Exact) as [mrs'' e'']. simpl in H2.
  destruct (shr_m mrs'') as [|p|p]; [exact eq_refl | | lia].
  destruct (e'' <=? emax - prec); exact eq_refl.
Qed.

Lemma round_ratio_sign (s : bool) (n d : positive) :
  has_sign s (round_ratio s n d).
Proof.
  unfold round_ratio, SFdiv_core_binary.
  set (e' := Z.min _ _). set (m' := match _ with Z0 => _ | _ => _ end).
  assert (Hm : 0 <= m').
  { subst m'. destruct (0 - 0 - e'); try lia. apply Z.shiftl_nonneg. lia. }
  pose proof (Z.div_pos m' (Zpos d) Hm eq_refl) as Hq.
  unfold Z.div in Hq. destruct (Z.div_eucl m' (Zpos d)) as [q r].
  apply binary_round_aux_sign. assumption.
Qed.

Lemma float_of_decimal_sign (s : bool) (n : Z) (k : nat) :
  has_sign s (float_of_decimal s n k).
Proof.
  destruct n; simpl; try reflexivity. apply round_ratio_sign.
Qed.

Lemma float_mul_0_2_sign (s : bool) (x : spec_float) :
  has_sign s x -> has_sign s (float_mul x lit_0_2).
Proof.
  destruct x as [s'|s'| |s' m e]; simpl; intros H; try contradiction;
    subst s'.
  - destruct s; reflexivity.
  - destruct s; reflexivity.
  - replace s with (xorb s false) at 1 by apply xorb_false_r.
    apply binary_round_aux_sign. lia.
Qed.

Lemma round_half_even_nonneg (m e : Z) : 0 <= m -> 0 <= round_half_even m e.
Proof.
  intros H. unfold round_half_even.
  destruct (0 <=? e) eqn:He.
  - apply Z.leb_le in He. apply Z.mul_nonneg_nonneg; [assumption|].
    apply Z.pow_nonneg. lia.
  - apply Z.leb_gt in He.
    assert (Hd : 0 < 2 ^ (- e)) by (apply Z.pow_pos_nonneg; lia).
    assert (Hq : 0 <= m / 2 ^ (- e)) by (apply Z.div_pos; assumption).
    destruct (2 * (m mod 2 ^ (- e)) ?= 2 ^ (- e)); try lia.
    destruct (Z.even _); lia.
Qed.

Lemma py_round_nonneg (x : spec_float) :
  has_sign false x ->
  if float_finite x then exists n, py_round x = Ok n /\ 0 <= n
  else py_round x = Raise OverflowError.
Proof.
  destruct x as [s|s| |s m e]; simpl; intros H; try contradiction.
  - exists 0. split; [reflexivity|lia].
  - reflexivity.
  - subst s. eexists. split; [reflexivity|]. simpl.
    apply round_half_even_nonneg. lia.
Qed.

Lemma float_rem_quarter (x : spec_float) :
  exists m, float_rem x lit_0_25 = Ok m.
Proof.
  unfold float_rem, lit_0_25.
  destruct (SFeqb _ float_zero); [eexists; reflexivity|].
  destruct (xorb _ _); eexists; reflexivity.
Qed.

Lemma round_half_even_nearest (m e : Z) :
  0 <= m ->
  let n := round_half_even m e in
  let num := m * 2 ^ Z.max e 0 in
  let den := 2 ^ Z.max (- e) 0 in
  2 * Z.abs (n * den - num) <= den
  /\ (2 * Z.abs (n * den - num) = den -> Z.even n = true).
Proof.
  intros Hm. unfold round_half_even. destruct (0 <=? e) eqn:He.
  - apply Z.leb_le in He.
    rewrite (Z.max_l e 0), (Z.max_r (- e) 0) by lia. simpl.
    rewrite Z.mul_1_r, Z.sub_diag. simpl. split; [lia|]. intros; lia.
  - apply Z.leb_gt in He.
    rewrite (Z.max_r e 0), (Z.max_l (- e) 0) by lia.
    rewrite Z.pow_0_r, Z.mul_1_r.
    set (d := 2 ^ (- e)).
    assert (Hd : 0 < d) by (apply Z.pow_pos_nonneg; lia).
    pose proof (Z.div_mod m d ltac:(lia)) as Hdm.
    pose proof (Z.mod_pos_bound m d Hd) as Hr.
    set (q := m / d) in *. set (r := m mod d) in *.
    destruct (Z.compare_spec (2 * r) d) as [Heq|Hlt|Hgt]; cbv zeta.
    + destruct (Z.even q) eqn:Hev.
      * split; [nia|]. intros _. assumption.
      * split; [nia|]. intros _.
        rewrite Z.even_add, Hev. reflexivity.
    + split; [nia|]. intros H. nia.
    + split; [nia|]. intros H. nia.
Qed.

Lemma py_round_nearest (x : spec_float) (n : Z) :
  py_round x = Ok n -> nearest_ties_even x n.
Proof.
  destruct x as [s|s| |s m e]; simpl; intros H; try discriminate;
    injection H as <-.
  - repeat split; simpl; intros; lia.
  - pose proof (round_half_even_nearest (Zpos m) e ltac:(lia)) as [H1 H2].
    cbv zeta in H1, H2.
    unfold nearest_ties_even, float_finite, float_num, float_den.
    split; [reflexivity|].
    destruct s; unfold cond_Zopp.
    + replace (- round_half_even (Z.pos m) e * 2 ^ Z.max (- e) 0
               - - Z.pos m * 2 ^ Z.max e 0)
        with (- (round_half_even (Z.pos m) e * 2 ^ Z.max (- e) 0
                 - Z.pos m * 2 ^ Z.max e 0)) by lia.
      rewrite Z.abs_opp, Z.even_opp. split; assumption.
    + split; assumption.
Qed.

(** ** The range of the rounded results *)

Lemma digits2_pos_size (p : positive) : digits2_pos p = Pos.size p.
Proof. induction p; simpl; congruence. Qed.

Lemma Zdigits2_log2 (m : Z) : 0 < m -> Zdigits2 m = Z.log2 m + 1.
Proof.
  destruct m as [|p|p]; try lia. intros _. simpl.
  rewrite digits2_pos_size. destruct p; simpl; lia.
Qed.

Lemma Zdigits2_nonneg (m : Z) : 0 <= Zdigits2 m.
Proof. destruct m; simpl; lia. Qed.

(** A number below [2 ^ k] has at most [k] binary digits. *)
Lemma Zdigits2_le (m k : Z) : 0 <= m -> 0 <= k -> m < 2 ^ k -> Zdigits2 m <= k.
Proof.
  intros Hm Hk H. destruct (Z.eq_dec m 0) as [->|Hne]; [simpl; lia|].
  rewrite Zdigits2_log2 by lia.
  apply (Z.log2_lt_pow2 m k ltac:(lia)) in H. lia.
Qed.

Lemma Zdigits2_gt (m : Z) : 0 <= m -> m < 2 ^ Zdigits2 m.
Proof.
  intros Hm. destruct (Z.eq_dec m 0) as [->|Hne]; [simpl; lia|].
  rewrite Zdigits2_log2 by lia.
  apply Z.log2_spec. lia.
Qed.

Lemma shr_1_div2 (mrs : shr_record) :
  0 <= shr_m mrs -> shr_m (shr_1 mrs) = shr_m mrs / 2.
Proof.
  destruct mrs as [m r s]. simpl. intros H.
  rewrite <- Z.div2_div.
  destruct m as [|[p|p|]|p]; try reflexivity. lia.
Qed.

Lemma iter_shr_1_div (p : positive) (mrs : shr_record) :
  0 <= shr_m mrs ->
  shr_m (iter_pos shr_1 p mrs) = shr_m mrs / 2 ^ Zpos p.
Proof.
  revert mrs. induction p as [p IH|p IH|]; intros mrs H; simpl iter_pos.
  - assert (Hp : 0 < 2 ^ Zpos p) by (apply Z.pow_pos_nonneg; lia).
    rewrite IH by (apply iter_shr_1_nonneg, shr_1_nonneg, H).
    rewrite IH by (apply shr_1_nonneg, H).
    rewrite shr_1_div2 by assumption.
    rewrite !Z.div_div by lia.
    f_equal. rewrite Pos2Z.inj_xI.
    rewrite Z.pow_add_r, Z.pow_mul_r by lia.
    change (2 ^ 2) with 4. change (2 ^ 1) with 2.
    replace (4 ^ Zpos p) with (2 ^ Zpos p * 2 ^ Zpos p); [lia|].
    rewrite <- Z.pow_mul_l. reflexivity.
  - assert (Hp : 0 < 2 ^ Zpos p) by (apply Z.pow_pos_nonneg; lia).
    rewrite IH by (apply iter_shr_1_nonneg, H).
    rewrite IH by assumption.
    rewrite Z.div_div by lia.
    f_equal. rewrite Pos2Z.inj_xO.
    rewrite <- Z.pow_add_r by lia. f_equal. lia.
  - apply shr_1_div2. assumption.
Qed.

(** What the alignment of a mantissa on [fexp] yields: the exponent is
    the larger of the two and the mantissa is divided accordingly. *)
Lemma shr_fexp_spec (m e : Z) (l : location) :
  0 <= m ->
  let '(mrs, e') := shr_fexp prec emax m e l in
  e' = Z.max e (fexp prec emax (Zdigits2 m + e))
  /\ shr_m mrs = m / 2 ^ (e' - e).
Proof.
  intros Hm. unfold shr_fexp, shr.
  assert (H0 : shr_m (shr_record_of_loc m l) = m)
    by (destruct l as [|[]]; reflexivity).
  destruct (fexp prec emax (Zdigits2 m + e) - e) as [|p|p] eqn:E.
  - split; [lia|]. rewrite Z.sub_diag, Z.pow_0_r, Z.div_1_r. assumption.
  - split; [lia|]. rewrite iter_shr_1_div by lia. rewrite H0.
    f_equal. f_equal. lia.
  - split; [lia|]. rewrite Z.sub_diag, Z.pow_0_r, Z.div_1_r. assumption.
Qed.

Lemma fexp_ge (x : Z) : x - 53 <= fexp prec emax x.
Proof. unfold fexp, prec. lia. Qed.

Lemma fexp_le (x b : Z) : x <= b + 53 -> -1074 <= b -> fexp prec emax x <= b.
Proof. unfold fexp, emin, prec, emax. lia. Qed.

(** The digits of [m / 2 ^ j]. *)
Lemma Zdigits2_div_pow2 (m j : Z) :
  0 <= m -> 0 <= j -> Zdigits2 (m / 2 ^ j) <= Z.max 0 (Zdigits2 m - j).
Proof.
  intros Hm Hj.
  assert (Hp : 0 < 2 ^ j) by (apply Z.pow_pos_nonneg; lia).
  pose proof (Zdigits2_gt m Hm) as Hd.
  pose proof (Zdigits2_nonneg m) as Hn.
  assert (Hq : 0 <= m / 2 ^ j) by (apply Z.div_pos; lia).
  apply Zdigits2_le; [assumption | lia |].
  apply Z.div_lt_upper_bound; [assumption|].
  rewrite <- Z.pow_add_r by lia.
  eapply Z.lt_le_trans; [exact Hd|].
  apply Z.pow_le_mono_r; lia.
Qed.

Lemma round_nearest_even_le (m : Z) (l : location) :
  round_nearest_even m l <= m + 1.
Proof. destruct l as [|[]]; simpl; try lia. destruct (Z.even m); lia. Qed.

Lemma Zdigits2_succ (m m' : Z) :
  0 <= m' -> m' <= m + 1 -> 0 <= m -> Zdigits2 m' <= Zdigits2 m + 1.
Proof.
  intros H0 H1 Hm. pose proof (Zdigits2_gt m Hm) as Hd.
  pose proof (Zdigits2_nonneg m) as Hn.
  apply Zdigits2_le; try lia.
  rewrite Z.pow_add_r by lia. change (2 ^ 1) with 2. lia.
Qed.

(** The result of a rounding, when finite, has at most 53 digits and an
    exponent of at most 971. *)
Lemma binary_round_aux_bounded (s s' : bool) (m e : Z) (l : location)
  (m' : positive) (e' : Z) :
  0 <= m ->
  binary_round_aux prec emax s m e l = S754_finite s' m' e' ->
  Zpos (digits2_pos m') <= 53 /\ e' <= 971.
Proof.
  intros Hm. unfold binary_round_aux.
  pose proof (shr_fexp_nonneg m e l Hm) as H1.
  destruct (shr_fexp prec emax m e l) as [mrs1 e1]. simpl in H1.
  set (m1 := round_nearest_even (shr_m mrs1) (loc_of_shr_record mrs1)).
  assert (Hm1 : 0 <= m1) by (apply round_nearest_even_nonneg; assumption).
  pose proof (shr_fexp_spec m1 e1 loc_Exact Hm1) as H2.
  destruct (shr_fexp prec emax m1 e1 loc_Exact) as [mrs2 e2].
  destruct H2 as [He2 Hm2].
  destruct (shr_m mrs2) as [|p|p] eqn:E; try discriminate.
  destruct (e2 <=? emax - prec) eqn:Hle; [|discriminate].
  intros H. injection H as _ <- <-.
  apply Z.leb_le in Hle. split; [|exact Hle].
  change (Zpos (digits2_pos p)) with (Zdigits2 (Zpos p)).
  rewrite Hm2.
  pose proof (Zdigits2_div_pow2 m1 (e2 - e1) Hm1 ltac:(lia)) as Hd.
  pose proof (fexp_ge (Zdigits2 m1 + e1)).
  assert (Hpos : 0 < Zdigits2 (m1 / 2 ^ (e2 - e1)))
    by (rewrite <- Hm2; simpl; lia).
  lia.
Qed.

(** A rounding does not overflow when its argument is below
    [2 ^ 1023] and has an exponent of at most 971. *)
Lemma binary_round_aux_finite (s : bool) (m e : Z) (l : location) :
  0 <= m -> e <= 971 -> Zdigits2 m + e <= 1023 ->
  float_finite (binary_round_aux prec emax s m e l) = true.
Proof.
  intros Hm He Hd. unfold binary_round_aux.
  pose proof (shr_fexp_nonneg m e l Hm) as H1.
  pose proof (shr_fexp_spec m e l Hm) as H1'.
  destruct (shr_fexp prec emax m e l) as [mrs1 e1]. simpl in H1.
  destruct H1' as [He1 Hm1'].
  set (m1 := round_nearest_even (shr_m mrs1) (loc_of_shr_record mrs1)).
  assert (Hm1 : 0 <= m1) by (apply round_nearest_even_nonneg; assumption).
  pose proof (shr_fexp_spec m1 e1 loc_Exact Hm1) as H2.
  destruct (shr_fexp prec emax m1 e1 loc_Exact) as [mrs2 e2].
  destruct H2 as [He2 Hm2].
  destruct (shr_m mrs2) as [|p|p] eqn:E; [reflexivity | |].
  2: { exfalso.
       assert (0 <= m1 / 2 ^ (e2 - e1))
         by (apply Z.div_pos; [assumption|apply Z.pow_pos_nonneg; lia]).
       lia. }
  replace (e2 <=? emax - prec) with true; [reflexivity|].
  symmetry. apply Z.leb_le. change (emax - prec) with 971.
  pose proof (fexp_le (Zdigits2 m + e) 970 ltac:(lia) ltac:(lia)) as F1.
  assert (He1' : e1 <= 971) by lia.
  pose proof (Zdigits2_div_pow2 m (e1 - e) Hm ltac:(lia)) as D1.
  rewrite <- Hm1' in D1.
  pose proof (Zdigits2_succ (shr_m mrs1) m1 Hm1
                (round_nearest_even_le _ _) H1) as D2.
  pose proof (Zdigits2_nonneg m).
  rewrite He2. apply Z.max_lub; [lia|].
  apply fexp_le; lia.
Qed.

Lemma round_ratio_bounded (s : bool) (n d : positive) :
  bounded_float (round_ratio s n d).
Proof.
  unfold round_ratio, SFdiv_core_binary.
  set (e' := Z.min _ _). set (m' := match _ with Z0 => _ | _ => _ end).
  assert (Hm : 0 <= m').
  { subst m'. destruct (0 - 0 - e'); try lia. apply Z.shiftl_nonneg. lia. }
  pose proof (Z.div_pos m' (Zpos d) Hm eq_refl) as Hq.
  unfold Z.div in Hq. destruct (Z.div_eucl m' (Zpos d)) as [q r].
  destruct (binary_round_aux prec emax s q e' (new_location (Zpos d) r))
    as [| | |s' m'' e''] eqn:E; try exact I.
  apply (binary_round_aux_bounded s s' q e' _ m'' e'' Hq E).
Qed.

(** No overflow when the numerator has at most 1022 binary digits more
    than the denominator. *)
Lemma round_ratio_finite (s : bool) (n d : positive) :
  Zpos (digits2_pos n) - Zpos (digits2_pos d) <= 1022 ->
  float_finite (round_ratio s n d) = true.
Proof.
  intros Hnd. unfold round_ratio, SFdiv_core_binary.
  change (Zdigits2 (Zpos n)) with (Zpos (digits2_pos n)).
  change (Zdigits2 (Zpos d)) with (Zpos (digits2_pos d)).
  set (d1 := Zpos (digits2_pos n)) in *.
  set (d2 := Zpos (digits2_pos d)) in *.
  set (e' := Z.min _ _).
  assert (He' : e' <= 0) by (subst e'; lia).
  set (m' := match 0 - 0 - e' with Z0 => _ | _ => _ end).
  assert (Hm' : m' = Zpos n * 2 ^ (- e')).
  { subst m'. replace (0 - 0 - e') with (- e') by lia.
    destruct (- e') as [|p|p] eqn:E; try lia.
    rewrite Z.shiftl_mul_pow2 by lia. reflexivity. }
  assert (Hp : 0 < 2 ^ (- e')) by (apply Z.pow_pos_nonneg; lia).
  assert (Hm : 0 <= m') by (rewrite Hm'; lia).
  pose proof (Z.div_pos m' (Zpos d) Hm eq_refl) as Hq.
  pose proof (Z.mul_div_le m' (Zpos d) eq_refl) as Hqd.
  unfold Z.div in Hq, Hqd. destruct (Z.div_eucl m' (Zpos d)) as [q r].
  apply binary_round_aux_finite; [assumption | lia |].
  (* q * 2 ^ (d2 - 1) <= q * d <= m' < 2 ^ (d1 - e') *)
  pose proof (Zdigits2_gt (Zpos n) ltac:(lia)) as Hn.
  change (Zdigits2 (Zpos n)) with d1 in Hn.
  assert (Hd : 2 ^ (d2 - 1) <= Zpos d).
  { pose proof (Zdigits2_log2 (Zpos d) eq_refl) as Hl.
    change (Zdigits2 (Zpos d)) with d2 in Hl.
    replace (d2 - 1) with (Z.log2 (Zpos d)) by lia.
    apply Z.log2_spec. reflexivity. }
  assert (Hd1 : 0 < d1) by (subst d1; lia).
  assert (Hd2 : 0 < d2) by (subst d2; lia).
  assert (Hlt : q * 2 ^ (d2 - 1) < 2 ^ (d1 - e')).
  { apply Z.le_lt_trans with m'.
    - apply Z.le_trans with (Zpos d * q); [|assumption].
      rewrite Z.mul_comm. apply Z.mul_le_mono_nonneg_r; assumption.
    - rewrite Hm'. replace (d1 - e') with (d1 + - e') by lia.
      rewrite Z.pow_add_r by lia.
      apply Z.mul_lt_mono_pos_r; assumption. }
  assert (Hk : Zdigits2 q <= Z.max 0 (d1 - e' - (d2 - 1))).
  { apply Zdigits2_le; [assumption | lia |].
    assert (Hp2 : 0 < 2 ^ (d2 - 1)) by (apply Z.pow_pos_nonneg; lia).
    destruct (Z.le_gt_cases (d2 - 1) (d1 - e')) as [Hle|Hgt].
    - rewrite Z.max_r by lia.
      apply Z.mul_lt_mono_pos_r with (2 ^ (d2 - 1)); [assumption|].
      rewrite <- Z.pow_add_r by lia.
      replace (d1 - e' - (d2 - 1) + (d2 - 1)) with (d1 - e') by lia.
      assumption.
    - rewrite Z.max_l by lia. rewrite Z.pow_0_r.
      assert (2 ^ (d1 - e') <= 2 ^ (d2 - 1))
        by (apply Z.pow_le_mono_r; lia).
      nia. }
  lia.
Qed.

Lemma float_of_decimal_bounded (s : bool) (n : Z) (k : nat) :
  bounded_float (float_of_decimal s n k).
Proof.
  destruct n; simpl; try exact I. apply round_ratio_bounded.
Qed.

(** A fifth of a float that is finite is finite. *)
Lemma float_mul_0_2_finite (x : spec_float) :
  bounded_float x -> float_finite x = true ->
  float_finite (float_mul x lit_0_2) = true.
Proof.
  destruct x as [s|s| |s m e]; simpl; try discriminate; try reflexivity.
  intros [Hd He] _.
  apply binary_round_aux_finite; [lia | lia |].
  change (Zdigits2 (Zpos (m * 7205759403792794)))
    with (Zdigits2 (Zpos m * 7205759403792794)).
  pose proof (Zdigits2_gt (Zpos m) ltac:(lia)) as Hm.
  change (Zdigits2 (Zpos m)) with (Zpos (digits2_pos m)) in Hm.
  assert (Hk : Zdigits2 (Zpos m * 7205759403792794)
               <= Zpos (digits2_pos m) + 53).
  { apply Zdigits2_le; try lia.
    rewrite Z.pow_add_r by lia.
    assert (7205759403792794 < 2 ^ 53) by reflexivity.
    nia. }
  lia.
Qed.

Lemma float_mul_0_2_infinite (s : bool) :
  float_mul (S754_infinity s) lit_0_2 = S754_infinity s.
Proof. destruct s; reflexivity. Qed.

(** ** Facts about decimal digits *)

Lemma in_digit_set (U : ucd) (c : char) :
  in_set U [ClsDigit] c = isdecimal U c.
Proof. unfold in_set. simpl. apply orb_false_r. Qed.

Lemma forallb_digit_set (U : ucd) (s : pystr) :
  forallb (in_set U [ClsDigit]) s = forallb (isdecimal U) s.
Proof.
  induction s as [|c s IH]; simpl; [reflexivity|].
  rewrite IH. f_equal. apply orb_false_r.
Qed.

Lemma isdecimal_not_space (U : ucd) (c : char) :
  isdecimal U c = true -> isspace c = false.
Proof.
  unfold isdecimal. intros H. destruct (isspace c) eqn:Hs; [|reflexivity].
  rewrite (decimal_space U c Hs) in H. discriminate.
Qed.

Lemma isdecimal_not_space_numeric (U : ucd) (c : char) :
  isdecimal U c = true -> isspace_numeric c = false.
Proof.
  intros H. destruct (isspace_numeric c) eqn:Hs; [|reflexivity].
  apply isspace_numeric_isspace in Hs.
  rewrite (isdecimal_not_space U c H) in Hs. discriminate.
Qed.

Lemma decimal_nondigit (U : ucd) (c : char) :
  ascii_nondigit c = true -> decimal U c = None.
Proof.
  unfold ascii_nondigit. intros H.
  apply andb_true_iff in H. destruct H as [H Hd].
  apply andb_true_iff in H. destruct H as [H0 H1].
  apply Z.leb_le in H0. apply Z.ltb_lt in H1.
  rewrite decimal_ascii by lia.
  apply negb_true_iff in Hd. rewrite Hd. reflexivity.
Qed.

Lemma isdecimal_neq (U : ucd) (c c0 : char) :
  isdecimal U c = true -> ascii_nondigit c0 = true -> (c =? c0) = false.
Proof.
  unfold isdecimal. intros H H0. apply Z.eqb_neq. intros ->.
  rewrite (decimal_nondigit U c0 H0) in H. discriminate.
Qed.

Lemma span_digits_app (U : ucd) (a t : pystr) :
  forallb (isdecimal U) a = true ->
  match t with [] => True | c :: _ => decimal U c = None end ->
  span_digits U (a ++ t) = (digit_values U a, t).
Proof.
  intros Ha Ht. induction a as [|c a IH]; simpl.
  - destruct t as [|c t]; [reflexivity|]. simpl. rewrite Ht. reflexivity.
  - simpl in Ha. apply andb_true_iff in Ha. destruct Ha as [Hc Ha].
    unfold isdecimal in Hc. destruct (decimal U c); [|discriminate].
    rewrite (IH Ha). reflexivity.
Qed.

(** ** The shape of a validated price *)

Lemma price_re_shape (U : ucd) (v : pystr) :
  re_match U price_re v = true ->
  exists ip fp tl,
    v = ip ++ chr "." :: fp ++ tl /\ ip <> []
    /\ forallb (isdecimal U) ip = true
    /\ List.length fp = 2%nat /\ forallb (isdecimal U) fp = true
    /\ at_eol tl = true.
Proof.
  unfold re_match, price_re.
  rewrite match_bol. intros H.
  apply match_plus in H. destruct H as (ip & b & Hv & Hne & Hip & H).
  apply match_lit in H. destruct H as (c & b0 & Hc & Eb & H).
  subst b. rename b0 into b.
  apply match_rep in H. destruct H as (fp & tl & Hb & Hlen & Hfp & H).
  rewrite match_eol in H.
  exists ip, fp, tl. rewrite forallb_digit_set in Hip, Hfp.
  subst b c v. repeat split; assumption.
Qed.

Lemma at_eol_spaces (tl : pystr) :
  at_eol tl = true -> forallb isspace_numeric tl = true.
Proof.
  destruct tl as [|c [|d tl]]; simpl; try discriminate; [reflexivity|].
  intros H. apply Z.eqb_eq in H. subst c. reflexivity.
Qed.

Lemma last_app_cons {A : Type} (a : list A) (x d : A) (b : list A) :
  last (a ++ x :: b) d = last (x :: b) d.
Proof.
  induction a as [|y a IH]; [reflexivity|].
  change ((y :: a) ++ x :: b) with (y :: (a ++ x :: b)).
  destruct (a ++ x :: b) eqn:E; [destruct a; discriminate|].
  simpl in *. assumption.
Qed.

Lemma forallb_last {A : Type} (f : A -> bool) (l : list A) (x d : A) :
  forallb f (x :: l) = true -> f (last (x :: l) d) = true.
Proof.
  revert x. induction l as [|y l IH]; intros x H.
  - simpl in *. apply andb_true_iff in H. tauto.
  - change (last (x :: y :: l) d) with (last (y :: l) d).
    apply IH. simpl in H. apply andb_true_iff in H. tauto.
Qed.

(** [float] reads a validated price or total as the float nearest to
    its digits over 100. *)
Lemma py_float_price_value (U : ucd) (v : pystr) :
  re_match U price_re v = true ->
  exists ds,
    (List.length ds < List.length v)%nat
    /\ py_float U v
       = Ok (float_of_decimal false (digits_value (digit_values U ds)) 2).
Proof.
  intros H. apply price_re_shape in H.
  destruct H as (ip & fp & tl & Hv & Hne & Hip & Hlen & Hfp & Htl).
  destruct ip as [|c ip]; [congruence|].
  destruct fp as [|f1 [|f2 [|f3 fp]]]; try discriminate. clear Hlen Hne.
  assert (Hc : isdecimal U c = true)
    by (simpl in Hip; apply andb_true_iff in Hip; tauto).
  assert (Hstrip : strip_with isspace_numeric v
                   = (c :: ip) ++ chr "." :: [f1; f2]).
  { subst v.
    replace ((c :: ip) ++ chr "." :: [f1; f2] ++ tl)
      with ([] ++ ((c :: ip) ++ chr "." :: [f1; f2]) ++ tl)
      by (simpl; rewrite <- app_assoc; reflexivity).
    apply strip_with_core;
      [reflexivity | apply at_eol_spaces; assumption |].
    split; [apply isdecimal_not_space_numeric with U; assumption|].
    change ((c :: ip) ++ chr "." :: [f1; f2])
      with (c :: (ip ++ chr "." :: [f1; f2])).
    destruct (ip ++ chr "." :: [f1; f2]) eqn:E;
      [destruct ip; discriminate|].
    change (last (c :: c0 :: l) c) with (last (c0 :: l) c).
    rewrite <- E, last_app_cons.
    apply isdecimal_not_space_numeric with U.
    apply (forallb_last (isdecimal U) [f2] f1 c). assumption. }
  unfold py_float. rewrite Hstrip.
  change ((c :: ip) ++ chr "." :: [f1; f2])
    with (c :: (ip ++ chr "." :: [f1; f2])).
  unfold split_sign.
  rewrite (isdecimal_neq U c (chr "-") Hc eq_refl).
  rewrite (isdecimal_neq U c (chr "+") Hc eq_refl).
  change (c :: (ip ++ chr "." :: [f1; f2]))
    with ((c :: ip) ++ chr "." :: [f1; f2]).
  rewrite (span_digits_app U (c :: ip) (chr "." :: [f1; f2]) Hip)
    by (apply decimal_nondigit; reflexivity).
  rewrite Z.eqb_refl.
  rewrite <- (app_nil_r [f1; f2]).
  rewrite (span_digits_app U [f1; f2] [] Hfp I).
  exists ((c :: ip) ++ [f1; f2]). split.
  - rewrite Hv, !length_app. simpl. lia.
  - unfold digit_values. rewrite map_app. cbn [map app List.length].
    reflexivity.
Qed.

Lemma py_float_price (U : ucd) (v : pystr) :
  re_match U price_re v = true ->
  exists x, py_float U v = Ok x /\ has_sign false x /\ bounded_float x.
Proof.
  intros H. destruct (py_float_price_value U v H) as (ds & _ & Hx).
  eexists. split; [exact Hx|]. split.
  - apply float_of_decimal_sign.
  - apply float_of_decimal_bounded.
Qed.

Lemma digits_value_bound_from (ds : list nat) (acc : Z) :
  Forall (fun d => (d < 10)%nat) ds -> 0 <= acc ->
  fold_left (fun acc d => 10 * acc + Z.of_nat d) ds acc
  < (acc + 1) * 10 ^ Z.of_nat (List.length ds).
Proof.
  intros H. revert acc.
  induction H as [|d ds Hd Hds IH]; intros acc Hacc; cbn [fold_left].
  - simpl. lia.
  - specialize (IH (10 * acc + Z.of_nat d) ltac:(lia)).
    eapply Z.lt_le_trans; [exact IH|].
    change (List.length (d :: ds)) with (S (List.length ds)).
    rewrite Nat2Z.inj_succ, Z.pow_succ_r by lia.
    assert (0 < 10 ^ Z.of_nat (List.length ds))
      by (apply Z.pow_pos_nonneg; lia).
    nia.
Qed.

Lemma digit_values_lt_10 (U : ucd) (s : pystr) :
  Forall (fun d => (d < 10)%nat) (digit_values U s).
Proof.
  induction s as [|c s IH]; simpl; constructor; [|assumption].
  destruct (decimal U c) as [d|] eqn:E; [|lia].
  apply (decimal_digit U c d E).
Qed.

(** A price or total of at most 310 characters is below [10 ^ 307]: its
    float is finite. *)
Lemma py_float_price_short (U : ucd) (v : pystr) :
  re_match U price_re v = true -> (List.length v <= 310)%nat ->
  exists x, py_float U v = Ok x /\ float_finite x = true.
Proof.
  intros H Hlen. destruct (py_float_price_value U v H) as (ds & Hds & Hx).
  eexists. split; [exact Hx|].
  pose proof (digits_value_bound_from (digit_values U ds) 0
                (digit_values_lt_10 U ds) ltac:(lia)) as Hb.
  fold (digits_value (digit_values U ds)) in Hb.
  unfold digit_values in Hb at 2. rewrite length_map in Hb.
  destruct (digits_value (digit_values U ds)) as [|n|n] eqn:E;
    try reflexivity.
  unfold float_of_decimal. apply round_ratio_finite.
  change (Zpos (digits2_pos (Z.to_pos (10 ^ Z.of_nat 2)))) with 7.
  assert (Hn : Zpos n < 2 ^ 1029).
  { eapply Z.lt_le_trans; [exact Hb|].
    apply Z.le_trans with (10 ^ 309).
    - rewrite Z.add_0_l, Z.mul_1_l. apply Z.pow_le_mono_r; lia.
    - apply Z.leb_le. vm_compute. reflexivity. }
  pose proof (Zdigits2_le (Zpos n) 1029 ltac:(lia) ltac:(lia) Hn) as Hd.
  change (Zdigits2 (Zpos n)) with (Zpos (digits2_pos n)) in Hd. lia.
Qed.

(** ** What a validator that returned has checked *)

Lemma validate_price_inv (U : ucd) (v v' : pystr) :
  validate_price U v = Ok v' -> re_match U price_re v = true.
Proof.
  unfold validate_price. destruct (re_match U price_re v); simpl;
    [reflexivity|discriminate].
Qed.

Lemma validate_total_inv (U : ucd) (v v' : pystr) :
  validate_total U v = Ok v' -> re_match U price_re v = true.
Proof.
  unfold validate_total. destruct (re_match U price_re v); simpl;
    [reflexivity|discriminate].
Qed.

Lemma validate_purchaseDate_ok (U : ucd) (today : date) (v : pystr) :
  validate_purchaseDate U today v = Ok v <->
  re_match U date_re v = true
  /\ exists dt, strptime U v fmt_date = Ok dt
                /\ date_gtb (date_of dt) today = false.
Proof.
  unfold validate_purchaseDate.
  destruct (re_match U date_re v); simpl.
  - destruct (strptime U v fmt_date) as [dt|e]; simpl.
    + destruct (date_gtb (date_of dt) today) eqn:Hgt; simpl.
      * split; [discriminate|].
        intros (_ & dt' & Hdt & Hle). injection Hdt as <-. congruence.
      * split; [|reflexivity]. intros _. split; [reflexivity|].
        exists dt. split; [reflexivity|assumption].
    + split; [discriminate|]. intros (_ & dt' & Hdt & _). discriminate.
  - split; [discriminate|]. intros [H _]. discriminate.
Qed.

Lemma validate_purchaseTime_ok (U : ucd) (v : pystr) :
  validate_purchaseTime U v = Ok v <->
  re_match U time_re v = true /\ exists t, strptime U v fmt_time = Ok t.
Proof.
  unfold validate_purchaseTime.
  destruct (re_match U time_re v); simpl.
  - destruct (strptime U v fmt_time) as [t|e]; simpl.
    + split; [|reflexivity]. intros _. split; [reflexivity|].
      exists t. reflexivity.
    + split; [discriminate|]. intros (_ & t & Ht). discriminate.
  - split; [discriminate|]. intros [H _]. discriminate.
Qed.

(** ** Facts about [strptime] *)

Lemma match_seq_split (cls : list (char -> bool)) (s txt rest : pystr) :
  match_seq cls s = Some (txt, rest) ->
  s = txt ++ rest /\ List.length txt = List.length cls.
Proof.
  revert s txt rest. induction cls as [|p cls IH]; intros s txt rest; simpl.
  - intros H. injection H as <- <-. split; reflexivity.
  - destruct s as [|c s]; [discriminate|].
    destruct (p c); [|discriminate].
    destruct (match_seq cls s) as [[txt' rest']|] eqn:E; [|discriminate].
    intros H. injection H as <- <-.
    destruct (IH _ _ _ E) as [-> Hlen]. simpl. split; congruence.
Qed.

Lemma match_format_dir (U : ucd) (k : directive) (fmt : list piece)
  (s : pystr) (r : list (directive * pystr) * pystr) :
  match_format U (PDir k :: fmt) s = Some r ->
  exists a txt rest found,
    In a (alternatives U k) /\ match_seq a s = Some (txt, rest)
    /\ match_format U fmt rest = Some (found, snd r)
    /\ fst r = (k, txt) :: found.
Proof.
  simpl. generalize (alternatives U k) as alts.
  induction alts as [|a alts IH]; [discriminate|].
  destruct (match_seq a s) as [[txt rest]|] eqn:E.
  - destruct (match_format U fmt rest) as [[found rem]|] eqn:E2.
    + intros H. injection H as <-.
      exists a, txt, rest, found. simpl. auto.
    + intros H. destruct (IH H) as (a' & txt' & rest' & found' & Hin & H').
      exists a', txt', rest', found'. simpl. tauto.
  - intros H. destruct (IH H) as (a' & txt' & rest' & found' & Hin & H').
    exists a', txt', rest', found'. simpl. tauto.
Qed.

Lemma match_format_lit (U : ucd) (c : char) (fmt : list piece) (s : pystr)
  (r : list (directive * pystr) * pystr) :
  match_format U (PLit c :: fmt) s = Some r ->
  exists s', s = c :: s' /\ match_format U fmt s' = Some r.
Proof.
  simpl. destruct s as [|d s]; [discriminate|].
  destruct (c =? d) eqn:E; [|discriminate].
  apply Z.eqb_eq in E. subst d. intros H. exists s. auto.
Qed.

Lemma py_int_digits (U : ucd) (c : char) (s : pystr) :
  forallb (isdecimal U) (c :: s) = true ->
  py_int U (c :: s) = Ok (digits_value (digit_values U (c :: s))).
Proof.
  intros H.
  assert (Hc : isdecimal U c = true)
    by (simpl in H; apply andb_true_iff in H; tauto).
  assert (Hstrip : strip_with isspace_numeric (c :: s) = c :: s).
  { replace (c :: s) with ([] ++ (c :: s) ++ []) at 1
      by (simpl; rewrite app_nil_r; reflexivity).
    apply strip_with_core; try reflexivity.
    split; apply isdecimal_not_space_numeric with U; [assumption|].
    apply forallb_last. assumption. }
  unfold py_int. rewrite Hstrip. unfold split_sign.
  rewrite (isdecimal_neq U c (chr "-") Hc eq_refl).
  rewrite (isdecimal_neq U c (chr "+") Hc eq_refl).
  unfold all_digits.
  pose proof (span_digits_app U (c :: s) [] H I) as Hs.
  rewrite app_nil_r in Hs. rewrite Hs. reflexivity.
Qed.


(** A validated date is four digits, a hyphen, two digits, a hyphen and
    two digits, and the fields of the parsed date are the numbers these
    digits write. *)
Lemma date_shape (U : ucd) (v : pystr) (dt : datetime) :
  re_match U date_re v = true -> strptime U v fmt_date = Ok dt ->
  exists yy mm dd,
    v = yy ++ chr "-" :: mm ++ chr "-" :: dd
    /\ List.length yy = 4%nat /\ List.length mm = 2%nat
    /\ List.length dd = 2%nat
    /\ forallb (isdecimal U) (yy ++ mm ++ dd) = true
    /\ year dt = number U yy /\ month dt = number U mm
    /\ day dt = number U dd.
Proof.
  unfold re_match, date_re.
  rewrite match_bol. intros H.
  apply match_rep in H. destruct H as (yy & b & Hv & Hly & Hyy & H).
  apply match_lit in H. destruct H as (c & b0 & Hc & Eb & H).
  subst b. rename b0 into b.
  apply match_rep in H. destruct H as (mm & b' & Hb & Hlm & Hmm & H).
  apply match_lit in H. destruct H as (c' & b'0 & Hc' & Eb' & H).
  subst b'. rename b'0 into b'.
  apply match_rep in H. destruct H as (dd & tl & Hb' & Hld & Hdd & _).
  rewrite forallb_digit_set in Hyy, Hmm, Hdd.
  subst c c' b' b v.
  destruct yy as [|y1 [|y2 [|y3 [|y4 [|y5 yy]]]]]; try discriminate.
  destruct mm as [|m1 [|m2 [|m3 mm]]]; try discriminate.
  destruct dd as [|d1 [|d2 [|d3 dd]]]; try discriminate.
  clear Hly Hlm Hld.
  assert (Hm2 : isdecimal U m2 = true).
  { simpl in Hmm. rewrite andb_true_r in Hmm.
    apply andb_true_iff in Hmm. tauto. }
  unfold strptime.
  destruct (match_format U fmt_date _) as [[found rem]|] eqn:Hf;
    [|discriminate].
  destruct rem as [|x rem]; [|discriminate].
  unfold fmt_date in Hf. apply match_format_dir in Hf.
  destruct Hf as (a1 & ty & r1 & f1 & Ha1 & Hty & Hf & Hfound1).
  cbn [fst snd] in Hf, Hfound1. apply match_seq_split in Hty.
  destruct Hty as [Hs1 Hl1].
  apply match_format_lit in Hf. destruct Hf as (r1' & -> & Hf).
  apply match_format_dir in Hf.
  destruct Hf as (a2 & tm & r2 & f2 & Ha2 & Htm & Hf & Hfound2).
  cbn [fst snd] in Hf, Hfound2. apply match_seq_split in Htm.
  destruct Htm as [-> Hl2].
  apply match_format_lit in Hf. destruct Hf as (r2' & -> & Hf).
  apply match_format_dir in Hf.
  destruct Hf as (a3 & td & r3 & f3 & Ha3 & Htd & Hf & Hfound3).
  cbn [fst snd match_format] in Hf, Hfound3. injection Hf as <- ->.
  apply match_seq_split in Htd. destruct Htd as [-> Hl3].
  rewrite app_nil_r in Hs1. subst f2 f1 found.
  assert (Hl1' : List.length ty = 4%nat).
  { rewrite Hl1. simpl in Ha1. destruct Ha1 as [<-|[]]. reflexivity. }
  assert (Hl2' : (List.length tm = 1 \/ List.length tm = 2)%nat).
  { rewrite Hl2. simpl in Ha2.
    destruct Ha2 as [<-|[<-|[<-|[]]]]; simpl; auto. }
  assert (Hl3' : (List.length td = 1 \/ List.length td = 2)%nat).
  { rewrite Hl3. simpl in Ha3.
    destruct Ha3 as [<-|[<-|[<-|[<-|[<-|[]]]]]]; simpl; auto. }
  clear Ha1 Ha2 Ha3 Hl1 Hl2 Hl3 a1 a2 a3.
  assert (Hsh : ty = [y1; y2; y3; y4] /\ tm = [m1; m2] /\ td = [d1; d2]
                /\ tl = []).
  { destruct ty as [|t1 [|t2 [|t3 [|t4 [|t5 ty]]]]]; try discriminate.
    simpl in Hs1. injection Hs1 as <- <- <- <- Hs1.
    destruct tm as [|u1 [|u2 [|u3 tm]]]; simpl in Hl2';
      try (destruct Hl2'; discriminate).
    - exfalso. simpl in Hs1. injection Hs1 as _ Hx _.
      pose proof (isdecimal_neq U m2 (chr "-") Hm2 eq_refl) as Hne.
      rewrite Hx, Z.eqb_refl in Hne. discriminate.
    - simpl in Hs1. injection Hs1 as <- <- Hs1.
      destruct td as [|w1 [|w2 [|w3 td]]]; simpl in Hl3';
        try (destruct Hl3'; discriminate); try discriminate.
      injection Hs1 as <- <- ->. auto. }
  destruct Hsh as (-> & -> & -> & ->).
  unfold set_fields, set_field.
  rewrite (py_int_digits U y1 [y2; y3; y4]) by assumption.
  rewrite (py_int_digits U m1 [m2]) by assumption.
  rewrite (py_int_digits U d1 [d2]) by assumption.
  cbn [bind p_year p_month p_day p_hour p_minute parsed_default].
  unfold new_datetime.
  destruct (check_date_fields _ _ _); [|discriminate].
  change (check_time_fields 0 0) with true. cbv iota.
  intros Ht. injection Ht as <-.
  exists [y1; y2; y3; y4], [m1; m2], [d1; d2]. cbn [year month day].
  repeat split; try reflexivity.
  rewrite !forallb_app, Hyy, Hmm, Hdd. reflexivity.
Qed.

(** ** Block 5 *)

Lemma price_points_valid (U : ucd) (item : Item) :
  valid_item U item ->
  if price_in_range U item
  then exists n, price_points U item = Ok n /\ 0 <= n
  else price_points U item = Raise OverflowError.
Proof.
  intros Hv. apply validate_price_inv in Hv.
  destruct (py_float_price U _ Hv) as (x & Hx & Hsign & Hb).
  unfold price_in_range, price_points. rewrite Hx. cbn [bind].
  pose proof (py_round_nonneg _ (float_mul_0_2_sign false x Hsign)) as Hr.
  destruct (float_finite x) eqn:Hf.
  - rewrite (float_mul_0_2_finite x Hb Hf) in Hr. exact Hr.
  - destruct x as [s|s| |s m e]; try discriminate; try contradiction.
    rewrite float_mul_0_2_infinite. reflexivity.
Qed.

Lemma rule5_item_valid (U : ucd) (points : Z) (item : Item) :
  valid_item U item ->
  rule5_item U points item =
  if item_ok U item then Ok (points + item_points U item)
  else Raise OverflowError.
Proof.
  intros Hv. pose proof (price_points_valid U item Hv) as H.
  unfold rule5_item, item_ok, item_points, eligible.
  destruct (Nat.eqb _ 0); simpl.
  - destruct (price_in_range U item).
    + destruct H as (n & -> & _). reflexivity.
    + rewrite H. reflexivity.
  - rewrite Z.add_0_r. reflexivity.
Qed.

Lemma item_points_nonneg (U : ucd) (item : Item) :
  valid_item U item -> 0 <= item_points U item.
Proof.
  intros Hv. pose proof (price_points_valid U item Hv) as H.
  unfold item_points. destruct (eligible item); [|lia].
  destruct (price_in_range U item).
  - destruct H as (n & -> & Hn). assumption.
  - rewrite H. lia.
Qed.

Lemma rule5_valid (U : ucd) (its : list Item) (points : Z) :
  Forall (valid_item U) its ->
  for_each (rule5_item U) its points =
  if forallb (item_ok U) its
  then Ok (points + zsum (map (item_points U) its))
  else Raise OverflowError.
Proof.
  intros Hv. revert points.
  induction Hv as [|it its Hit Hits IH]; intros points; simpl.
  - rewrite Z.add_0_r. reflexivity.
  - rewrite (rule5_item_valid U points it Hit).
    destruct (item_ok U it); simpl; [|reflexivity].
    rewrite IH. destruct (forallb (item_ok U) its); [|reflexivity].
    f_equal. lia.
Qed.

Lemma zsum_nonneg (U : ucd) (its : list Item) :
  Forall (valid_item U) its -> 0 <= zsum (map (item_points U) its).
Proof.
  induction 1 as [|it its Hit Hits IH]; simpl; [lia|].
  pose proof (item_points_nonneg U it Hit). lia.
Qed.

Lemma prices_in_range_ok (U : ucd) (r : Receipt) :
  prices_in_range U r <-> forallb (item_ok U) (items r) = true.
Proof.
  unfold prices_in_range. rewrite forallb_forall, Forall_forall.
  split; intros H it Hin; specialize (H it Hin); unfold item_ok in *.
  - destruct (eligible it); simpl; auto.
  - intros He. rewrite He in H. exact H.
Qed.

Lemma forallb_permutation {A : Type} (f : A -> bool) (l l' : list A) :
  Permutation l l' -> forallb f l = forallb f l'.
Proof.
  induction 1 as [|x l l' _ IH|x y l|l l' l'' _ IH1 _ IH2]; simpl.
  - reflexivity.
  - rewrite IH. reflexivity.
  - destruct (f x), (f y); reflexivity.
  - congruence.
Qed.

Lemma zsum_permutation (l l' : list Z) :
  Permutation l l' -> zsum l = zsum l'.
Proof.
  induction 1 as [|x l l' _ IH|x y l|l l' l'' _ IH1 _ IH2]; simpl; lia.
Qed.

(** ** The blocks that parse *)

Lemma rule3_valid (U : ucd) (r : Receipt) :
  re_match U price_re (total r) = true ->
  exists c, (c = 0 \/ c = 25)
            /\ forall points, rule3 U r points = Ok (points + c).
Proof.
  intros H. destruct (py_float_price U _ H) as (x & Hx & _).
  destruct (float_rem_quarter x) as (m & Hm).
  unfold rule3. rewrite Hx. cbn [bind]. rewrite Hm. cbn [bind].
  destruct (float_is_zero m).
  - exists 25. split; [auto|]. reflexivity.
  - exists 0. split; [auto|]. intros. rewrite Z.add_0_r. reflexivity.
Qed.

Lemma rule6_valid (U : ucd) (r : Receipt) (dt : datetime) :
  strptime U (purchaseDate r) fmt_date = Ok dt ->
  exists c, (c = 0 \/ c = 6)
            /\ forall points, rule6 U r points = Ok (points + c).
Proof.
  intros H. unfold rule6. rewrite H. simpl.
  destruct (negb _).
  - exists 6. split; [auto|]. reflexivity.
  - exists 0. split; [auto|]. intros. rewrite Z.add_0_r. reflexivity.
Qed.

Lemma rule7_valid (U : ucd) (r : Receipt) (t : datetime) :
  strptime U (purchaseTime r) fmt_time = Ok t ->
  forall points,
    rule7 U r points =
    Ok (points + if (hour t =? 14) || (hour t =? 15) then 10 else 0).
Proof.
  intros H points. unfold rule7. rewrite H. simpl.
  destruct (_ || _); [reflexivity|]. rewrite Z.add_0_r. reflexivity.
Qed.

(** ** The retailer *)

Lemma forallb_pointwise {A : Type} (f g : A -> bool) (l : list A) :
  (forall a, f a = g a) -> forallb f l = forallb g l.
Proof.
  intros H. induction l as [|a l IH]; simpl; [reflexivity|].
  rewrite H, IH. reflexivity.
Qed.

Lemma in_retailer_set (U : ucd) (c : char) :
  in_set U [ClsWord; ClsSpace; ClsChar (chr "-"); ClsChar (chr "&")] c
  = retailer_char U c.
Proof.
  unfold in_set, retailer_char. simpl existsb.
  rewrite orb_false_r, !orb_assoc. reflexivity.
Qed.

Lemma retailer_re_match (U : ucd) (v : pystr) :
  re_match U retailer_re v = true <->
  v <> [] /\ forallb (retailer_char U) v = true.
Proof.
  unfold re_match, retailer_re.
  rewrite match_bol, match_plus. split.
  - intros (a & b & -> & Hne & Ha & Hb).
    rewrite match_eol in Hb. split.
    + destruct a; [congruence|discriminate].
    + rewrite forallb_app. apply andb_true_iff. split.
      * rewrite (forallb_pointwise _ _ a (in_retailer_set U)) in Ha.
        exact Ha.
      * destruct b as [|c [|d b]]; try discriminate; [reflexivity|].
        simpl in Hb. apply Z.eqb_eq in Hb. subst c.
        unfold retailer_char. simpl. destruct (isalnum U 10); reflexivity.
  - intros [Hne Hv]. exists v, []. rewrite app_nil_r.
    repeat split; try assumption.
    rewrite (forallb_pointwise _ _ v (in_retailer_set U)). exact Hv.
Qed.

(** C7: the retailer is accepted exactly when it is not empty and each of
    its characters, from the first to the last, is a word character,
    whitespace, a hyphen or an ampersand; a string with any other
    character anywhere is rejected. *)
Theorem validate_retailer_full_match (U : ucd) (v : pystr) :
  (validate_retailer U v = Ok v <->
   v <> [] /\ forallb (retailer_char U) v = true)
  /\ (forall a c b,
        v = a ++ c :: b -> retailer_char U c = false ->
        validate_retailer U v
        = Raise (ValueError "Retailer name price must not be blank")).
Proof.
  pose proof (retailer_re_match U v) as Hm.
  unfold validate_retailer. destruct (re_match U retailer_re v); simpl.
  - split.
    + split; [intros _; apply Hm; reflexivity | reflexivity].
    + intros a c b -> Hc. exfalso.
      destruct Hm as [Hm _]. destruct (Hm eq_refl) as [_ Hall].
      rewrite forallb_app in Hall. simpl in Hall. rewrite Hc in Hall.
      rewrite andb_false_r in Hall. discriminate.
  - split.
    + split; [discriminate|]. intros H. apply Hm in H. discriminate.
    + reflexivity.
Qed.

Lemma validate_retailer_full_match_witness :
  validate_retailer ascii_ucd (str "M&M Corner Market")
  = Ok (str "M&M Corner Market")
  /\ validate_retailer ascii_ucd (str "Target!")
     = Raise (ValueError "Retailer name price must not be blank").
Proof.
  split.
  - apply (proj1 (validate_retailer_full_match ascii_ucd _)).
    split; [discriminate | vm_compute; reflexivity].
  - apply (proj2 (validate_retailer_full_match ascii_ucd (str "Target!"))
             (str "Target") (chr "!") []); vm_compute; reflexivity.
Defined.

(** ** The purchase time *)






(** ** The purchase date *)

Lemma strptime_date_fields (U : ucd) (v : pystr) (fmt : list piece)
  (dt : datetime) :
  strptime U v fmt = Ok dt ->
  check_date_fields (year dt) (month dt) (day dt) = true.
Proof.
  unfold strptime.
  destruct (match_format U fmt v) as [[found [|x rem]]|]; try discriminate.
  destruct (set_fields U parsed_default found) as [p|e]; [|discriminate].
  cbn [bind]. unfold new_datetime.
  destruct (check_date_fields _ _ _) eqn:E; [|discriminate].
  destruct (check_time_fields _ _); [|discriminate].
  intros H. injection H as <-. exact E.
Qed.

Lemma date_gtb_irrefl (d : date) : date_gtb d d = false.
Proof.
  unfold date_gtb. rewrite !Z.ltb_irrefl, !Z.eqb_refl. reflexivity.
Qed.

Lemma date_gtb_tomorrow (d : date) : date_gtb (tomorrow d) d = true.
Proof.
  unfold tomorrow, date_gtb.
  destruct (date_day d <? _); [|destruct (date_month d <? 12)]; simpl.
  - rewrite !Z.eqb_refl, !Z.ltb_irrefl.
    replace (date_day d <? date_day d + 1) with true; [reflexivity|].
    symmetry. apply Z.ltb_lt. lia.
  - rewrite Z.eqb_refl, Z.ltb_irrefl.
    replace (date_month d <? date_month d + 1) with true; [reflexivity|].
    symmetry. apply Z.ltb_lt. lia.
  - replace (date_year d <? date_year d + 1) with true; [reflexivity|].
    symmetry. apply Z.ltb_lt. lia.
Qed.

(** C5: a purchase date is accepted exactly when it matches the pattern,
    [strptime] reads it as a date of the calendar, and that date is not
    after today; today's date is accepted and tomorrow's is rejected with
    a [ValueError].  An accepted date is four digits, a hyphen, two
    digits, a hyphen and two digits, and the year, month and day they
    write are a date of the calendar that is not after today. *)
Theorem validate_purchaseDate_iff (U : ucd) (today : date) (v : pystr) :
  (validate_purchaseDate U today v = Ok v <->
   re_match U date_re v = true
   /\ exists dt,
        strptime U v fmt_date = Ok dt
        /\ check_date_fields (year dt) (month dt) (day dt) = true
        /\ date_gtb (date_of dt) today = false)
  /\ (forall dt,
        re_match U date_re v = true -> strptime U v fmt_date = Ok dt ->
        date_of dt = today -> validate_purchaseDate U today v = Ok v)
  /\ (forall dt,
        re_match U date_re v = true -> strptime U v fmt_date = Ok dt ->
        date_of dt = tomorrow today ->
        validate_purchaseDate U today v
        = Raise (ValueError "Purchase date must be correct"))
  /\ (validate_purchaseDate U today v = Ok v ->
      exists yy mm dd,
        v = yy ++ chr "-" :: mm ++ chr "-" :: dd
        /\ List.length yy = 4%nat /\ List.length mm = 2%nat
        /\ List.length dd = 2%nat
        /\ forallb (isdecimal U) (yy ++ mm ++ dd) = true
        /\ check_date_fields (number U yy) (number U mm) (number U dd)
           = true
        /\ date_gtb (mk_date (number U yy) (number U mm) (number U dd))
             today = false).
Proof.
  split; [|split; [|split]].
  - rewrite validate_purchaseDate_ok. split.
    + intros (Hre & dt & Hdt & Hle). split; [assumption|].
      exists dt. repeat split; try assumption.
      apply strptime_date_fields with U v fmt_date. assumption.
    + intros (Hre & dt & Hdt & _ & Hle). split; [assumption|].
      exists dt. split; assumption.
  - intros dt Hre Hdt Heq. apply validate_purchaseDate_ok.
    split; [assumption|]. exists dt. split; [assumption|].
    rewrite Heq. apply date_gtb_irrefl.
  - intros dt Hre Hdt Heq. unfold validate_purchaseDate.
    rewrite Hre, Hdt. cbn [negb bind try_except].
    rewrite Heq, date_gtb_tomorrow. reflexivity.
  - intros Hv. apply validate_purchaseDate_ok in Hv.
    destruct Hv as (Hre & dt & Hdt & Hle).
    pose proof (strptime_date_fields U v fmt_date dt Hdt) as Hcal.
    destruct (date_shape U v dt Hre Hdt)
      as (yy & mm & dd & Hv & Hly & Hlm & Hld & Hdig & Hy & Hm & Hd).
    exists yy, mm, dd. unfold date_of in Hle.
    rewrite Hy, Hm, Hd in Hcal, Hle. auto 10.
Qed.

Lemma validate_purchaseDate_iff_witness :
  validate_purchaseDate ascii_ucd a_today (str "2024-06-15")
  = Ok (str "2024-06-15")
  /\ validate_purchaseDate ascii_ucd a_today (str "2024-06-16")
     = Raise (ValueError "Purchase date must be correct").
Proof.
  split.
  - apply (proj1 (proj2 (validate_purchaseDate_iff ascii_ucd a_today
                           (str "2024-06-15")))
             (mk_datetime 2024 6 15 0 0)); reflexivity.
  - apply (proj1 (proj2 (proj2 (validate_purchaseDate_iff ascii_ucd
                                  a_today (str "2024-06-16"))))
             (mk_datetime 2024 6 16 0 0)); reflexivity.
Defined.

(** ** A total beyond the precision of a float *)

(** C3: the total 140737488355328.01 passes validation and is 1 cent
    above a multiple of 25 cents, yet block 3 adds 25 points: the float
    nearest to it is 2 ^ 47.  The total 10 ^ 309 passes validation and is
    a multiple of 25 cents, yet block 3 adds nothing: its float is
    infinite. *)
Theorem rule3_large_total :
  (validate_total ascii_ucd large_total = Ok large_total
   /\ total_cents ascii_ucd large_total = 14073748835532801
   /\ total_cents ascii_ucd large_total mod 25 = 1
   /\ py_float ascii_ucd large_total
      = Ok (S754_finite false 4503599627370496 (-5))
   /\ rule3 ascii_ucd large_total_receipt 0 = Ok 25)
  /\ (validate_total ascii_ucd (price_e 309) = Ok (price_e 309)
      /\ total_cents ascii_ucd (price_e 309) mod 25 = 0
      /\ py_float ascii_ucd (price_e 309) = Ok (S754_infinity false)
      /\ rule3 ascii_ucd huge_total_receipt 0 = Ok 0).
Proof.
  repeat split; vm_compute; reflexivity.
Qed.

(** ** The whole calculation *)

Lemma rule2_adds (r : Receipt) :
  exists c, (c = 0 \/ c = 50)
            /\ forall points, rule2 r points = Ok (points + c).
Proof.
  unfold rule2. destruct (endswith _ _).
  - exists 50. split; [auto|]. reflexivity.
  - exists 0. split; [auto|]. intros. rewrite Z.add_0_r. reflexivity.
Qed.

Lemma calculate_points_steps (U : ucd) (r : Receipt)
  (c1 c2 c3 c4 c6 c7 : Z) :
  (forall p, rule1 U r p = Ok (p + c1)) ->
  (forall p, rule2 r p = Ok (p + c2)) ->
  (forall p, rule3 U r p = Ok (p + c3)) ->
  (forall p, rule4 r p = Ok (p + c4)) ->
  (forall p, rule6 U r p = Ok (p + c6)) ->
  (forall p, rule7 U r p = Ok (p + c7)) ->
  calculate_points U r =
  (p <- rule5 U r (c1 + c2 + c3 + c4) ;; Ok (p + c6 + c7)).
Proof.
  intros H1 H2 H3 H4 H6 H7. unfold calculate_points.
  rewrite H1. cbn [bind]. rewrite H2. cbn [bind].
  rewrite H3. cbn [bind]. rewrite H4. cbn [bind].
  replace (0 + c1 + c2 + c3 + c4) with (c1 + c2 + c3 + c4) by lia.
  destruct (rule5 U r _) as [p|e]; cbn [bind]; [|reflexivity].
  rewrite H6. cbn [bind]. rewrite H7. reflexivity.
Qed.

(** The blocks other than 5 on a validated receipt: what each adds. *)
Lemma other_rules_valid (U : ucd) (today : date) (r : Receipt) :
  valid_receipt U today r ->
  exists c1 c2 c3 c6 c7,
    (0 <= c1 /\ 0 <= c2 /\ 0 <= c3 /\ 0 <= c6 /\ 0 <= c7)
    /\ (forall p, rule1 U r p = Ok (p + c1))
    /\ (forall p, rule2 r p = Ok (p + c2))
    /\ (forall p, rule3 U r p = Ok (p + c3))
    /\ (forall p, rule6 U r p = Ok (p + c6))
    /\ (forall p, rule7 U r p = Ok (p + c7)).
Proof.
  intros (_ & Hd & Ht & _ & Htot).
  apply validate_purchaseDate_ok in Hd. destruct Hd as (_ & dt & Hdt & _).
  apply validate_purchaseTime_ok in Ht. destruct Ht as (_ & t & Ht).
  apply validate_total_inv in Htot.
  destruct (rule2_adds r) as (c2 & Hc2 & H2).
  destruct (rule3_valid U r Htot) as (c3 & Hc3 & H3).
  destruct (rule6_valid U r dt Hdt) as (c6 & Hc6 & H6).
  pose proof (rule7_valid U r t Ht) as H7.
  eexists _, c2, c3, c6, _.
  split; [|repeat split; try eassumption; intros p; reflexivity].
  repeat split; try lia. destruct (_ || _); lia.
Qed.

Lemma rule4_adds (r : Receipt) (p : Z) :
  rule4 r p = Ok (p + Z.of_nat (List.length (items r)) / 2 * 5).
Proof. reflexivity. Qed.

(** X12: on a validated receipt whose looked-at prices are in range, each
    of the seven blocks adds an amount that is not negative, and the
    function returns their sum, which is not negative. *)
Theorem calculate_points_nonneg (U : ucd) (today : date) (r : Receipt) :
  valid_receipt U today r -> prices_in_range U r ->
  exists c1 c2 c3 c4 c5 c6 c7,
    (0 <= c1 /\ 0 <= c2 /\ 0 <= c3 /\ 0 <= c4 /\ 0 <= c5 /\ 0 <= c6
     /\ 0 <= c7)
    /\ (forall p, rule1 U r p = Ok (p + c1))
    /\ (forall p, rule2 r p = Ok (p + c2))
    /\ (forall p, rule3 U r p = Ok (p + c3))
    /\ (forall p, rule4 r p = Ok (p + c4))
    /\ (forall p, rule5 U r p = Ok (p + c5))
    /\ (forall p, rule6 U r p = Ok (p + c6))
    /\ (forall p, rule7 U r p = Ok (p + c7))
    /\ calculate_points U r = Ok (c1 + c2 + c3 + c4 + c5 + c6 + c7)
    /\ 0 <= c1 + c2 + c3 + c4 + c5 + c6 + c7.
Proof.
  intros Hv Hrange.
  destruct (other_rules_valid U today r Hv)
    as (c1 & c2 & c3 & c6 & c7 & Hpos & H1 & H2 & H3 & H6 & H7).
  destruct Hv as (_ & _ & _ & Hits & _).
  apply prices_in_range_ok in Hrange.
  assert (H5 : forall p,
             rule5 U r p = Ok (p + zsum (map (item_points U) (items r)))).
  { intros p. unfold rule5. rewrite (rule5_valid U _ p Hits), Hrange.
    reflexivity. }
  pose proof (zsum_nonneg U _ Hits) as Hc5.
  assert (Hc4 : 0 <= Z.of_nat (List.length (items r)) / 2 * 5).
  { apply Z.mul_nonneg_nonneg; [|lia]. apply Z.div_pos; lia. }
  exists c1, c2, c3, (Z.of_nat (List.length (items r)) / 2 * 5),
    (zsum (map (item_points U) (items r))), c6, c7.
  destruct Hpos as (P1 & P2 & P3 & P6 & P7).
  split; [repeat split; assumption|].
  repeat (split; [assumption || apply rule4_adds|]).
  split; [|lia].
  rewrite (calculate_points_steps U r c1 c2 c3 _ c6 c7 H1 H2 H3
             (rule4_adds r) H6 H7).
  rewrite H5. reflexivity.
Qed.

Lemma calculate_points_nonneg_witness :
  exists p, calculate_points ascii_ucd target_receipt = Ok p /\ 0 <= p.
Proof.
  destruct (calculate_points_nonneg ascii_ucd a_today target_receipt)
    as (c1 & c2 & c3 & c4 & c5 & c6 & c7 & _ & _ & _ & _ & _ & _ & _ & _
        & H & Hpos).
  - repeat split; try reflexivity.
    repeat constructor.
  - repeat constructor.
  - eexists. split; [exact H | exact Hpos].
Defined.

(** X13: on a validated receipt [strptime] reads the date and the time
    and [float] reads the total and every price; the function returns
    when the float of every looked-at price is finite, which is so when
    no price has more than 310 characters, and raises [OverflowError]
    otherwise. *)
Theorem calculate_points_returns_iff (U : ucd) (today : date)
  (r : Receipt) :
  valid_receipt U today r ->
  (exists dt, strptime U (purchaseDate r) fmt_date = Ok dt)
  /\ (exists t, strptime U (purchaseTime r) fmt_time = Ok t)
  /\ (exists x, py_float U (total r) = Ok x)
  /\ Forall (fun it => exists x, py_float U (price it) = Ok x) (items r)
  /\ (prices_in_range U r -> exists p, calculate_points U r = Ok p)
  /\ (~ prices_in_range U r -> calculate_points U r = Raise OverflowError)
  /\ (Forall (fun it => (List.length (price it) <= 310)%nat) (items r) ->
      prices_in_range U r).
Proof.
  intros Hv.
  destruct (other_rules_valid U today r Hv)
    as (c1 & c2 & c3 & c6 & c7 & Hpos & H1 & H2 & H3 & H6 & H7).
  pose proof (calculate_points_steps U r c1 c2 c3 _ c6 c7 H1 H2 H3
                (rule4_adds r) H6 H7) as Hcalc.
  destruct Hv as (_ & Hd & Ht & Hits & Htot).
  apply validate_purchaseDate_ok in Hd. destruct Hd as (_ & dt & Hdt & _).
  apply validate_purchaseTime_ok in Ht. destruct Ht as (_ & t & Ht).
  apply validate_total_inv in Htot.
  destruct (py_float_price U _ Htot) as (x & Hx & _).
  unfold rule5 in Hcalc. rewrite (rule5_valid U _ _ Hits) in Hcalc.
  repeat split.
  - exists dt. assumption.
  - exists t. assumption.
  - exists x. assumption.
  - apply Forall_forall. intros it Hin.
    rewrite Forall_forall in Hits. specialize (Hits it Hin).
    apply validate_price_inv in Hits.
    destruct (py_float_price U _ Hits) as (y & Hy & _). exists y. assumption.
  - intros Hrange. apply prices_in_range_ok in Hrange.
    rewrite Hrange in Hcalc. cbn [bind] in Hcalc. eexists. exact Hcalc.
  - intros Hrange. rewrite prices_in_range_ok in Hrange.
    destruct (forallb (item_ok U) (items r)); [congruence|]. exact Hcalc.
  - intros Hshort. unfold prices_in_range.
    rewrite Forall_forall in *. intros it Hin _.
    specialize (Hits it Hin). apply validate_price_inv in Hits.
    destruct (py_float_price_short U _ Hits (Hshort it Hin))
      as (y & Hy & Hfin).
    unfold price_in_range. rewrite Hy. exact Hfin.
Qed.

Lemma calculate_points_returns_iff_witness :
  exists p, calculate_points ascii_ucd target_receipt = Ok p.
Proof.
  apply (calculate_points_returns_iff ascii_ucd a_today target_receipt).
  - repeat split; try reflexivity. repeat constructor.
  - repeat constructor.
Defined.

(** X14: on a validated receipt the result, a number of points or the
    exception raised, is the same for every order of the items. *)
Theorem calculate_points_permutation (U : ucd) (today : date)
  (r : Receipt) (its : list Item) :
  valid_receipt U today r -> Permutation (items r) its ->
  calculate_points U (with_items r its) = calculate_points U r.
Proof.
  intros Hv Hperm.
  destruct (other_rules_valid U today r Hv)
    as (c1 & c2 & c3 & c6 & c7 & Hpos & H1 & H2 & H3 & H6 & H7).
  rewrite (calculate_points_steps U r c1 c2 c3 _ c6 c7 H1 H2 H3
             (rule4_adds r) H6 H7).
  rewrite (calculate_points_steps U (with_items r its) c1 c2 c3 _ c6 c7
             H1 H2 H3 (rule4_adds (with_items r its)) H6 H7).
  destruct Hv as (_ & _ & _ & Hits & _).
  assert (Hits' : Forall (valid_item U) its)
    by (eapply Permutation_Forall; eassumption).
  unfold rule5. cbn [items with_items].
  rewrite (rule5_valid U _ _ Hits), (rule5_valid U _ _ Hits').
  rewrite <- (Permutation_length Hperm).
  rewrite <- (forallb_permutation (item_ok U) _ _ Hperm).
  rewrite <- (zsum_permutation _ _ (Permutation_map (item_points U) Hperm)).
  reflexivity.
Qed.

Lemma calculate_points_permutation_witness :
  calculate_points ascii_ucd
    (with_items two_items_receipt (rev (items two_items_receipt)))
  = calculate_points ascii_ucd two_items_receipt.
Proof.
  apply (calculate_points_permutation ascii_ucd a_today).
  - repeat split; try reflexivity.
    repeat constructor; reflexivity.
  - apply Permutation_rev.
Defined.

(** ** Rounding in block 5 *)

Lemma price_points_nearest (U : ucd) (item : Item) (n : Z) :
  price_points U item = Ok n ->
  exists x, py_float U (price item) = Ok x
            /\ nearest_ties_even (float_mul x lit_0_2) n.
Proof.
  unfold price_points. destruct (py_float U (price item)) as [x|e];
    cbn [bind]; [|discriminate].
  intros H. exists x. split; [reflexivity|]. apply py_round_nearest, H.
Qed.

Lemma rule5_item_eligible (U : ucd) (points : Z) (item : Item) :
  rule5_item U points item =
  if eligible item then n <- price_points U item ;; Ok (points + n)
  else Ok points.
Proof. reflexivity. Qed.

(** C1: when block 5 returns, it has added, for each item it looks at,
    one integer: an integer nearest to the float [float(price) * 0.2],
    the even one of the two when that float lies half way between them;
    the points after the block are the points before plus the sum of
    these integers. *)
Theorem rule5_rounds_each_item_ties_even (U : ucd) (r : Receipt)
  (points points' : Z) :
  rule5 U r points = Ok points' ->
  exists bonuses,
    Forall2 (fun item b =>
               exists x, py_float U (price item) = Ok x
                         /\ nearest_ties_even (float_mul x lit_0_2) b)
      (filter eligible (items r)) bonuses
    /\ points' = points + zsum bonuses.
Proof.
  unfold rule5. generalize (items r) as its. intros its. revert points.
  induction its as [|it its IH]; intros points H.
  - injection H as <-. exists []. split; [constructor|simpl; lia].
  - cbn [for_each] in H. rewrite rule5_item_eligible in H.
    cbn [filter]. destruct (eligible it).
    + destruct (price_points U it) as [n|e] eqn:E; cbn [bind] in H;
        [|discriminate].
      destruct (IH _ H) as (bs & Hbs & ->).
      exists (n :: bs). split.
      * constructor; [apply price_points_nearest; assumption|assumption].
      * simpl. lia.
    + cbn [bind] in H. apply IH. assumption.
Qed.

Lemma rule5_rounds_each_item_ties_even_witness :
  exists bonuses,
    Forall2 (fun item b =>
               exists x, py_float ascii_ucd (price item) = Ok x
                         /\ nearest_ties_even (float_mul x lit_0_2) b)
      (filter eligible (items pizza_receipt)) bonuses
    /\ 2 = 0 + zsum bonuses.
Proof.
  apply (rule5_rounds_each_item_ties_even ascii_ucd pizza_receipt 0 2).
  reflexivity.
Defined.

(** The price 12.50 of [pizza_receipt] times 0.2 is the float 2.5, which
    is 5629499534213120 * 2 ^ -51: block 5 adds 2, where rounding halves
    away from zero would add 3. *)
Lemma rule5_half_away_counterexample :
  valid_receipt ascii_ucd a_today pizza_receipt
  /\ (x <- py_float ascii_ucd (str "12.50") ;; Ok (float_mul x lit_0_2))
     = Ok (S754_finite false 5629499534213120 (-51))
  /\ rule5 ascii_ucd pizza_receipt 0 = Ok 2
  /\ rule5_half_away ascii_ucd pizza_receipt 0 = Ok 3.
Proof.
  repeat split; try reflexivity. repeat constructor.
Qed.

(** ** The length test of block 5 *)




(** ** Prices out of range *)

(** C8: [overflow_receipt] passes validation, being what the construction
    returns on [overflow_data], and has a price of 10 ^ 309, which [float]
    reads as infinity.  [calculate_points] returns no number of points on
    it: [round] raises [OverflowError], and [process_receipt] answers the
    request with status 500. *)
Theorem calculate_points_overflow :
  Receipt_validate ascii_ucd a_today overflow_data = Ok overflow_receipt
  /\ valid_receipt ascii_ucd a_today overflow_receipt
  /\ py_float ascii_ucd (price_e 309) = Ok (S754_infinity false)
  /\ calculate_points ascii_ucd overflow_receipt = Raise OverflowError
  /\ process_receipt ascii_ucd a_today some_rand no_receipts
       (JObject overflow_data)
     = Some (no_receipts,
             mk_response (BodyError "Internal Server Error") 500).
Proof.
  split; [vm_compute; reflexivity|].
  split; [|repeat split; vm_compute; reflexivity].
  repeat split; try reflexivity.
  repeat constructor; vm_compute; reflexivity.
Qed.

(** C9: [second_overflow_receipt] passes validation and the price of its
    second item is 10 ^ 400.  [calculate_points] returns no number of
    points on it, nor on the receipt with the two items in the other
    order: both calls raise [OverflowError]. *)
Theorem calculate_points_permutation_overflow :
  valid_receipt ascii_ucd a_today second_overflow_receipt
  /\ Permutation (items second_overflow_receipt)
       (rev (items second_overflow_receipt))
  /\ valid_receipt ascii_ucd a_today
       (with_items second_overflow_receipt
          (rev (items second_overflow_receipt)))
  /\ calculate_points ascii_ucd second_overflow_receipt
     = Raise OverflowError
  /\ calculate_points ascii_ucd
       (with_items second_overflow_receipt
          (rev (items second_overflow_receipt)))
     = Raise OverflowError.
Proof.
  split; [|split; [apply Permutation_rev|split]].
  - repeat split; try reflexivity.
    repeat constructor; vm_compute; reflexivity.
  - repeat split; try reflexivity.
    repeat constructor; vm_compute; reflexivity.
  - split; vm_compute; reflexivity.
Qed.

(** C10: the fields of [second_overflow_receipt] satisfy the validators,
    [strptime] reads its date and its time and [float] reads its total and
    both prices, the second one, 10 ^ 400, as infinity; yet
    [calculate_points] produces no integer: [round] raises
    [OverflowError]. *)
Theorem calculate_points_raises :
  valid_receipt ascii_ucd a_today second_overflow_receipt
  /\ (exists dt,
        strptime ascii_ucd (purchaseDate second_overflow_receipt) fmt_date
        = Ok dt)
  /\ (exists t,
        strptime ascii_ucd (purchaseTime second_overflow_receipt) fmt_time
        = Ok t)
  /\ (exists x, py_float ascii_ucd (total second_overflow_receipt) = Ok x)
  /\ py_float ascii_ucd (str "6.49")
     = Ok (S754_finite false 7307090395408630 (-50))
  /\ py_float ascii_ucd (price_e 400) = Ok (S754_infinity false)
  /\ calculate_points ascii_ucd second_overflow_receipt
     = Raise OverflowError.
Proof.
  split.
  { repeat split; try reflexivity.
    repeat constructor; vm_compute; reflexivity. }
  split; [eexists; vm_compute; reflexivity|].
  split; [eexists; vm_compute; reflexivity|].
  split; [eexists; vm_compute; reflexivity|].
  repeat split; vm_compute; reflexivity.
Qed.

(** ** Construction of the models *)

Lemma validate_price_outcome (U : ucd) (v : pystr) :
  validator_outcome (validate_price U v).
Proof. unfold validate_price. destruct (re_match _ _ _); exact I. Qed.

Lemma validate_total_outcome (U : ucd) (v : pystr) :
  validator_outcome (validate_total U v).
Proof. unfold validate_total. destruct (re_match _ _ _); exact I. Qed.

Lemma validate_retailer_outcome (U : ucd) (v : pystr) :
  validator_outcome (validate_retailer U v).
Proof. unfold validate_retailer. destruct (re_match _ _ _); exact I. Qed.

Lemma validate_purchaseDate_outcome (U : ucd) (today : date) (v : pystr) :
  validator_outcome (validate_purchaseDate U today v).
Proof.
  unfold validate_purchaseDate. destruct (re_match _ _ _); [|exact I].
  destruct (strptime U v fmt_date) as [dt|e]; [|exact I].
  simpl. destruct (date_gtb _ _); exact I.
Qed.

Lemma validate_purchaseTime_outcome (U : ucd) (v : pystr) :
  validator_outcome (validate_purchaseTime U v).
Proof.
  unfold validate_purchaseTime. destruct (re_match _ _ _); [|exact I].
  destruct (strptime U v fmt_time) as [dt|e]; exact I.
Qed.

Lemma str_field_outcome (name : string) (validator : pystr -> result pystr)
  (members : list (string * json)) :
  (forall s, validator_outcome (validator s)) ->
  validation_outcome (str_field name validator members).
Proof.
  intros Hv. unfold str_field.
  destruct (lookup name members) as [[| | |s| |]|]; try exact I.
  specialize (Hv s). destruct (validator s) as [v|[]]; simpl in *;
    try exact I; contradiction.
Qed.

Lemma gather_outcome {A : Type} (m : result A)
  (errs : list error_details) :
  validation_outcome m ->
  exists o es, gather m errs = Ok (o, errs ++ es)
               /\ (o = None -> m = Raise (ValidationError es)).
Proof.
  destruct m as [a|[]]; simpl; intros H; try contradiction.
  - exists (Some a), []. rewrite app_nil_r. split; [reflexivity|discriminate].
  - exists None, errors. split; reflexivity.
Qed.

Lemma Item_validate_outcome (U : ucd) (j : json) :
  validation_outcome (Item_validate U j).
Proof.
  destruct j; try exact I. unfold Item_validate.
  destruct (gather_outcome (str_field "shortDescription" Ok members) [])
    as (d & es1 & -> & _); [apply str_field_outcome; intros; exact I|].
  cbn [bind].
  destruct (gather_outcome (str_field "price" (validate_price U) members)
              ([] ++ es1))
    as (p & es2 & -> & _);
    [apply str_field_outcome, validate_price_outcome|].
  cbn [bind]. destruct d, p, (([] ++ es1) ++ es2); exact I.
Qed.

Lemma Items_validate_outcome (U : ucd) (elems : list json) (k : nat) :
  validation_outcome (Items_validate U k elems).
Proof.
  revert k. induction elems as [|j elems IH]; intros k; [exact I|].
  cbn [Items_validate].
  destruct (gather_outcome (Item_validate U j) [])
    as (it & es1 & -> & _); [apply Item_validate_outcome|].
  cbn [bind].
  destruct (gather_outcome (Items_validate U (S k) elems) [])
    as (rest & es2 & -> & _); [apply IH|].
  cbn [bind]. destruct it, rest, (map _ _ ++ _); exact I.
Qed.

Lemma Item_validate_missing (U : ucd) (members : list (string * json)) :
  lookup "shortDescription" members = None ->
  exists es,
    Item_validate U (JObject members) = Raise (ValidationError es)
    /\ In (mk_error [Field "shortDescription"] missing) es.
Proof.
  intros H. unfold Item_validate. unfold str_field at 1. rewrite H.
  cbn [gather bind app].
  destruct (gather_outcome (str_field "price" (validate_price U) members)
              [mk_error [Field "shortDescription"] missing])
    as (p & es2 & -> & _);
    [apply str_field_outcome, validate_price_outcome|].
  cbn [bind]. eexists. split; [reflexivity|]. left. reflexivity.
Qed.

Lemma Items_validate_missing (U : ucd) (elems : list json) (i k : nat)
  (members : list (string * json)) :
  nth_error elems i = Some (JObject members) ->
  lookup "shortDescription" members = None ->
  exists es,
    Items_validate U k elems = Raise (ValidationError es)
    /\ In (mk_error [Index (k + i); Field "shortDescription"] missing) es.
Proof.
  revert i k. induction elems as [|j elems IH]; intros i k Hnth Hl.
  - destruct i; discriminate.
  - cbn [Items_validate]. destruct i as [|i].
    + injection Hnth as ->.
      destruct (Item_validate_missing U members Hl) as (es0 & -> & Hin).
      cbn [gather bind app].
      destruct (gather_outcome (Items_validate U (S k) elems) [])
        as (rest & es2 & -> & _); [apply Items_validate_outcome|].
      cbn [bind]. eexists. split; [reflexivity|].
      apply in_or_app. left. rewrite Nat.add_0_r.
      apply (in_map (at_loc [Index k])) in Hin. exact Hin.
    + simpl in Hnth.
      destruct (IH i (S k) Hnth Hl) as (es' & Hes' & Hin).
      destruct (gather_outcome (Item_validate U j) [])
        as (it & es1 & -> & _); [apply Item_validate_outcome|].
      cbn [bind]. rewrite Hes'. cbn [gather bind app].
      replace (k + S i)%nat with (S k + i)%nat by lia.
      destruct it; (eexists; split; [reflexivity|]);
        apply in_or_app; right; exact Hin.
Qed.

(** C4: an item object without a description makes the construction of
    the receipt fail with an error of type [missing] located at that
    item's [shortDescription]; an item whose description is any string,
    the empty one included, and whose price matches is accepted as it
    is. *)
Theorem missing_description_rejected (U : ucd) (today : date) :
  (forall data elems i members,
     lookup "items" data = Some (JArray elems) ->
     nth_error elems i = Some (JObject members) ->
     lookup "shortDescription" members = None ->
     exists errs,
       Receipt_validate U today data = Raise (ValidationError errs)
       /\ In (mk_error [Field "items"; Index i; Field "shortDescription"]
                missing) errs)
  /\ (forall members s p,
        lookup "shortDescription" members = Some (JString s) ->
        lookup "price" members = Some (JString p) ->
        re_match U price_re p = true ->
        Item_validate U (JObject members) = Ok (mk_Item s p)).
Proof.
  split.
  - intros data elems i members Hitems Hnth Hl.
    destruct (Items_validate_missing U elems i 0 members Hnth Hl)
      as (es & Hes & Hin).
    unfold Receipt_validate.
    destruct (gather_outcome
                (str_field "retailer" (validate_retailer U) data) [])
      as (r & es1 & -> & _);
      [apply str_field_outcome, validate_retailer_outcome|].
    cbn [bind].
    destruct (gather_outcome
                (str_field "purchaseDate" (validate_purchaseDate U today)
                   data) ([] ++ es1))
      as (d & es2 & -> & _);
      [apply str_field_outcome, validate_purchaseDate_outcome|].
    cbn [bind].
    destruct (gather_outcome
                (str_field "purchaseTime" (validate_purchaseTime U) data)
                (([] ++ es1) ++ es2))
      as (t & es3 & -> & _);
      [apply str_field_outcome, validate_purchaseTime_outcome|].
    cbn [bind].
    unfold items_field. rewrite Hitems, Hes. cbn [gather bind].
    match goal with
    | |- context [gather (str_field "total" ?v data) ?e] =>
        destruct (gather_outcome (str_field "total" v data) e)
          as (tot & es4 & -> & _);
        [apply str_field_outcome, validate_total_outcome|]
    end.
    cbn [bind].
    eexists. split.
    + destruct r, d, t; reflexivity.
    + apply in_or_app. left. apply in_or_app. right.
      apply (in_map (at_loc [Field "items"])) in Hin. exact Hin.
  - intros members s p Hd Hp Hre.
    unfold Item_validate, str_field, validate_price.
    rewrite Hd, Hp, Hre. reflexivity.
Qed.

Lemma missing_description_rejected_witness :
  (exists errs,
     Receipt_validate ascii_ucd a_today no_description_data
     = Raise (ValidationError errs)
     /\ In (mk_error [Field "items"; Index 1; Field "shortDescription"]
              missing) errs)
  /\ Item_validate ascii_ucd empty_description_item
     = Ok (mk_Item [] (str "1.00")).
Proof.
  split.
  - apply (proj1 (missing_description_rejected ascii_ucd a_today)
             no_description_data
             [empty_description_item;
              JObject [("price"%string, JString (str "1.00"))]]
             1%nat [("price"%string, JString (str "1.00"))]);
      reflexivity.
  - apply (proj2 (missing_description_rejected ascii_ucd a_today));
      reflexivity.
Defined.

(** The construction accepts [empty_description_data]: the receipt it
    returns has an item whose description is the empty string. *)
Lemma empty_description_counterexample :
  Receipt_validate ascii_ucd a_today empty_description_data
  = Ok (mk_Receipt (str "Target") (str "2022-01-01") (str "13:01")
          [mk_Item [] (str "1.00")] (str "1.00")).
Proof. vm_compute. reflexivity. Qed.

(** * Further properties of the validators, the scoring and the handlers *)

(** ** The format of prices and totals *)

Lemma at_eol_cases (tl : pystr) :
  at_eol tl = true <-> tl = [] \/ tl = [chr "010"].
Proof.
  split.
  - destruct tl as [|c [|d tl]]; simpl; try discriminate; auto.
    intros H. apply Z.eqb_eq in H. subst c. auto.
  - intros [->| ->]; reflexivity.
Qed.

Lemma price_re_match (U : ucd) (v : pystr) :
  re_match U price_re v = true <-> amount_shape U v.
Proof.
  split.
  - intros H. apply price_re_shape in H.
    destruct H as (ip & fp & tl & Hv & Hne & Hip & Hlen & Hfp & Htl).
    destruct fp as [|f1 [|f2 [|f3 fp]]]; try discriminate.
    simpl in Hfp. rewrite andb_true_r in Hfp.
    apply andb_true_iff in Hfp. destruct Hfp as [Hf1 Hf2].
    exists ip, f1, f2, tl. apply at_eol_cases in Htl. auto 10.
  - intros (ip & f1 & f2 & tl & -> & Hne & Hip & Hf1 & Hf2 & Htl).
    unfold re_match, price_re. rewrite match_bol.
    apply match_plus. exists ip, (chr "." :: f1 :: f2 :: tl).
    rewrite forallb_digit_set. repeat split; try assumption.
    change (match_here U (Lit ?c :: ?re) ?p (chr "." :: ?s))
      with ((c =? chr ".") && match_here U re (S p) s).
    rewrite Z.eqb_refl, andb_true_l.
    apply match_rep. exists [f1; f2], tl.
    rewrite forallb_digit_set, match_eol. simpl forallb.
    rewrite Hf1, Hf2. repeat split. apply at_eol_cases. assumption.
Qed.

(** X1: [validate_price] and [validate_total] accept the same strings and
    return them unchanged: one or more decimal digits, a point and two
    decimal digits, with at most one newline after them.  On every other
    string each raises a [ValueError] with its own message. *)
Theorem amount_validators_accept_iff (U : ucd) (v : pystr) :
  (validate_price U v = Ok v <-> amount_shape U v)
  /\ (validate_total U v = Ok v <-> amount_shape U v)
  /\ (~ amount_shape U v ->
      validate_price U v
      = Raise (ValueError "Item price must be in the format '0.00'")
      /\ validate_total U v
         = Raise (ValueError "Total must be in the format '0.00'")).
Proof.
  pose proof (price_re_match U v) as Hm.
  unfold validate_price, validate_total.
  destruct (re_match U price_re v); simpl.
  - assert (Hs : amount_shape U v) by (apply Hm; reflexivity).
    repeat split; auto; intros; contradiction.
  - assert (Hs : ~ amount_shape U v)
      by (intros H; apply Hm in H; discriminate).
    repeat split; try discriminate; intros; contradiction.
Qed.

Lemma amount_validators_accept_iff_witness :
  validate_price ascii_ucd (str "3.5")
  = Raise (ValueError "Item price must be in the format '0.00'").
Proof.
  apply (proj2 (proj2 (amount_validators_accept_iff ascii_ucd (str "3.5")))).
  intros (ip & f1 & f2 & tl & Hv & _).
  destruct ip as [|a [|b [|c ip]]]; try discriminate.
  destruct ip; discriminate.
Defined.

(** ** Round dollar totals *)

(** X5: on a total written as digits, a point, two characters and at
    most a final newline, block 2 adds 50 points when the two characters
    are both [0] and nothing follows them, and adds nothing otherwise; a
    total [35.00] followed by a newline, which the validator accepts,
    earns nothing. *)
Theorem rule2_round_dollar (r : Receipt) (points : Z)
  (ip : pystr) (f1 f2 : char) (tl : pystr) :
  total r = ip ++ chr "." :: f1 :: f2 :: tl ->
  tl = [] \/ tl = [chr "010"] ->
  (f1 = chr "0" /\ f2 = chr "0" /\ tl = [] ->
   rule2 r points = Ok (points + 50))
  /\ (f1 <> chr "0" \/ f2 <> chr "0" \/ tl <> [] ->
      rule2 r points = Ok points).
Proof.
  intros Ht Htl. unfold rule2, endswith. rewrite Ht.
  replace (ip ++ chr "." :: f1 :: f2 :: tl)
    with (ip ++ [chr "."; f1; f2] ++ tl) by reflexivity.
  rewrite !rev_app_distr.
  change (rev (str ".00")) with [chr "0"; chr "0"; chr "."].
  destruct Htl as [->| ->]; cbn [rev app startswith].
  - destruct (Z.eqb_spec (chr "0") f2) as [<-|N2];
      [|split; [intros (_ & H & _); congruence | reflexivity]].
    destruct (Z.eqb_spec (chr "0") f1) as [<-|N1];
      [|split; [intros (H & _); congruence | reflexivity]].
    rewrite Z.eqb_refl. cbn [andb].
    replace (startswith (rev ip) []) with true
      by (destruct (rev ip); reflexivity).
    split; [reflexivity|].
    intros [H|[H|H]]; exfalso; apply H; reflexivity.
  - change (chr "0" =? chr "010") with false. cbn [andb].
    split; [intros (_ & _ & H); discriminate | reflexivity].
Qed.

Lemma rule2_round_dollar_witness :
  rule2 (example_receipt [] "13:01" "35.00") 0 = Ok 50.
Proof.
  apply (proj1 (rule2_round_dollar (example_receipt [] "13:01" "35.00") 0
                  (str "35") (chr "0") (chr "0") [] eq_refl
                  (or_introl eq_refl))).
  repeat split.
Defined.

(** ** The purchase time, hour and minute *)

(** A validated time is two digits, a colon and two digits; the hour and
    the minute of the parsed time are the numbers they write, and they
    passed the checks of the constructor. *)
Lemma time_fields (U : ucd) (v : pystr) (t : datetime) :
  re_match U time_re v = true -> strptime U v fmt_time = Ok t ->
  exists c1 c2 c3 c4,
    v = [c1; c2; chr ":"; c3; c4]
    /\ forallb (isdecimal U) [c1; c2; c3; c4] = true
    /\ hour t = number U [c1; c2] /\ minute t = number U [c3; c4]
    /\ check_time_fields (hour t) (minute t) = true.
Proof.
  unfold re_match, time_re.
  rewrite match_bol. intros H.
  apply match_rep in H. destruct H as (hh & b & Hv & Hlen & Hhh & H).
  apply match_lit in H. destruct H as (c & b0 & Hc & Eb & H).
  subst b. rename b0 into b.
  apply match_rep in H. destruct H as (mm & tl & Hb & Hlen' & Hmm & _).
  rewrite forallb_digit_set in Hhh, Hmm.
  destruct hh as [|c1 [|c2 [|c3 hh]]]; try discriminate.
  destruct mm as [|c3 [|c4 [|c5 mm]]]; try discriminate.
  subst c b v. simpl app. clear Hlen Hlen'.
  assert (H1 : isdecimal U c1 = true /\ isdecimal U c2 = true).
  { simpl in Hhh. rewrite andb_true_r in Hhh.
    apply andb_true_iff in Hhh. assumption. }
  destruct H1 as [H1 H2].
  unfold strptime.
  destruct (match_format U fmt_time _) as [[found rem]|] eqn:Hf;
    [|discriminate].
  destruct rem as [|x rem]; [|discriminate].
  unfold fmt_time in Hf. apply match_format_dir in Hf.
  destruct Hf as (a & th & rest & found1 & Ha & Hth & Hf & Hfound).
  cbn [fst snd] in Hf, Hfound. apply match_seq_split in Hth.
  destruct Hth as [Hsplit Hlen].
  apply match_format_lit in Hf. destruct Hf as (rest' & -> & Hf).
  apply match_format_dir in Hf.
  destruct Hf as (a' & tm & rest'' & found2 & Ha' & Htm & Hf & Hfound').
  cbn [fst snd match_format] in Hf, Hfound'. injection Hf as <- ->.
  apply match_seq_split in Htm. destruct Htm as [-> Hlen'].
  rewrite app_nil_r in Hsplit. subst found1 found.
  assert (Hla : (List.length th = 1 \/ List.length th = 2)%nat).
  { rewrite Hlen. simpl in Ha.
    destruct Ha as [<-|[<-|[<-|[]]]]; simpl; auto. }
  assert (Hlm : (List.length tm = 1 \/ List.length tm = 2)%nat).
  { rewrite Hlen'. simpl in Ha'.
    destruct Ha' as [<-|[<-|[]]]; simpl; auto. }
  clear Ha Ha' Hlen Hlen' a a'.
  assert (Hth : th = [c1; c2] /\ tm = [c3; c4] /\ tl = []).
  { destruct th as [|x1 [|x2 [|x3 th]]]; simpl in Hla;
      try (destruct Hla; discriminate).
    - exfalso. simpl in Hsplit. injection Hsplit as _ Hx _.
      pose proof (isdecimal_neq U c2 (chr ":") H2 eq_refl) as Hne.
      rewrite Hx, Z.eqb_refl in Hne. discriminate.
    - simpl in Hsplit. injection Hsplit as <- <- Hsplit.
      destruct tm as [|y1 [|y2 [|y3 tm]]]; simpl in Hlm;
        try (destruct Hlm; discriminate); try discriminate.
      injection Hsplit as <- <- ->. auto. }
  destruct Hth as (-> & -> & ->).
  unfold set_fields, set_field.
  rewrite (py_int_digits U c1 [c2]) by assumption.
  rewrite (py_int_digits U c3 [c4]) by assumption.
  cbn [bind p_year p_month p_day p_hour p_minute parsed_default].
  unfold new_datetime. change (check_date_fields 1900 1 1) with true.
  cbv iota. destruct (check_time_fields _ _) eqn:Ect; [|discriminate].
  intros Ht. injection Ht as <-.
  exists c1, c2, c3, c4. cbn [hour minute].
  repeat split; try reflexivity; try assumption.
  change [c1; c2; c3; c4] with ([c1; c2] ++ [c3; c4]).
  rewrite forallb_app, Hhh, Hmm. reflexivity.
Qed.

(** X2: a purchase time that [validate_purchaseTime] accepts is exactly
    two decimal digits, a colon and two decimal digits, the hour they
    write is between 0 and 23 and the minute between 0 and 59. *)
Theorem validate_purchaseTime_range (U : ucd) (v : pystr) :
  validate_purchaseTime U v = Ok v ->
  exists c1 c2 c3 c4,
    v = [c1; c2; chr ":"; c3; c4]
    /\ forallb (isdecimal U) [c1; c2; c3; c4] = true
    /\ 0 <= number U [c1; c2] <= 23 /\ 0 <= number U [c3; c4] <= 59.
Proof.
  intros Hv. apply validate_purchaseTime_ok in Hv.
  destruct Hv as (Hre & t & Ht).
  destruct (time_fields U v t Hre Ht)
    as (c1 & c2 & c3 & c4 & Hs & Hd & Hh & Hm & Hc).
  exists c1, c2, c3, c4. rewrite <- Hh, <- Hm.
  unfold check_time_fields in Hc.
  repeat (apply andb_true_iff in Hc; destruct Hc as [Hc ?]).
  repeat match goal with
         | H : (_ <=? _) = true |- _ => apply Z.leb_le in H
         end.
  repeat split; assumption.
Qed.

Lemma validate_purchaseTime_range_witness :
  exists c1 c2 c3 c4,
    str "23:59" = [c1; c2; chr ":"; c3; c4]
    /\ forallb (isdecimal ascii_ucd) [c1; c2; c3; c4] = true
    /\ 0 <= number ascii_ucd [c1; c2] <= 23
    /\ 0 <= number ascii_ucd [c3; c4] <= 59.
Proof.
  apply (validate_purchaseTime_range ascii_ucd (str "23:59")). reflexivity.
Defined.

(** ** The purchase date as days go by *)

Lemma date_gtb_trans (a b c : date) :
  date_gtb a b = false -> date_gtb b c = false -> date_gtb a c = false.
Proof.
  unfold date_gtb. intros H1 H2.
  destruct (Z.ltb_spec (date_year c) (date_year a)),
           (Z.eqb_spec (date_year c) (date_year a)),
           (Z.ltb_spec (date_month c) (date_month a)),
           (Z.eqb_spec (date_month c) (date_month a)),
           (Z.ltb_spec (date_day c) (date_day a)); try reflexivity;
    exfalso;
    destruct (Z.ltb_spec (date_year b) (date_year a)),
             (Z.eqb_spec (date_year b) (date_year a)),
             (Z.ltb_spec (date_month b) (date_month a)),
             (Z.eqb_spec (date_month b) (date_month a)),
             (Z.ltb_spec (date_day b) (date_day a)); try discriminate;
    destruct (Z.ltb_spec (date_year c) (date_year b)),
             (Z.eqb_spec (date_year c) (date_year b)),
             (Z.ltb_spec (date_month c) (date_month b)),
             (Z.eqb_spec (date_month c) (date_month b)),
             (Z.ltb_spec (date_day c) (date_day b)); try discriminate;
    lia.
Qed.

(** X3: a purchase date accepted on one day is accepted on every later
    day: when [validate_purchaseDate] returns the value with [today] as
    the current date, it returns it with any date [later] that is not
    before [today]. *)
Theorem validate_purchaseDate_later (U : ucd) (today later : date)
  (v : pystr) :
  validate_purchaseDate U today v = Ok v ->
  date_gtb today later = false ->
  validate_purchaseDate U later v = Ok v.
Proof.
  intros Hv Hl. apply validate_purchaseDate_ok in Hv.
  destruct Hv as (Hre & dt & Hdt & Hle).
  apply validate_purchaseDate_ok. split; [assumption|].
  exists dt. split; [assumption|].
  apply date_gtb_trans with today; assumption.
Qed.

Lemma validate_purchaseDate_later_witness :
  validate_purchaseDate ascii_ucd (mk_date 2030 1 1) (str "2024-06-15")
  = Ok (str "2024-06-15").
Proof.
  apply (validate_purchaseDate_later ascii_ucd a_today); reflexivity.
Defined.

(** ** Odd days *)

Lemma number_two_digits (U : ucd) (c1 c2 : char) (d1 d2 : nat) :
  decimal U c1 = Some d1 -> decimal U c2 = Some d2 ->
  number U [c1; c2] = 10 * Z.of_nat d1 + Z.of_nat d2.
Proof.
  intros E1 E2. unfold number, digit_values. cbn [map].
  rewrite E1, E2. unfold digits_value. cbn [fold_left]. lia.
Qed.

Lemma even_of_nat (d : nat) : (Z.of_nat d mod 2 =? 0) = Nat.even d.
Proof.
  destruct (Nat.even d) eqn:E.
  - apply Nat.even_spec in E. destruct E as [k ->].
    apply Z.eqb_eq. rewrite Nat2Z.inj_mul, Z.mul_comm.
    apply Z.mod_mul. lia.
  - apply Z.eqb_neq. rewrite <- Nat.negb_odd in E.
    apply negb_false_iff, Nat.odd_spec in E. destruct E as [k ->].
    rewrite Nat2Z.inj_add, Nat2Z.inj_mul, Z.add_comm, Z.mul_comm.
    rewrite Z.mod_add by lia. discriminate.
Qed.

(** X6: on a receipt whose purchase date passed the validator, block 6
    looks at the last character of the date only: it is a decimal digit,
    and 6 points are added when that digit is odd and none when it is
    even. *)
Theorem rule6_last_digit (U : ucd) (today : date) (r : Receipt)
  (points : Z) :
  validate_purchaseDate U today (purchaseDate r) = Ok (purchaseDate r) ->
  exists pre c d,
    purchaseDate r = pre ++ [c] /\ decimal U c = Some d
    /\ rule6 U r points = Ok (if Nat.odd d then points + 6 else points).
Proof.
  intros Hv. apply validate_purchaseDate_ok in Hv.
  destruct Hv as (Hre & dt & Hdt & _).
  destruct (date_shape U _ dt Hre Hdt)
    as (yy & mm & dd & Hs & _ & _ & Hld & Hdig & _ & _ & Hday).
  destruct dd as [|c1 [|c2 [|c3 dd]]]; try discriminate.
  rewrite !forallb_app in Hdig.
  apply andb_true_iff in Hdig. destruct Hdig as [_ Hdig].
  apply andb_true_iff in Hdig. destruct Hdig as [_ Hdig].
  simpl in Hdig. rewrite andb_true_r in Hdig.
  apply andb_true_iff in Hdig. destruct Hdig as [H1 H2].
  unfold isdecimal in H1, H2.
  destruct (decimal U c1) as [d1|] eqn:E1; [|discriminate].
  destruct (decimal U c2) as [d2|] eqn:E2; [|discriminate].
  exists (yy ++ chr "-" :: mm ++ chr "-" :: [c1]), c2, d2.
  split; [|split; [assumption|]].
  - rewrite Hs. rewrite <- !app_assoc. simpl. rewrite <- app_assoc.
    reflexivity.
  - unfold rule6. rewrite Hdt. cbn [bind].
    rewrite Hday, (number_two_digits U c1 c2 d1 d2 E1 E2).
    replace ((10 * Z.of_nat d1 + Z.of_nat d2) mod 2)
      with (Z.of_nat d2 mod 2)
      by (rewrite Z.add_comm, Z.mul_comm, (Z.mul_comm _ 10);
          replace (10 * Z.of_nat d1) with (Z.of_nat d1 * 5 * 2) by lia;
          rewrite Z.mod_add by lia; reflexivity).
    rewrite <- Nat.negb_even, (even_of_nat d2).
    destruct (Nat.even d2); reflexivity.
Qed.

Lemma rule6_last_digit_witness :
  exists pre c d,
    str "2022-01-01" = pre ++ [c] /\ decimal ascii_ucd c = Some d
    /\ rule6 ascii_ucd target_receipt 0
       = Ok (if Nat.odd d then 0 + 6 else 0).
Proof.
  apply (rule6_last_digit ascii_ucd a_today target_receipt 0). reflexivity.
Defined.

(** ** Whitespace around descriptions *)

Lemma lstrip_with_nil (p : char -> bool) (s : pystr) :
  lstrip_with p s = [] -> forallb p s = true.
Proof.
  induction s as [|c s IH]; simpl; [reflexivity|].
  destruct (p c); [assumption|discriminate].
Qed.

Lemma lstrip_with_cons_app (p : char -> bool) (s t : pystr) (c : char)
  (s1 : pystr) :
  lstrip_with p s = c :: s1 -> lstrip_with p (s ++ t) = (c :: s1) ++ t.
Proof.
  induction s as [|d s IH]; simpl; [discriminate|].
  destruct (p d); [assumption|].
  intros H. injection H as <- <-. reflexivity.
Qed.

(** Whitespace added around a string is stripped with the rest. *)
Lemma strip_with_pad (p : char -> bool) (pre s post : pystr) :
  forallb p pre = true -> forallb p post = true ->
  strip_with p (pre ++ s ++ post) = strip_with p s.
Proof.
  intros Hpre Hpost. unfold strip_with.
  rewrite lstrip_with_app by assumption.
  destruct (lstrip_with p s) as [|c s1] eqn:E.
  - apply lstrip_with_nil in E.
    rewrite (lstrip_with_app p s post E).
    rewrite (lstrip_with_all p post Hpost). reflexivity.
  - rewrite (lstrip_with_cons_app p s post c s1 E).
    rewrite rev_app_distr.
    rewrite lstrip_with_app by (rewrite forallb_rev; assumption).
    reflexivity.
Qed.

Lemma rule5_item_padded (U : ucd) (points : Z) (a b : Item) :
  padded a b -> rule5_item U points b = rule5_item U points a.
Proof.
  intros (Hp & pre & post & Hpre & Hpost & Hd).
  unfold rule5_item, price_points, strip. rewrite Hp, Hd.
  rewrite strip_with_pad by assumption. reflexivity.
Qed.

Lemma for_each_padded (U : ucd) (its its' : list Item) (points : Z) :
  Forall2 padded its its' ->
  for_each (rule5_item U) its' points = for_each (rule5_item U) its points.
Proof.
  intros H. revert points.
  induction H as [|a b its its' Hab _ IH]; intros points; [reflexivity|].
  cbn [for_each]. rewrite (rule5_item_padded U points a b Hab).
  destruct (rule5_item U points a); cbn [bind]; [apply IH|reflexivity].
Qed.

Lemma bind_ext {A B : Type} (m : result A) (k k' : A -> result B) :
  (forall a, k a = k' a) -> bind m k = bind m k'.
Proof. intros H. destruct m; simpl; [apply H|reflexivity]. Qed.

(** X7: whitespace around descriptions does not change the points: when
    the items of a receipt are replaced, one by one and in order, by items
    with the same price and the same description between added leading and
    trailing whitespace, [calculate_points] gives the same result, be it
    a number or an exception. *)
Theorem calculate_points_padding (U : ucd) (r : Receipt)
  (its : list Item) :
  Forall2 padded (items r) its ->
  calculate_points U (with_items r its) = calculate_points U r.
Proof.
  intros H. unfold calculate_points.
  change (rule1 U (with_items r its) 0) with (rule1 U r 0).
  apply bind_ext. intros p1.
  change (rule2 (with_items r its) p1) with (rule2 r p1).
  apply bind_ext. intros p2.
  change (rule3 U (with_items r its) p2) with (rule3 U r p2).
  apply bind_ext. intros p3.
  unfold rule4. cbn [items with_items].
  rewrite <- (Forall2_length H).
  apply bind_ext. intros p4.
  unfold rule5. cbn [items with_items].
  rewrite (for_each_padded U _ _ p4 H).
  apply bind_ext. intros p5. reflexivity.
Qed.

Lemma calculate_points_padding_witness :
  calculate_points ascii_ucd
    (with_items pizza_receipt
       [mk_Item (str "  Emils Cheese Pizza ") (str "12.50")])
  = calculate_points ascii_ucd pizza_receipt.
Proof.
  apply (calculate_points_padding ascii_ucd pizza_receipt).
  constructor; [|constructor].
  split; [reflexivity|]. exists (str "  "), (str " ").
  repeat split.
Defined.

(** ** What a constructed receipt holds *)

Lemma gather_bind_inv {A B : Type} (m : result A)
  (errs : list error_details)
  (k : option A * list error_details -> result B) (b : B) :
  bind (gather m errs) k = Ok b ->
  (exists a, m = Ok a /\ k (Some a, errs) = Ok b)
  \/ (exists es, m = Raise (ValidationError es)
                 /\ k (None, errs ++ es) = Ok b).
Proof.
  destruct m as [a|[]]; simpl; try discriminate; eauto.
Qed.

Lemma str_field_ok (name : string) (validator : pystr -> result pystr)
  (members : list (string * json)) (v : pystr) :
  str_field name validator members = Ok v ->
  exists s, lookup name members = Some (JString s) /\ validator s = Ok v.
Proof.
  unfold str_field.
  destruct (lookup name members) as [[| | |s| |]|]; try discriminate.
  destruct (validator s) as [v'|[]] eqn:E; try discriminate.
  intros H. injection H as <-. eauto.
Qed.

Lemma validate_retailer_same (U : ucd) (s v : pystr) :
  validate_retailer U s = Ok v -> v = s.
Proof.
  unfold validate_retailer. destruct (negb _); [discriminate|].
  intros H. injection H as <-. reflexivity.
Qed.

Lemma validate_price_same (U : ucd) (s v : pystr) :
  validate_price U s = Ok v -> v = s.
Proof.
  unfold validate_price. destruct (negb _); [discriminate|].
  intros H. injection H as <-. reflexivity.
Qed.

Lemma validate_total_same (U : ucd) (s v : pystr) :
  validate_total U s = Ok v -> v = s.
Proof.
  unfold validate_total. destruct (negb _); [discriminate|].
  intros H. injection H as <-. reflexivity.
Qed.

Lemma validate_purchaseDate_same (U : ucd) (today : date) (s v : pystr) :
  validate_purchaseDate U today s = Ok v -> v = s.
Proof.
  unfold validate_purchaseDate. destruct (negb _); [discriminate|].
  destruct (try_except _ _); cbn [bind]; [|discriminate].
  intros H. injection H as <-. reflexivity.
Qed.

Lemma validate_purchaseTime_same (U : ucd) (s v : pystr) :
  validate_purchaseTime U s = Ok v -> v = s.
Proof.
  unfold validate_purchaseTime. destruct (negb _); [discriminate|].
  destruct (try_except _ _); cbn [bind]; [|discriminate].
  intros H. injection H as <-. reflexivity.
Qed.

Lemma Item_validate_ok (U : ucd) (j : json) (it : Item) :
  Item_validate U j = Ok it -> item_of_json j it /\ valid_item U it.
Proof.
  destruct j as [| | | | |members]; try discriminate.
  unfold Item_validate. intros H.
  apply gather_bind_inv in H.
  destruct H as [(d & Hd & H)|(es & _ & H)]; cbv beta iota in H;
    apply gather_bind_inv in H;
    destruct H as [(p & Hp & H)|(es' & _ & H)]; cbv beta iota in H;
    try discriminate.
  injection H as <-.
  apply str_field_ok in Hd. destruct Hd as (s & Hs & Hd).
  injection Hd as <-.
  apply str_field_ok in Hp. destruct Hp as (s' & Hs' & Hp).
  pose proof (validate_price_same U _ _ Hp) as ->.
  split; [exists members; auto|exact Hp].
Qed.

Lemma Items_validate_ok (U : ucd) (elems : list json) (k : nat)
  (its : list Item) :
  Items_validate U k elems = Ok its ->
  Forall2 item_of_json elems its /\ Forall (valid_item U) its.
Proof.
  revert k its. induction elems as [|j elems IH]; intros k its H.
  - injection H as <-. split; constructor.
  - cbn [Items_validate] in H.
    apply gather_bind_inv in H.
    destruct H as [(it & Hit & H)|(es & _ & H)]; cbv beta iota in H;
      apply gather_bind_inv in H;
      destruct H as [(rest & Hrest & H)|(es' & _ & H)]; cbv beta iota in H;
      try discriminate.
    cbn [map app] in H. injection H as <-.
    apply Item_validate_ok in Hit. destruct Hit as [Hj Hv].
    destruct (IH _ _ Hrest) as [Hjs Hvs].
    split; constructor; assumption.
Qed.

Lemma items_field_ok (U : ucd) (members : list (string * json))
  (its : list Item) :
  items_field U members = Ok its ->
  exists elems,
    lookup "items" members = Some (JArray elems)
    /\ Forall2 item_of_json elems its /\ Forall (valid_item U) its.
Proof.
  unfold items_field.
  destruct (lookup "items" members) as [[| | | |elems|]|]; try discriminate.
  destruct (Items_validate U 0 elems) as [its'|[]] eqn:E; try discriminate.
  intros H. injection H as <-.
  exists elems. split; [reflexivity|]. apply Items_validate_ok with 0%nat.
  assumption.
Qed.

Lemma Receipt_validate_fields (U : ucd) (today : date)
  (data : list (string * json)) (rc : Receipt) :
  Receipt_validate U today data = Ok rc ->
  str_field "retailer" (validate_retailer U) data = Ok (retailer rc)
  /\ str_field "purchaseDate" (validate_purchaseDate U today) data
     = Ok (purchaseDate rc)
  /\ str_field "purchaseTime" (validate_purchaseTime U) data
     = Ok (purchaseTime rc)
  /\ items_field U data = Ok (items rc)
  /\ str_field "total" (validate_total U) data = Ok (total rc).
Proof.
  unfold Receipt_validate. intros H.
  apply gather_bind_inv in H.
  destruct H as [(r & Hr & H)|(es1 & _ & H)]; cbv beta iota in H;
    apply gather_bind_inv in H;
    destruct H as [(d & Hd & H)|(es2 & _ & H)]; cbv beta iota in H;
    apply gather_bind_inv in H;
    destruct H as [(t & Ht & H)|(es3 & _ & H)]; cbv beta iota in H;
    apply gather_bind_inv in H;
    destruct H as [(its & Hits & H)|(es4 & _ & H)]; cbv beta iota in H;
    apply gather_bind_inv in H;
    destruct H as [(tot & Htot & H)|(es5 & _ & H)]; cbv beta iota in H;
    try discriminate;
    try (destruct (_ ++ _); discriminate).
  injection H as <-. cbn [retailer purchaseDate purchaseTime items total].
  auto.
Qed.

(** X4: a receipt that the construction returns satisfies all five
    validators, and its fields are the strings of the request: each of
    [retailer], [purchaseDate], [purchaseTime] and [total] is the string
    under that key, and [items] are built, in order, from the objects of
    the array under [items], each from the strings under
    [shortDescription] and [price]; no value is trimmed or converted. *)
Theorem Receipt_validate_sound (U : ucd) (today : date)
  (data : list (string * json)) (rc : Receipt) :
  Receipt_validate U today data = Ok rc ->
  valid_receipt U today rc
  /\ lookup "retailer" data = Some (JString (retailer rc))
  /\ lookup "purchaseDate" data = Some (JString (purchaseDate rc))
  /\ lookup "purchaseTime" data = Some (JString (purchaseTime rc))
  /\ lookup "total" data = Some (JString (total rc))
  /\ exists elems,
       lookup "items" data = Some (JArray elems)
       /\ Forall2 item_of_json elems (items rc).
Proof.
  intros H. apply Receipt_validate_fields in H.
  destruct H as (Hr & Hd & Ht & Hits & Htot).
  apply str_field_ok in Hr. destruct Hr as (r & Lr & Hr).
  pose proof (validate_retailer_same U _ _ Hr) as Er.
  apply str_field_ok in Hd. destruct Hd as (d & Ld & Hd).
  pose proof (validate_purchaseDate_same U today _ _ Hd) as Ed.
  apply str_field_ok in Ht. destruct Ht as (t & Lt & Ht).
  pose proof (validate_purchaseTime_same U _ _ Ht) as Et.
  apply str_field_ok in Htot. destruct Htot as (tot & Ltot & Htot).
  pose proof (validate_total_same U _ _ Htot) as Etot.
  apply items_field_ok in Hits.
  destruct Hits as (elems & Lits & Hjs & Hvs).
  subst r d t tot.
  unfold valid_receipt. repeat split; try assumption.
  exists elems. split; assumption.
Qed.

Lemma Receipt_validate_sound_witness :
  valid_receipt ascii_ucd a_today target_receipt.
Proof.
  apply (Receipt_validate_sound ascii_ucd a_today target_data target_receipt).
  reflexivity.
Defined.

(** ** The errors of a failed construction *)

Lemma gather_cases {A : Type} (m : result A) (errs : list error_details) :
  validation_outcome m ->
  (exists a, m = Ok a /\ gather m errs = Ok (Some a, errs))
  \/ (exists es, m = Raise (ValidationError es)
                 /\ gather m errs = Ok (None, errs ++ es)).
Proof.
  destruct m as [a|[]]; simpl; intros H; try contradiction; eauto.
Qed.

(** Split on the outcome of the next field gathered in [H]; [tac] shows
    that the field returns or raises a [ValidationError]. *)
Ltac gather_step H tac :=
  match type of H with
  | context [gather ?m ?e] =>
      let a := fresh "a" in
      let es := fresh "es" in
      let Hm := fresh "Hm" in
      let G := fresh "G" in
      destruct (gather_cases m e) as [(a & Hm & G)|(es & Hm & G)];
      [ tac
      | rewrite G in H; cbn [bind] in H; clear G
      | rewrite G in H; cbn [bind] in H; clear G ]
  end.

Lemma str_field_errors (name : string)
  (validator : pystr -> result pystr) (members : list (string * json))
  (es : list error_details) :
  (forall s, validator_outcome (validator s)) ->
  str_field name validator members = Raise (ValidationError es) ->
  exists t, es = [mk_error [Field name] t].
Proof.
  intros Hv. unfold str_field.
  destruct (lookup name members) as [[| | |s| |]|];
    try (intros H; injection H as <-; eauto).
  specialize (Hv s). destruct (validator s) as [v|[]]; simpl in Hv;
    try contradiction; try discriminate.
  intros H; injection H as <-; eauto.
Qed.

Lemma Item_validate_errors (U : ucd) (j : json)
  (es : list error_details) :
  Item_validate U j = Raise (ValidationError es) -> es <> [].
Proof.
  destruct j as [| | | | |members];
    try (intros H; injection H as <-; discriminate).
  unfold Item_validate. intros H.
  gather_step H ltac:(apply str_field_outcome; intros; exact I);
    gather_step H ltac:(apply str_field_outcome, validate_price_outcome);
    try discriminate; injection H as <-;
    repeat match goal with
           | Hm : str_field _ _ _ = Raise _ |- _ =>
               apply str_field_errors in Hm;
               [destruct Hm as (? & ->)
               |first [apply validate_price_outcome | intros; exact I]]
           end;
    discriminate.
Qed.

Lemma Items_validate_errors (U : ucd) (elems : list json) (k : nat)
  (es : list error_details) :
  Items_validate U k elems = Raise (ValidationError es) -> es <> [].
Proof.
  revert k es. induction elems as [|j elems IH]; intros k es H;
    [discriminate|].
  cbn [Items_validate] in H.
  gather_step H ltac:(apply Item_validate_outcome);
    gather_step H ltac:(apply Items_validate_outcome);
    cbn [app map] in H; try discriminate; injection H as <-.
  - apply IH in Hm0. destruct es0; [congruence|discriminate].
  - apply Item_validate_errors in Hm.
    destruct es0; [congruence|discriminate].
  - apply Item_validate_errors in Hm.
    destruct es0; [congruence|discriminate].
Qed.

Lemma items_field_outcome (U : ucd) (members : list (string * json)) :
  validation_outcome (items_field U members).
Proof.
  unfold items_field.
  destruct (lookup "items" members) as [[| | | |elems|]|]; try exact I.
  pose proof (Items_validate_outcome U elems 0) as H.
  destruct (Items_validate U 0 elems) as [its|[]]; simpl in *;
    try exact I; contradiction.
Qed.

Lemma top_level_at_items (e : error_details) :
  top_level (at_loc [Field "items"] e).
Proof. reflexivity. Qed.

Lemma items_field_errors (U : ucd) (members : list (string * json))
  (es : list error_details) :
  items_field U members = Raise (ValidationError es) ->
  es <> [] /\ Forall top_level es.
Proof.
  unfold items_field.
  destruct (lookup "items" members) as [[| | | |elems|]|];
    try (intros H; injection H as <-; split;
         [discriminate | repeat constructor]).
  destruct (Items_validate U 0 elems) as [its|[]] eqn:E; try discriminate.
  intros H. injection H as <-.
  apply Items_validate_errors in E. split.
  - destruct errors; [congruence|discriminate].
  - apply Forall_forall. intros e He. apply in_map_iff in He.
    destruct He as (e0 & <- & _). apply top_level_at_items.
Qed.

Lemma str_field_top_level (name : string)
  (validator : pystr -> result pystr) (members : list (string * json))
  (es : list error_details) :
  receipt_field name = true ->
  (forall s, validator_outcome (validator s)) ->
  str_field name validator members = Raise (ValidationError es) ->
  es <> [] /\ Forall top_level es.
Proof.
  intros Hn Hv H. apply str_field_errors in H; [|assumption].
  destruct H as (t & ->). split; [discriminate|].
  constructor; [exact Hn|constructor].
Qed.

(** A construction that fails raises a [ValidationError] with at least
    one error, each located at or below a field of the receipt. *)
Lemma Receipt_validate_cases (U : ucd) (today : date)
  (data : list (string * json)) :
  (exists rc, Receipt_validate U today data = Ok rc)
  \/ (exists errs,
        Receipt_validate U today data = Raise (ValidationError errs)
        /\ errs <> [] /\ Forall top_level errs).
Proof.
  destruct (Receipt_validate U today data) as [rc|e] eqn:H; [eauto|].
  right. unfold Receipt_validate in H.
  gather_step H ltac:(apply str_field_outcome, validate_retailer_outcome);
    gather_step H
      ltac:(apply str_field_outcome, validate_purchaseDate_outcome);
    gather_step H
      ltac:(apply str_field_outcome, validate_purchaseTime_outcome);
    gather_step H ltac:(apply items_field_outcome);
    gather_step H ltac:(apply str_field_outcome, validate_total_outcome);
    try discriminate; injection H as <-;
    repeat match goal with
           | Hm : str_field _ (validate_retailer _) _ = Raise _ |- _ =>
               apply str_field_top_level in Hm;
               [|reflexivity|apply validate_retailer_outcome]
           | Hm : str_field _ (validate_purchaseDate _ _) _ = Raise _ |- _ =>
               apply str_field_top_level in Hm;
               [|reflexivity|apply validate_purchaseDate_outcome]
           | Hm : str_field _ (validate_purchaseTime _) _ = Raise _ |- _ =>
               apply str_field_top_level in Hm;
               [|reflexivity|apply validate_purchaseTime_outcome]
           | Hm : str_field _ (validate_total _) _ = Raise _ |- _ =>
               apply str_field_top_level in Hm;
               [|reflexivity|apply validate_total_outcome]
           | Hm : items_field _ _ = Raise _ |- _ =>
               apply items_field_errors in Hm
           end;
    eexists; (split; [reflexivity|]); rewrite ?app_nil_l;
    (split;
     [ intros Heq;
       repeat match goal with
              | Hq : _ ++ _ = [] |- _ =>
                  apply app_eq_nil in Hq; destruct Hq
              end;
       repeat match goal with
              | Hne : ?x <> [] /\ _ |- _ => destruct Hne
              end;
       congruence
     | repeat (apply Forall_app; split);
       repeat match goal with
              | Hne : ?x <> [] /\ _ |- _ => destruct Hne
              end;
       assumption ]).
Qed.

(** ** Receipt ids *)

Lemma pystr_eqb_eq (s t : pystr) : pystr_eqb s t = true <-> s = t.
Proof.
  revert t. induction s as [|c s IH]; intros [|d t]; simpl;
    try (split; [discriminate|discriminate]); [tauto|].
  rewrite andb_true_iff, Z.eqb_eq, IH. split.
  - intros [-> ->]. reflexivity.
  - intros H. injection H as -> ->. auto.
Qed.

Lemma db_set_same (db : receipts) (key : pystr) (points : Z) :
  db_set db key points key = Some points.
Proof.
  unfold db_set. replace (pystr_eqb key key) with true; [reflexivity|].
  symmetry. apply pystr_eqb_eq. reflexivity.
Qed.

Lemma db_set_other (db : receipts) (key k : pystr) (points : Z) :
  k <> key -> db_set db key points k = db k.
Proof.
  intros H. unfold db_set. destruct (pystr_eqb k key) eqn:E; [|reflexivity].
  apply pystr_eqb_eq in E. contradiction.
Qed.

Lemma uuid_char_hex (x : Z) : uuid_char (hex_digit (x mod 16)) = true.
Proof.
  pose proof (Z.mod_pos_bound x 16 ltac:(lia)) as H.
  unfold hex_digit, uuid_char.
  change (chr "0") with 48. change (chr "a") with 97.
  destruct (Z.ltb_spec (x mod 16) 10).
  - replace ((48 <=? 48 + x mod 16) && (48 + x mod 16 <=? 57)) with true;
      [reflexivity|].
    symmetry. apply andb_true_iff. split; apply Z.leb_le; lia.
  - replace ((97 <=? 97 + (x mod 16 - 10))
             && (97 + (x mod 16 - 10) <=? 102)) with true;
      [rewrite orb_true_r; reflexivity|].
    symmetry. apply andb_true_iff. split; apply Z.leb_le; lia.
Qed.

Lemma uuid_char_not_space (c : char) :
  uuid_char c = true -> isspace c = false.
Proof.
  unfold uuid_char. intros H.
  assert (Hc : 48 <= c <= 57 \/ 97 <= c <= 102 \/ c = 45).
  { apply orb_true_iff in H. destruct H as [H|H].
    - apply orb_true_iff in H. destruct H as [H|H];
        apply andb_true_iff in H; destruct H as [H1 H2];
        apply Z.leb_le in H1; apply Z.leb_le in H2; lia.
    - apply Z.eqb_eq in H. lia. }
  unfold isspace.
  repeat match goal with
         | |- context [?a <=? ?b] =>
             destruct (Z.leb_spec a b); try lia
         | |- context [?a =? ?b] =>
             destruct (Z.eqb_spec a b); try lia
         end; reflexivity.
Qed.

(** An id is 36 characters, hexadecimal digits and hyphens. *)
Lemma uuid_str_format (n : Z) :
  List.length (uuid_str n) = 36%nat
  /\ forallb uuid_char (uuid_str n) = true.
Proof.
  unfold uuid_str, hex32.
  cbn [seq map firstn skipn app List.length forallb].
  split; [reflexivity|].
  rewrite !uuid_char_hex. reflexivity.
Qed.

Lemma match_nonspace_uuid_chars (s : pystr) :
  s <> [] -> forallb uuid_char s = true -> match_nonspace s = true.
Proof.
  induction s as [|c s IH]; [congruence|]. intros _ H.
  cbn [forallb] in H. apply andb_true_iff in H. destruct H as [Hc Hs].
  cbn [match_nonspace]. rewrite (uuid_char_not_space c Hc). cbn [negb andb].
  destruct s as [|d s]; [reflexivity|].
  rewrite IH by (assumption || discriminate). reflexivity.
Qed.

Lemma match_nonspace_new_id (rand : Z) : match_nonspace (new_id rand) = true.
Proof.
  destruct (uuid_str_format (uuid4_int rand)) as [Hlen Hall].
  apply match_nonspace_uuid_chars; [|assumption].
  unfold new_id. destruct (uuid_str _); [discriminate|discriminate].
Qed.

(** ** The format of the id [get_points] asks for *)

Lemma match_nonspace_iff (s : pystr) :
  match_nonspace s = true <->
  exists a,
    a <> [] /\ forallb (fun c => negb (isspace c)) a = true
    /\ (s = a \/ s = a ++ [chr "010"]).
Proof.
  induction s as [|c s IH].
  - simpl. split; [discriminate|].
    intros (a & Hne & _ & [H|H]); destruct a; try congruence; discriminate.
  - cbn [match_nonspace]. rewrite andb_true_iff, orb_true_iff, IH.
    rewrite at_eol_cases. split.
    + intros [Hc [(a & Hne & Ha & Hs)|Hs]].
      * exists (c :: a). cbn [forallb]. rewrite Hc, Ha.
        repeat split; [discriminate|].
        destruct Hs as [->| ->]; auto.
      * exists [c]. cbn [forallb]. rewrite Hc.
        repeat split; [discriminate|].
        destruct Hs as [->| ->]; auto.
    + intros (a & Hne & Ha & Hs).
      destruct a as [|c' a]; [congruence|].
      cbn [forallb] in Ha. apply andb_true_iff in Ha.
      destruct Ha as [Hc Ha].
      assert (Hcc : c' = c) by (destruct Hs as [Hs|Hs]; injection Hs; auto).
      subst c'. split; [assumption|].
      destruct a as [|d a].
      * right. destruct Hs as [Hs|Hs]; injection Hs as ->; auto.
      * left. exists (d :: a). repeat split; try assumption; try discriminate.
        destruct Hs as [Hs|Hs]; injection Hs as ->; auto.
Qed.

(** X11: the answers of [get_points].  An id is well formed when it is one
    or more characters none of which is whitespace, with at most one
    newline after them.  An id that is not well formed is answered with
    status 400 and [Invalid receipt ID format.]; a well-formed id that is
    not in the dict with 404 and [Receipt not found.]; a well-formed id in
    the dict with 200 and its points. *)
Theorem get_points_statuses (db : receipts) (receipt_id : pystr) :
  let well_formed :=
    exists a,
      a <> [] /\ forallb (fun c => negb (isspace c)) a = true
      /\ (receipt_id = a \/ receipt_id = a ++ [chr "010"]) in
  (~ well_formed ->
   get_points db receipt_id
   = mk_response (BodyError "Invalid receipt ID format.") 400)
  /\ (well_formed -> db receipt_id = None ->
      get_points db receipt_id
      = mk_response (BodyError "Receipt not found.") 404)
  /\ (forall points,
        well_formed -> db receipt_id = Some points ->
        get_points db receipt_id = mk_response (BodyPoints points) 200).
Proof.
  cbv zeta. pose proof (match_nonspace_iff receipt_id) as Hm.
  unfold get_points.
  destruct (match_nonspace receipt_id); cbn [negb].
  - repeat split.
    + intros H. exfalso. apply H, Hm. reflexivity.
    + intros _ ->. reflexivity.
    + intros points _ ->. reflexivity.
  - repeat split; try reflexivity.
    + intros H. apply Hm in H. discriminate.
    + intros points H. apply Hm in H. discriminate.
Qed.

Lemma get_points_statuses_witness :
  get_points no_receipts (str "a b")
  = mk_response (BodyError "Invalid receipt ID format.") 400
  /\ get_points no_receipts (str "abc")
     = mk_response (BodyError "Receipt not found.") 404.
Proof.
  split.
  - apply (proj1 (get_points_statuses no_receipts (str "a b"))).
    intros (a & Hne & Ha & Hs).
    assert (Ha' : forallb (fun c => negb (isspace c)) (str "a b") = true).
    { destruct Hs as [<-|Hs]; [exact Ha|].
      destruct a as [|a1 [|a2 [|a3 a]]]; try discriminate.
      destruct a; discriminate. }
    discriminate.
  - apply (proj1 (proj2 (get_points_statuses no_receipts (str "abc"))));
      [|reflexivity].
    exists (str "abc"). repeat split; [discriminate|auto].
Defined.

(** ** [process_receipt] *)

Lemma Receipt_validate_valid (U : ucd) (today : date)
  (data : list (string * json)) (rc : Receipt) :
  Receipt_validate U today data = Ok rc -> valid_receipt U today rc.
Proof.
  intros H. apply Receipt_validate_fields in H.
  destruct H as (Hr & Hd & Ht & Hits & Htot).
  apply str_field_ok in Hr. destruct Hr as (r & Lr & Hr).
  pose proof (validate_retailer_same U _ _ Hr) as Er.
  apply str_field_ok in Hd. destruct Hd as (d & Ld & Hd).
  pose proof (validate_purchaseDate_same U today _ _ Hd) as Ed.
  apply str_field_ok in Ht. destruct Ht as (t & Lt & Ht).
  pose proof (validate_purchaseTime_same U _ _ Ht) as Et.
  apply str_field_ok in Htot. destruct Htot as (tot & Ltot & Htot).
  pose proof (validate_total_same U _ _ Htot) as Etot.
  apply items_field_ok in Hits.
  destruct Hits as (elems & Lits & Hjs & Hvs).
  subst r d t tot.
  unfold valid_receipt. repeat split; assumption.
Qed.

Lemma calculate_points_valid_cases (U : ucd) (today : date) (r : Receipt) :
  valid_receipt U today r ->
  (exists points, calculate_points U r = Ok points)
  \/ calculate_points U r = Raise OverflowError.
Proof.
  intros Hv.
  destruct (other_rules_valid U today r Hv)
    as (c1 & c2 & c3 & c6 & c7 & _ & H1 & H2 & H3 & H6 & H7).
  rewrite (calculate_points_steps U r c1 c2 c3 _ c6 c7 H1 H2 H3
             (rule4_adds r) H6 H7).
  destruct Hv as (_ & _ & _ & Hits & _).
  unfold rule5. rewrite (rule5_valid U (items r) _ Hits).
  destruct (forallb (item_ok U) (items r)); cbn [bind].
  - left. eexists. reflexivity.
  - right. reflexivity.
Qed.

Lemma error_entries_top_level (errs : list error_details) :
  Forall top_level errs ->
  exists entries,
    error_entries errs = Some entries
    /\ Forall2 entry_of errs entries
    /\ Forall field_entry entries.
Proof.
  induction 1 as [|e errs He _ (entries & IH & H2 & Hf)].
  - exists []. repeat split; constructor.
  - cbn [error_entries]. rewrite IH. unfold top_level in He.
    destruct (loc e) as [|[name|k] rest] eqn:El; try contradiction.
    eexists. split; [reflexivity|]. split; constructor; try assumption.
    unfold entry_of. cbn [entry_type entry_msg attribute].
    repeat split. exists rest. exact El.
Qed.

(** What a call of [process_receipt] does, by the outcome of the
    construction and of the scoring. *)
Lemma process_receipt_cases (U : ucd) (today : date) (rand : Z)
  (db : receipts) (data : json) :
  (exists members rc points,
      data = JObject members
      /\ Receipt_validate U today members = Ok rc
      /\ calculate_points U rc = Ok points
      /\ process_receipt U today rand db data
         = Some (db_set db (new_id rand) points,
                 mk_response (BodyId (new_id rand)) 200))
  \/ (exists members errs entries,
         data = JObject members
         /\ Receipt_validate U today members = Raise (ValidationError errs)
         /\ errs <> []
         /\ Forall2 entry_of errs entries
         /\ Forall field_entry entries
         /\ process_receipt U today rand db data
            = Some (db, mk_response (BodyErrors entries) 400))
  \/ (((forall members, data <> JObject members)
       \/ exists members rc,
            data = JObject members
            /\ Receipt_validate U today members = Ok rc
            /\ calculate_points U rc = Raise OverflowError)
      /\ process_receipt U today rand db data
         = Some (db, mk_response (BodyError "Internal Server Error") 500)).
Proof.
  destruct data as [| | | | |members];
    try (right; right; split; [left; intros m; discriminate|reflexivity]).
  cbn [process_receipt].
  destruct (Receipt_validate_cases U today members)
    as [(rc & Hrc)|(errs & Herrs & Hne & Htop)].
  - rewrite Hrc. cbn [bind].
    destruct (calculate_points_valid_cases U today rc
                (Receipt_validate_valid U today members rc Hrc))
      as [(points & Hp)|Hp]; rewrite Hp; cbn [bind].
    + left. exists members, rc, points. repeat split; assumption.
    + right; right. split; [|reflexivity].
      right. exists members, rc. repeat split; assumption.
  - rewrite Herrs. cbn [bind].
    destruct (error_entries_top_level errs Htop) as (entries & -> & H2 & Hf).
    right; left. exists members, errs, entries. repeat split; assumption.
Qed.

(** X8: a receipt that was processed can be looked up.  When
    [process_receipt] answers with status 200, the request was an object
    from which a receipt was built and scored, the body carries the new
    id, [get_points] on the dict after the call answers that id with
    status 200 and the points of the receipt, and for every other id it
    answers as it did on the dict before the call. *)
Theorem process_receipt_then_get_points (U : ucd) (today : date) (rand : Z)
  (db db' : receipts) (data : json) (resp : response) :
  process_receipt U today rand db data = Some (db', resp) ->
  status resp = 200 ->
  exists members rc points,
    data = JObject members
    /\ Receipt_validate U today members = Ok rc
    /\ calculate_points U rc = Ok points
    /\ resp_body resp = BodyId (new_id rand)
    /\ get_points db' (new_id rand) = mk_response (BodyPoints points) 200
    /\ forall k, k <> new_id rand -> get_points db' k = get_points db k.
Proof.
  intros H Hs.
  destruct (process_receipt_cases U today rand db data)
    as [(members & rc & points & Hd & Hrc & Hp & E)
       |[(members & errs & entries & _ & _ & _ & _ & _ & E)|(_ & E)]];
    rewrite E in H; injection H as <- <-; try discriminate Hs.
  exists members, rc, points. repeat split; try assumption.
  - unfold get_points. rewrite match_nonspace_new_id. cbn [negb].
    rewrite db_set_same. reflexivity.
  - intros k Hk. unfold get_points. rewrite (db_set_other db _ k points Hk).
    reflexivity.
Qed.

Lemma process_receipt_then_get_points_witness :
  exists points,
    get_points (db_set no_receipts (new_id some_rand) 12) (new_id some_rand)
    = mk_response (BodyPoints points) 200.
Proof.
  destruct (process_receipt_then_get_points ascii_ucd a_today some_rand
              no_receipts
              (db_set no_receipts (new_id some_rand) 12)
              (JObject target_data)
              (mk_response (BodyId (new_id some_rand)) 200)
              eq_refl eq_refl)
    as (_ & _ & points & _ & _ & _ & _ & H & _).
  exists points. exact H.
Defined.

(** X9: [process_receipt] always answers, never letting an exception
    out, with status 200, 400 or 500, and changes the dict only when it
    answers 200.  It answers 400 exactly when the request is an object for
    which the construction raises a [ValidationError], and the body is
    then a list of errors, never the plain message of the [ValueError]
    handler.  It answers 500 exactly when the request is not an object or
    the scoring of the built receipt raises [OverflowError], and the body
    is then [Internal Server Error]. *)
Theorem process_receipt_statuses (U : ucd) (today : date) (rand : Z)
  (db : receipts) (data : json) :
  exists db' resp,
    process_receipt U today rand db data = Some (db', resp)
    /\ (status resp = 200 \/ status resp = 400 \/ status resp = 500)
    /\ (status resp <> 200 -> db' = db)
    /\ (status resp = 400 <->
        exists members errs,
          data = JObject members
          /\ Receipt_validate U today members = Raise (ValidationError errs))
    /\ (status resp = 400 -> exists entries, resp_body resp = BodyErrors entries)
    /\ (status resp = 500 <->
        (forall members, data <> JObject members)
        \/ exists members rc,
             data = JObject members
             /\ Receipt_validate U today members = Ok rc
             /\ calculate_points U rc = Raise OverflowError)
    /\ (status resp = 500 ->
        resp_body resp = BodyError "Internal Server Error").
Proof.
  destruct (process_receipt_cases U today rand db data)
    as [(members & rc & points & Hd & Hrc & Hp & E)
       |[(members & errs & entries & Hd & Herrs & _ & _ & _ & E)
        |(Hc & E)]];
    rewrite E; do 2 eexists; (split; [reflexivity|]);
    cbn [status resp_body].
  - split; [auto|]. split; [congruence|].
    split; [split; [discriminate|]|].
    { intros (m & errs & -> & Herrs). injection Hd as <-. congruence. }
    split; [discriminate|].
    split; [split; [discriminate|]|discriminate].
    intros [Hno|(m & rc' & -> & Hrc' & Hp')].
    + exfalso. exact (Hno members Hd).
    + injection Hd as <-. congruence.
  - split; [auto|]. split; [reflexivity|].
    split; [split; [|reflexivity]|].
    { intros _. exists members, errs. auto. }
    split; [intros _; exists entries; reflexivity|].
    split; [split; [discriminate|]|discriminate].
    intros [Hno|(m & rc' & -> & Hrc' & Hp')].
    + exfalso. exact (Hno members Hd).
    + injection Hd as <-. congruence.
  - split; [auto|]. split; [reflexivity|].
    split; [split; [discriminate|]|].
    { intros (m & errs & -> & Herrs).
      destruct Hc as [Hno|(m' & rc & Hd & Hrc & _)].
      - exfalso. exact (Hno m eq_refl).
      - injection Hd as <-. congruence. }
    split; [discriminate|].
    split; [split; [intros _; exact Hc|reflexivity]|reflexivity].
Qed.

(** X10: when the construction raises a [ValidationError],
    [process_receipt] leaves the dict as it was and answers with status
    400 and a list of entries that is not empty and has one entry for each
    error, in order, with the type and the message of the error and the
    first element of its location as attribute.  Every attribute is one of
    the five field names of [Receipt]: an error inside an item is reported
    under [items], without the index of the item or the name of its
    field. *)
Theorem process_receipt_validation_errors (U : ucd) (today : date)
  (rand : Z) (db : receipts) (members : list (string * json))
  (errs : list error_details) :
  Receipt_validate U today members = Raise (ValidationError errs) ->
  exists entries,
    process_receipt U today rand db (JObject members)
    = Some (db, mk_response (BodyErrors entries) 400)
    /\ entries <> []
    /\ Forall2 entry_of errs entries
    /\ Forall field_entry entries.
Proof.
  intros H.
  destruct (process_receipt_cases U today rand db (JObject members))
    as [(m & rc & points & Hd & Hrc & _)
       |[(m & errs' & entries & Hd & Herrs & Hne & H2 & Hf & E)
        |([Hno|(m & rc & Hd & Hrc & _)] & _)]];
    try (injection Hd as <-; rewrite H in *; try discriminate).
  - injection Herrs as <-. exists entries. repeat split; try assumption.
    intros ->. inversion H2. subst. congruence.
  - exfalso. exact (Hno members eq_refl).
Qed.

Lemma process_receipt_validation_errors_witness :
  exists entries,
    process_receipt ascii_ucd a_today some_rand no_receipts
      (JObject no_description_data)
    = Some (no_receipts, mk_response (BodyErrors entries) 400)
    /\ entries <> [].
Proof.
  destruct (process_receipt_validation_errors ascii_ucd a_today some_rand
              no_receipts no_description_data _ eq_refl)
    as (entries & H & Hne & _).
  exists entries. split; assumption.
Defined.
